(** * Entropy-based random number generator: model and verification

    Shallow embedding of [entropy_rng.py] (command-line variant) and of
    the collector and generator classes of [entropy_rng_gui.py] (variant
    with the audio source).

    Conventions of the model.
    - Python [int] is [Z]; bit operations are [Z.land], [Z.lxor], which
      agree with Python on negative numbers (two's complement).
    - [bytes] is [list byte].
    - Readings of [time.time()] (seconds, a float in the source) are exact
      rationals [Q]; readings of [time.time_ns()] are [Z].  Clock readings
      are inputs of the operation that takes them.
    - [collections.deque(maxlen=n)] is a record of the bound and the items,
      oldest first.
    - [hashlib.sha256] is the function [SHA256.sha256] below; a hash object
      is the byte string fed to it so far.
    - Calls on objects outside the program (listener, threads, audio
      stream) are recorded, in order, in the [effects] field of the
      collector. *)

From Stdlib Require Import String Ascii Strings.Byte DecimalString.
From Stdlib Require Import ZArith QArith Qround Bool Lia Lqa List.
Import ListNotations.

Local Open Scope Z_scope.

(** ** collections.deque with a maximum length *)

Module Deque.

Record t : Type := mk { maxlen : nat; items : list Z }.

(** [deque(maxlen=n)] *)
Definition empty (n : nat) : t := mk n [].

(** [len(d)] *)
Definition len (d : t) : Z := Z.of_nat (length (items d)).

(** [d.append(x)]: the item is added on the right; when the bound is
    exceeded one item is dropped from the left. *)
Definition append (x : Z) (d : t) : t :=
  let grown := items d ++ [x] in
  if (maxlen d <? length grown)%nat then mk (maxlen d) (tl grown)
  else mk (maxlen d) grown.

(** [list(d)] *)
Definition to_list (d : t) : list Z := items d.

(** Successive appends, first element of [xs] first. *)
Definition append_all (xs : list Z) (d : t) : t :=
  fold_left (fun acc x => append x acc) xs d.

End Deque.

(** ** Byte strings: int.to_bytes, int.from_bytes, str, str.encode *)

Module Codec.

Definition byte_of_Z (z : Z) : byte :=
  match Byte.of_N (Z.to_N (z mod 256)) with
  | Some b => b
  | None => x00
  end.

Definition Z_of_byte (b : byte) : Z := Z.of_N (Byte.to_N b).

(** Big-endian encoding on [n] bytes of a number known to fit. *)
Fixpoint be_bytes (n : nat) (z : Z) : list byte :=
  match n with
  | O => []
  | S k => byte_of_Z (Z.shiftr z (8 * Z.of_nat k)) :: be_bytes k z
  end.

(** [z.to_bytes(4, 'big')]: [None] stands for OverflowError, raised for
    a negative number and for one that needs more than four bytes. *)
Definition to_bytes4 (z : Z) : option (list byte) :=
  if (0 <=? z) && (z <? 2 ^ 32) then Some (be_bytes 4 z) else None.

(** [int.from_bytes(bs, 'big')] *)
Definition from_bytes_big (bs : list byte) : Z :=
  fold_left (fun acc b => acc * 256 + Z_of_byte b) bs 0.

(** [str(z)] for an int: decimal digits, with a minus sign when
    negative. *)
Definition str (z : Z) : string := NilZero.string_of_int (Z.to_int z).

(** [s.encode()] on an ASCII string. *)
Definition encode (s : string) : list byte := list_byte_of_string s.

End Codec.

(** ** hashlib.sha256 (FIPS 180-4) *)

Module SHA256.

Definition mask32 : Z := 0xFFFFFFFF.

Definition add32 (a b : Z) : Z := Z.land (a + b) mask32.
Definition rotr (n x : Z) : Z :=
  Z.lor (Z.shiftr x n) (Z.land (Z.shiftl x (32 - n)) mask32).
Definition shr (n x : Z) : Z := Z.shiftr x n.
Definition not32 (x : Z) : Z := Z.lxor x mask32.

Definition Ch (x y z : Z) : Z :=
  Z.lxor (Z.land x y) (Z.land (not32 x) z).
Definition Maj (x y z : Z) : Z :=
  Z.lxor (Z.lxor (Z.land x y) (Z.land x z)) (Z.land y z).
Definition Sigma0 (x : Z) : Z :=
  Z.lxor (Z.lxor (rotr 2 x) (rotr 13 x)) (rotr 22 x).
Definition Sigma1 (x : Z) : Z :=
  Z.lxor (Z.lxor (rotr 6 x) (rotr 11 x)) (rotr 25 x).
Definition sigma0 (x : Z) : Z :=
  Z.lxor (Z.lxor (rotr 7 x) (rotr 18 x)) (shr 3 x).
Definition sigma1 (x : Z) : Z :=
  Z.lxor (Z.lxor (rotr 17 x) (rotr 19 x)) (shr 10 x).

(** Round constants: the first 32 bits of the fractional parts of the
    cube roots of the first 64 primes (checked below). *)
Definition K : list Z :=
  [ 1116352408; 1899447441; 3049323471; 3921009573;
    961987163; 1508970993; 2453635748; 2870763221;
    3624381080;  310598401;  607225278; 1426881987;
    1925078388; 2162078206; 2614888103; 3248222580;
    3835390401; 4022224774;  264347078;  604807628;
    770255983; 1249150122; 1555081692; 1996064986;
    2554220882; 2821834349; 2952996808; 3210313671;
    3336571891; 3584528711;  113926993;  338241895;
    666307205;  773529912; 1294757372; 1396182291;
    1695183700; 1986661051; 2177026350; 2456956037;
    2730485921; 2820302411; 3259730800; 3345764771;
    3516065817; 3600352804; 4094571909;  275423344;
    430227734;  506948616;  659060556;  883997877;
    958139571; 1322822218; 1537002063; 1747873779;
    1955562222; 2024104815; 2227730452; 2361852424;
    2428436474; 2756734187; 3204031479; 3329325298 ].

(** The eight working variables, also the chaining value. *)
Record regs : Type :=
  Regs { ra : Z; rb : Z; rc : Z; rd : Z; re : Z; rf : Z; rg : Z; rh : Z }.

(** Initial chaining value: the first 32 bits of the fractional parts of
    the square roots of the first 8 primes (checked below). *)
Definition H0 : regs :=
  Regs 1779033703 3144134277 1013904242 2773480762
       1359893119 2600822924 528734635 1541459225.

(** Padding: a one bit, zero bits up to 56 modulo 64 bytes, then the
    length in bits on eight bytes. *)
Definition pad (msg : list byte) : list byte :=
  let l := Z.of_nat (length msg) in
  msg ++ [x80] ++ repeat x00 (Z.to_nat ((55 - l) mod 64))
      ++ Codec.be_bytes 8 (8 * l).

(** Big-endian 32-bit words of a byte string. *)
Fixpoint words (bs : list byte) : list Z :=
  match bs with
  | b0 :: b1 :: b2 :: b3 :: rest =>
      Codec.from_bytes_big [b0; b1; b2; b3] :: words rest
  | _ => []
  end.

(** Message schedule, kept newest first: the head is W[t-1]. *)
Fixpoint extend (n : nat) (rev_w : list Z) : list Z :=
  match n with
  | O => rev_w
  | S k =>
      let w :=
        add32 (add32 (sigma1 (nth 1 rev_w 0)) (nth 6 rev_w 0))
              (add32 (sigma0 (nth 14 rev_w 0)) (nth 15 rev_w 0)) in
      extend k (w :: rev_w)
  end.

Definition schedule (block : list Z) : list Z :=
  rev (extend 48 (rev block)).

Definition round (r : regs) (kw : Z * Z) : regs :=
  let t1 :=
    add32 (add32 (add32 (rh r) (Sigma1 (re r)))
                 (add32 (Ch (re r) (rf r) (rg r)) (fst kw))) (snd kw) in
  let t2 := add32 (Sigma0 (ra r)) (Maj (ra r) (rb r) (rc r)) in
  Regs (add32 t1 t2) (ra r) (rb r) (rc r)
       (add32 (rd r) t1) (re r) (rf r) (rg r).

Definition compress (h : regs) (block : list Z) : regs :=
  let r := fold_left round (combine K (schedule block)) h in
  Regs (add32 (ra h) (ra r)) (add32 (rb h) (rb r))
       (add32 (rc h) (rc r)) (add32 (rd h) (rd r))
       (add32 (re h) (re r)) (add32 (rf h) (rf r))
       (add32 (rg h) (rg r)) (add32 (rh h) (rh r)).

Fixpoint blocks (n : nat) (ws : list Z) (h : regs) : regs :=
  match n with
  | O => h
  | S k => blocks k (skipn 16 ws) (compress h (firstn 16 ws))
  end.

Definition sha256 (msg : list byte) : list byte :=
  let ws := words (pad msg) in
  let h := blocks (Nat.div (length ws) 16) ws H0 in
  flat_map (Codec.be_bytes 4)
    [ra h; rb h; rc h; rd h; re h; rf h; rg h; rh h].

End SHA256.

(** The first 64 primes. *)
Definition first_primes : list Z :=
  [ 2; 3; 5; 7; 11; 13; 17; 19; 23; 29; 31; 37; 41; 43; 47; 53;
    59; 61; 67; 71; 73; 79; 83; 89; 97; 101; 103; 107; 109; 113; 127; 131;
    137; 139; 149; 151; 157; 163; 167; 173; 179; 181; 191; 193; 197; 199;
    211; 223; 227; 229; 233; 239; 241; 251; 257; 263; 269; 271; 277; 281;
    283; 293; 307; 311 ].

(** [bits] is the first 32 bits of the fractional part of the [e]-th root
    of [p]: for the integer part [n] of the root,
    (n + bits/2^32)^e <= p < (n + (bits+1)/2^32)^e. *)
Definition root_fraction_bits (e p bits : Z) : bool :=
  (0 <=? bits) && (bits <? 2 ^ 32)
  && existsb
       (fun n =>
          let r := n * 2 ^ 32 + bits in
          (r ^ e <=? p * 2 ^ (32 * e)) && (p * 2 ^ (32 * e) <? (r + 1) ^ e))
       (map Z.of_nat (seq 0 8)).

(** A hash object: [hashlib.sha256()] starts empty, [update] appends,
    [digest] hashes everything fed so far. *)

Module Hasher.

Definition t : Type := list byte.

Definition new : t := [].
Definition update (data : list byte) (h : t) : t := h ++ data.
Definition digest (h : t) : list byte := SHA256.sha256 h.

End Hasher.

(** ** Exceptions and the state-and-exception monad of the methods *)

(** The two messages of the generators' [ValueError], by their leading
    words; the numbers formatted into the text are not modelled. *)
Inductive message : Type :=
| Insufficient_entropy
| Insufficient_total_entropy.

Inductive exn : Type :=
| ValueError (msg : message)
| OverflowError.

(** A method of an object of state [S] that returns an [A] or raises;
    the state reached is returned in both cases. *)
Definition M (S A : Type) : Type := S -> (exn + A) * S.

Definition ret {S A} (a : A) : M S A := fun s => (inr a, s).

Definition bind {S A B} (m : M S A) (k : A -> M S B) : M S B :=
  fun s =>
    match m s with
    | (inl e, s') => (inl e, s')
    | (inr a, s') => k a s'
    end.

Definition raise {S A} (e : exn) : M S A := fun s => (inl e, s).
Definition gets {S A} (f : S -> A) : M S A := fun s => (inr (f s), s).
Definition modify {S} (f : S -> S) : M S unit := fun s => (inr tt, f s).
Definition lift {S A} (r : exn + A) : M S A := fun s => (r, s).

Declare Scope method_scope.
Delimit Scope method_scope with method.
Notation "x <- c1 ;; c2" := (bind c1 (fun x => c2))
  (at level 61, c1 at next level, right associativity) : method_scope.
Notation "c1 ;; c2" := (bind c1 (fun _ => c2))
  (at level 61, right associativity) : method_scope.

(** ** Calls on objects outside the program *)

Inductive effect : Type :=
| Listener_start          (* mouse.Listener(...).start() *)
| Listener_stop           (* self.mouse_listener.stop() *)
| Cpu_thread_start        (* Thread(target=collect_cpu_entropy).start() *)
| Audio_thread_start      (* Thread(target=collect_audio_entropy).start() *)
| Stream_open (s : nat)   (* self.audio_p.open(...) returned stream s *)
| Stream_stop (s : nat)   (* stream s: stop_stream() *)
| Stream_close (s : nat). (* stream s: close() *)

(** ** Code that the two files share word for word *)

Module Shared.

(** on_mouse_move, activity tracking: the new value of
    [total_active_movement_time]. *)
Definition track_activity
    (last_mouse_activity : option Q)
    (total_active_movement_time mouse_activity_timeout current_time : Q)
    : Q :=
  match last_mouse_activity with
  | Some last =>
      let time_since_last := (current_time - last)%Q in
      if Qle_bool time_since_last mouse_activity_timeout
      then (total_active_movement_time + time_since_last)%Q
      else total_active_movement_time
  | None => total_active_movement_time
  end.

(** on_mouse_move: [mouse_movement_start] is set on the first move. *)
Definition movement_start (start : option Q) (current_time : Q)
    : option Q :=
  match start with
  | None => Some current_time
  | Some t => Some t
  end.

(** on_mouse_move: the sample appended to the mouse pool. *)
Definition mouse_sample (x y timestamp : Z) (pool : Deque.t) : Z :=
  let entropy_data :=
    Z.land (Z.lxor (Z.lxor x y) (Z.land timestamp 0xFFFFFFFF)) 0xFFFF in
  if 0 <? Deque.len pool then
    let time_delta := (timestamp mod 1000000) * 1000 in
    Z.lxor entropy_data time_delta
  else entropy_data.

(** collect_cpu_entropy: [mix] is the value of the float sum
    [user*1e6 + system*1e6 + idle*1e6 + processes*time_ns()]; the
    sample is [int(mix % 2**32)]. *)
Definition cpu_sample (mix : Q) : Z := Qfloor mix mod 2 ^ 32.

(** get_mouse_movement_duration *)
Definition movement_duration
    (last_mouse_activity : option Q)
    (total_active_movement_time mouse_activity_timeout current_time : Q)
    : Q :=
  match last_mouse_activity with
  | None => 0%Q
  | Some last =>
      let accumulated_time := total_active_movement_time in
      if Qle_bool (current_time - last)%Q mouse_activity_timeout
      then (accumulated_time + (current_time - last))%Q
      else accumulated_time
  end.

(** is_mouse_currently_active *)
Definition currently_active
    (last_mouse_activity : option Q)
    (mouse_activity_timeout current_time : Q) : bool :=
  match last_mouse_activity with
  | None => false
  | Some last => Qle_bool (current_time - last)%Q mouse_activity_timeout
  end.

(** The end of both generators: first four digest bytes, big-endian,
    modulo 2048. *)
Definition reduce (hasher : Hasher.t) : Z :=
  let hash_bytes := Hasher.digest hasher in
  let random_int := Codec.from_bytes_big (firstn 4 hash_bytes) in
  random_int mod 2048.

(** [len] of a Python list. *)
Definition len {A} (l : list A) : Z := Z.of_nat (length l).

End Shared.

(** ** entropy_rng.py *)

Module Cli.

Local Open Scope method_scope.

Record EntropyCollector : Type := {
  mouse_entropy : Deque.t;
  cpu_entropy : Deque.t;
  collecting : bool;
  entropy_queue : list (string * Z);
  collection_start_time : option Q;
  mouse_movement_start : option Q;
  last_mouse_activity : option Q;
  total_active_movement_time : Q;
  mouse_activity_timeout : Q;
  mouse_listener : bool;        (* hasattr(self, 'mouse_listener') *)
  effects : list effect
}.

(** EntropyCollector.__init__ *)
Definition init : EntropyCollector := {|
  mouse_entropy := Deque.empty 2000;
  cpu_entropy := Deque.empty 2000;
  collecting := false;
  entropy_queue := [];
  collection_start_time := None;
  mouse_movement_start := None;
  last_mouse_activity := None;
  total_active_movement_time := 0%Q;
  mouse_activity_timeout := 2%Q;
  mouse_listener := false;
  effects := []
|}.

(** on_mouse_move(x, y); [timestamp] is the reading of time.time_ns(),
    [current_time] that of time.time().  A call is one step here and in
    [cpu_tick]: no other step comes between the test of the flag and the
    statements under it.  [CliThreads] takes the two apart. *)
Definition on_mouse_move (x y timestamp : Z) (current_time : Q)
    (c : EntropyCollector) : EntropyCollector :=
  if collecting c then
    let entropy_data := Shared.mouse_sample x y timestamp (mouse_entropy c) in
    {| mouse_entropy := Deque.append entropy_data (mouse_entropy c);
       cpu_entropy := cpu_entropy c;
       collecting := collecting c;
       entropy_queue := entropy_queue c ++ [("mouse"%string, entropy_data)];
       collection_start_time := collection_start_time c;
       mouse_movement_start :=
         Shared.movement_start (mouse_movement_start c) current_time;
       last_mouse_activity := Some current_time;
       total_active_movement_time :=
         Shared.track_activity (last_mouse_activity c)
           (total_active_movement_time c) (mouse_activity_timeout c)
           current_time;
       mouse_activity_timeout := mouse_activity_timeout c;
       mouse_listener := mouse_listener c;
       effects := effects c |}
  else c.

(** One turn of the loop of collect_cpu_entropy; [reading] is [None]
    when reading the counters raised (the turn is skipped). *)
Definition cpu_tick (reading : option Q) (c : EntropyCollector)
    : EntropyCollector :=
  if collecting c then
    match reading with
    | Some mix =>
        let entropy_data := Shared.cpu_sample mix in
        {| mouse_entropy := mouse_entropy c;
           cpu_entropy := Deque.append entropy_data (cpu_entropy c);
           collecting := collecting c;
           entropy_queue := entropy_queue c ++ [("cpu"%string, entropy_data)];
           collection_start_time := collection_start_time c;
           mouse_movement_start := mouse_movement_start c;
           last_mouse_activity := last_mouse_activity c;
           total_active_movement_time := total_active_movement_time c;
           mouse_activity_timeout := mouse_activity_timeout c;
           mouse_listener := mouse_listener c;
           effects := effects c |}
    | None => c
    end
  else c.

(** start_collection(); [now] is the reading of time.time(). *)
Definition start_collection (now : Q) (c : EntropyCollector)
    : EntropyCollector :=
  {| mouse_entropy := mouse_entropy c;
     cpu_entropy := cpu_entropy c;
     collecting := true;
     entropy_queue := entropy_queue c;
     collection_start_time := Some now;
     mouse_movement_start := None;
     last_mouse_activity := None;
     total_active_movement_time := 0%Q;
     mouse_activity_timeout := mouse_activity_timeout c;
     mouse_listener := true;
     effects := effects c ++ [Listener_start; Cpu_thread_start] |}.

(** stop_collection() *)
Definition stop_collection (c : EntropyCollector) : EntropyCollector :=
  {| mouse_entropy := mouse_entropy c;
     cpu_entropy := cpu_entropy c;
     collecting := false;
     entropy_queue := entropy_queue c;
     collection_start_time := collection_start_time c;
     mouse_movement_start := mouse_movement_start c;
     last_mouse_activity := last_mouse_activity c;
     total_active_movement_time := total_active_movement_time c;
     mouse_activity_timeout := mouse_activity_timeout c;
     mouse_listener := mouse_listener c;
     effects :=
       if mouse_listener c then effects c ++ [Listener_stop]
       else effects c |}.

(** get_entropy_pool() *)
Definition get_entropy_pool (c : EntropyCollector) : list Z :=
  let entropy_pool := [] in
  let entropy_pool := entropy_pool ++ Deque.to_list (mouse_entropy c) in
  let entropy_pool := entropy_pool ++ Deque.to_list (cpu_entropy c) in
  entropy_pool.

(** get_mouse_movement_duration() at clock reading [current_time] *)
Definition get_mouse_movement_duration (current_time : Q)
    (c : EntropyCollector) : Q :=
  Shared.movement_duration (last_mouse_activity c)
    (total_active_movement_time c) (mouse_activity_timeout c) current_time.

(** is_mouse_currently_active() *)
Definition is_mouse_currently_active (current_time : Q)
    (c : EntropyCollector) : bool :=
  Shared.currently_active (last_mouse_activity c)
    (mouse_activity_timeout c) current_time.

(** has_sufficient_entropy(required_duration=30, min_mouse_samples=300) *)
Definition has_sufficient_entropy (required_duration : Q)
    (min_mouse_samples : Z) (current_time : Q) (c : EntropyCollector)
    : bool :=
  let mouse_duration := get_mouse_movement_duration current_time c in
  let mouse_samples := Deque.len (mouse_entropy c) in
  Qle_bool required_duration mouse_duration
  && (min_mouse_samples <=? mouse_samples).

Record EntropyRNG : Type := {
  collector : EntropyCollector;
  generated_numbers : list Z
}.

(** EntropyRNG.__init__ *)
Definition new : EntropyRNG :=
  {| collector := init; generated_numbers := [] |}.

(** The loop [for sample in entropy_pool:
    hasher.update(sample.to_bytes(4, 'big'))]. *)
Fixpoint feed_samples (entropy_pool : list Z) (hasher : Hasher.t)
    : exn + Hasher.t :=
  match entropy_pool with
  | [] => inr hasher
  | sample :: rest =>
      match Codec.to_bytes4 sample with
      | Some bs => feed_samples rest (Hasher.update bs hasher)
      | None => inl OverflowError
      end
  end.

(** The mixing of generate_random_number, from the creation of the hash
    object to [result]. *)
Definition mix (timestamp : Z) (entropy_pool : list Z) : exn + Z :=
  let hasher := Hasher.new in
  let hasher := Hasher.update (Codec.encode (Codec.str timestamp)) hasher in
  match feed_samples entropy_pool hasher with
  | inl e => inl e
  | inr hasher => inr (Shared.reduce hasher)
  end.

(** generate_random_number(min_entropy_samples=300); [now] is the
    reading of time.time() inside has_sufficient_entropy, [timestamp]
    that of time.time_ns(). *)
Definition generate_random_number (min_entropy_samples : Z) (now : Q)
    (timestamp : Z) : M EntropyRNG Z :=
  sufficient <-
    gets (fun rng => has_sufficient_entropy 30 300 now (collector rng)) ;;
  if negb sufficient then raise (ValueError Insufficient_entropy)
  else
    entropy_pool <- gets (fun rng => get_entropy_pool (collector rng)) ;;
    if Shared.len entropy_pool <? min_entropy_samples
    then raise (ValueError Insufficient_total_entropy)
    else
      result <- lift (mix timestamp entropy_pool) ;;
      modify (fun rng =>
                {| collector := collector rng;
                   generated_numbers := generated_numbers rng ++ [result] |}) ;;
      ret result.

(** start_entropy_collection(), stop_entropy_collection() *)
Definition start_entropy_collection (now : Q) : M EntropyRNG unit :=
  modify (fun rng =>
            {| collector := start_collection now (collector rng);
               generated_numbers := generated_numbers rng |}).

Definition stop_entropy_collection : M EntropyRNG unit :=
  modify (fun rng =>
            {| collector := stop_collection (collector rng);
               generated_numbers := generated_numbers rng |}).

(** get_entropy_status(): the dict, as its items in insertion order. *)
Definition get_entropy_status : M EntropyRNG (list (string * Z)) :=
  mouse_count <- gets (fun rng => Deque.len (mouse_entropy (collector rng))) ;;
  cpu_count <- gets (fun rng => Deque.len (cpu_entropy (collector rng))) ;;
  ret [ ("mouse_samples"%string, mouse_count);
        ("cpu_samples"%string, cpu_count);
        ("total_samples"%string, mouse_count + cpu_count) ].

(** What can happen to a collector: calls from the main thread and
    turns of the producers. *)
Inductive event : Type :=
| Start (now : Q)
| Stop
| Mouse_move (x y timestamp : Z) (current_time : Q)
| Cpu_tick (reading : option Q).

Definition step (c : EntropyCollector) (e : event) : EntropyCollector :=
  match e with
  | Start now => start_collection now c
  | Stop => stop_collection c
  | Mouse_move x y timestamp current_time =>
      on_mouse_move x y timestamp current_time c
  | Cpu_tick reading => cpu_tick reading c
  end.

Definition run (es : list event) (c : EntropyCollector) : EntropyCollector :=
  fold_left step es c.

End Cli.

(** ** entropy_rng_gui.py (classes EntropyCollector and EntropyRNG) *)

Module Gui.

Local Open Scope method_scope.

(** The audio parameters set in __init__ (format, channels, rate, chunk
    size, the PyAudio instance) are constants that no operation below
    reads; they are left out of the record. *)
Record EntropyCollector : Type := {
  mouse_entropy : Deque.t;
  cpu_entropy : Deque.t;
  audio_entropy : Deque.t;
  collecting : bool;
  entropy_queue : list (string * Z);
  collection_start_time : option Q;
  mouse_movement_start : option Q;
  last_mouse_activity : option Q;
  total_active_movement_time : Q;
  mouse_activity_timeout : Q;
  audio_recording : bool;
  audio_stream : option nat;    (* None, or the stream object last opened *)
  mouse_listener : bool;        (* hasattr(self, 'mouse_listener') *)
  effects : list effect
}.

(** EntropyCollector.__init__ *)
Definition init : EntropyCollector := {|
  mouse_entropy := Deque.empty 2000;
  cpu_entropy := Deque.empty 2000;
  audio_entropy := Deque.empty 2000;
  collecting := false;
  entropy_queue := [];
  collection_start_time := None;
  mouse_movement_start := None;
  last_mouse_activity := None;
  total_active_movement_time := 0%Q;
  mouse_activity_timeout := 2%Q;
  audio_recording := false;
  audio_stream := None;
  mouse_listener := false;
  effects := []
|}.

(** on_mouse_move(x, y) *)
Definition on_mouse_move (x y timestamp : Z) (current_time : Q)
    (c : EntropyCollector) : EntropyCollector :=
  if collecting c then
    let entropy_data := Shared.mouse_sample x y timestamp (mouse_entropy c) in
    {| mouse_entropy := Deque.append entropy_data (mouse_entropy c);
       cpu_entropy := cpu_entropy c;
       audio_entropy := audio_entropy c;
       collecting := collecting c;
       entropy_queue := entropy_queue c ++ [("mouse"%string, entropy_data)];
       collection_start_time := collection_start_time c;
       mouse_movement_start :=
         Shared.movement_start (mouse_movement_start c) current_time;
       last_mouse_activity := Some current_time;
       total_active_movement_time :=
         Shared.track_activity (last_mouse_activity c)
           (total_active_movement_time c) (mouse_activity_timeout c)
           current_time;
       mouse_activity_timeout := mouse_activity_timeout c;
       audio_recording := audio_recording c;
       audio_stream := audio_stream c;
       mouse_listener := mouse_listener c;
       effects := effects c |}
  else c.

(** One turn of the loop of collect_cpu_entropy.  As on the command
    line, a turn of a producer is one step here; [GuiThreads] takes the
    test of the flag and the statements under it apart. *)
Definition cpu_tick (reading : option Q) (c : EntropyCollector)
    : EntropyCollector :=
  if collecting c then
    match reading with
    | Some mix =>
        let entropy_data := Shared.cpu_sample mix in
        {| mouse_entropy := mouse_entropy c;
           cpu_entropy := Deque.append entropy_data (cpu_entropy c);
           audio_entropy := audio_entropy c;
           collecting := collecting c;
           entropy_queue := entropy_queue c ++ [("cpu"%string, entropy_data)];
           collection_start_time := collection_start_time c;
           mouse_movement_start := mouse_movement_start c;
           last_mouse_activity := last_mouse_activity c;
           total_active_movement_time := total_active_movement_time c;
           mouse_activity_timeout := mouse_activity_timeout c;
           audio_recording := audio_recording c;
           audio_stream := audio_stream c;
           mouse_listener := mouse_listener c;
           effects := effects c |}
    | None => c
    end
  else c.

(** collect_audio_entropy, the [finally] clause. *)
Definition audio_exit (c : EntropyCollector) : EntropyCollector :=
  match audio_stream c with
  | Some s =>
      {| mouse_entropy := mouse_entropy c;
         cpu_entropy := cpu_entropy c;
         audio_entropy := audio_entropy c;
         collecting := collecting c;
         entropy_queue := entropy_queue c;
         collection_start_time := collection_start_time c;
         mouse_movement_start := mouse_movement_start c;
         last_mouse_activity := last_mouse_activity c;
         total_active_movement_time := total_active_movement_time c;
         mouse_activity_timeout := mouse_activity_timeout c;
         audio_recording := audio_recording c;
         audio_stream := audio_stream c;
         mouse_listener := mouse_listener c;
         effects := effects c ++ [Stream_stop s; Stream_close s] |}
  | None => c
  end.

(** collect_audio_entropy, opening the stream; [opened] is [None] when
    [open] raised, which leads to the [finally] clause. *)
Definition audio_open (opened : option nat) (c : EntropyCollector)
    : EntropyCollector :=
  match opened with
  | Some s =>
      {| mouse_entropy := mouse_entropy c;
         cpu_entropy := cpu_entropy c;
         audio_entropy := audio_entropy c;
         collecting := collecting c;
         entropy_queue := entropy_queue c;
         collection_start_time := collection_start_time c;
         mouse_movement_start := mouse_movement_start c;
         last_mouse_activity := last_mouse_activity c;
         total_active_movement_time := total_active_movement_time c;
         mouse_activity_timeout := mouse_activity_timeout c;
         audio_recording := audio_recording c;
         audio_stream := Some s;
         mouse_listener := mouse_listener c;
         effects := effects c ++ [Stream_open s] |}
  | None => audio_exit c
  end.

(** The sample computed from one buffer; the arguments are the values
    of the three [int(...)] expressions and of time.time_ns(). *)
Definition audio_sample (rms_raw peak_raw variance_raw timestamp : Z) : Z :=
  let rms := Z.land rms_raw 0xFFFF in
  let peak := Z.land peak_raw 0xFFFF in
  let variance := Z.land variance_raw 0xFFFFFFFF in
  Z.land
    (Z.lxor (Z.lxor (Z.lxor rms peak) (Z.land variance 0xFFFF))
            (Z.land timestamp 0xFFFF))
    0xFFFF.

(** One turn of the loop of collect_audio_entropy; [reading] is [None]
    when the read or the statistics raised or the buffer was empty (no
    sample is appended). *)
Definition audio_read (reading : option (Z * Z * Z * Z))
    (c : EntropyCollector) : EntropyCollector :=
  if collecting c && audio_recording c then
    match reading with
    | Some (rms_raw, peak_raw, variance_raw, timestamp) =>
        let entropy_data :=
          audio_sample rms_raw peak_raw variance_raw timestamp in
        {| mouse_entropy := mouse_entropy c;
           cpu_entropy := cpu_entropy c;
           audio_entropy := Deque.append entropy_data (audio_entropy c);
           collecting := collecting c;
           entropy_queue := entropy_queue c ++ [("audio"%string, entropy_data)];
           collection_start_time := collection_start_time c;
           mouse_movement_start := mouse_movement_start c;
           last_mouse_activity := last_mouse_activity c;
           total_active_movement_time := total_active_movement_time c;
           mouse_activity_timeout := mouse_activity_timeout c;
           audio_recording := audio_recording c;
           audio_stream := audio_stream c;
           mouse_listener := mouse_listener c;
           effects := effects c |}
    | None => c
    end
  else c.

(** start_collection(include_audio=True) *)
Definition start_collection (include_audio : bool) (now : Q)
    (c : EntropyCollector) : EntropyCollector :=
  {| mouse_entropy := mouse_entropy c;
     cpu_entropy := cpu_entropy c;
     audio_entropy := audio_entropy c;
     collecting := true;
     entropy_queue := entropy_queue c;
     collection_start_time := Some now;
     mouse_movement_start := None;
     last_mouse_activity := None;
     total_active_movement_time := 0%Q;
     mouse_activity_timeout := mouse_activity_timeout c;
     audio_recording := if include_audio then true else audio_recording c;
     audio_stream := audio_stream c;
     mouse_listener := true;
     effects :=
       effects c ++ [Listener_start; Cpu_thread_start]
         ++ (if include_audio then [Audio_thread_start] else []) |}.

(** stop_collection() *)
Definition stop_collection (c : EntropyCollector) : EntropyCollector :=
  {| mouse_entropy := mouse_entropy c;
     cpu_entropy := cpu_entropy c;
     audio_entropy := audio_entropy c;
     collecting := false;
     entropy_queue := entropy_queue c;
     collection_start_time := collection_start_time c;
     mouse_movement_start := mouse_movement_start c;
     last_mouse_activity := last_mouse_activity c;
     total_active_movement_time := total_active_movement_time c;
     mouse_activity_timeout := mouse_activity_timeout c;
     audio_recording := false;
     audio_stream := audio_stream c;
     mouse_listener := mouse_listener c;
     effects :=
       effects c
         ++ (if mouse_listener c then [Listener_stop] else [])
         ++ (match audio_stream c with
             | Some s => [Stream_stop s; Stream_close s]
             | None => []
             end) |}.

(** get_entropy_pool() *)
Definition get_entropy_pool (c : EntropyCollector) : list Z :=
  let entropy_pool := [] in
  let entropy_pool := entropy_pool ++ Deque.to_list (mouse_entropy c) in
  let entropy_pool := entropy_pool ++ Deque.to_list (cpu_entropy c) in
  let entropy_pool := entropy_pool ++ Deque.to_list (audio_entropy c) in
  entropy_pool.

(** get_mouse_movement_duration() *)
Definition get_mouse_movement_duration (current_time : Q)
    (c : EntropyCollector) : Q :=
  Shared.movement_duration (last_mouse_activity c)
    (total_active_movement_time c) (mouse_activity_timeout c) current_time.

(** is_mouse_currently_active() *)
Definition is_mouse_currently_active (current_time : Q)
    (c : EntropyCollector) : bool :=
  Shared.currently_active (last_mouse_activity c)
    (mouse_activity_timeout c) current_time.

(** has_sufficient_entropy(required_duration=30, min_mouse_samples=300,
    min_audio_samples=100) *)
Definition has_sufficient_entropy (required_duration : Q)
    (min_mouse_samples min_audio_samples : Z) (current_time : Q)
    (c : EntropyCollector) : bool :=
  let mouse_duration := get_mouse_movement_duration current_time c in
  let mouse_samples := Deque.len (mouse_entropy c) in
  let audio_samples := Deque.len (audio_entropy c) in
  Qle_bool required_duration mouse_duration
  && (min_mouse_samples <=? mouse_samples)
  && (min_audio_samples <=? audio_samples).

Record EntropyRNG : Type := {
  collector : EntropyCollector;
  generated_numbers : list Z
}.

(** EntropyRNG.__init__ *)
Definition new : EntropyRNG :=
  {| collector := init; generated_numbers := [] |}.

(** The loop [for j, sample in enumerate(entropy_pool):
    hasher.update((sample ^ i ^ j).to_bytes(4, 'big'))], from
    position [j] on. *)
Fixpoint feed_samples (i j : Z) (entropy_pool : list Z) (hasher : Hasher.t)
    : exn + Hasher.t :=
  match entropy_pool with
  | [] => inr hasher
  | sample :: rest =>
      match Codec.to_bytes4 (Z.lxor (Z.lxor sample i) j) with
      | Some bs => feed_samples i (j + 1) rest (Hasher.update bs hasher)
      | None => inl OverflowError
      end
  end.

(** The body of the loop over [i]; [time_ns i] is the reading of
    time.time_ns() taken in turn [i]. *)
Definition number_at (time_ns : Z -> Z) (entropy_pool : list Z) (i : Z)
    : exn + Z :=
  let hasher := Hasher.new in
  let hasher :=
    Hasher.update (Codec.encode (Codec.str (time_ns i + i))) hasher in
  let hasher := Hasher.update (Codec.encode (Codec.str i)) hasher in
  match feed_samples i 0 entropy_pool hasher with
  | inl e => inl e
  | inr hasher => inr (Shared.reduce hasher)
  end.

(** [range(count)] *)
Definition range (count : Z) : list Z :=
  map Z.of_nat (seq 0 (Z.to_nat count)).

(** The loop [for i in range(count)], from the list of the remaining
    indices and the numbers appended so far. *)
Fixpoint numbers_loop (time_ns : Z -> Z) (entropy_pool : list Z)
    (indices : list Z) (numbers : list Z) : exn + list Z :=
  match indices with
  | [] => inr numbers
  | i :: rest =>
      match number_at time_ns entropy_pool i with
      | inl e => inl e
      | inr result =>
          numbers_loop time_ns entropy_pool rest (numbers ++ [result])
      end
  end.

(** generate_random_numbers(count=24, min_entropy_samples=400) *)
Definition generate_random_numbers (count min_entropy_samples : Z)
    (now : Q) (time_ns : Z -> Z) : M EntropyRNG (list Z) :=
  sufficient <-
    gets (fun rng => has_sufficient_entropy 30 300 100 now (collector rng)) ;;
  if negb sufficient then raise (ValueError Insufficient_entropy)
  else
    entropy_pool <- gets (fun rng => get_entropy_pool (collector rng)) ;;
    if Shared.len entropy_pool <? min_entropy_samples
    then raise (ValueError Insufficient_total_entropy)
    else
      numbers <- lift (numbers_loop time_ns entropy_pool (range count) []) ;;
      modify (fun rng =>
                {| collector := collector rng;
                   generated_numbers := generated_numbers rng ++ numbers |}) ;;
      ret numbers.

(** start_entropy_collection(include_audio=True),
    stop_entropy_collection() *)
Definition start_entropy_collection (include_audio : bool) (now : Q)
    : M EntropyRNG unit :=
  modify (fun rng =>
            {| collector := start_collection include_audio now (collector rng);
               generated_numbers := generated_numbers rng |}).

Definition stop_entropy_collection : M EntropyRNG unit :=
  modify (fun rng =>
            {| collector := stop_collection (collector rng);
               generated_numbers := generated_numbers rng |}).

(** get_entropy_status() *)
Definition get_entropy_status : M EntropyRNG (list (string * Z)) :=
  mouse_count <- gets (fun rng => Deque.len (mouse_entropy (collector rng))) ;;
  cpu_count <- gets (fun rng => Deque.len (cpu_entropy (collector rng))) ;;
  audio_count <- gets (fun rng => Deque.len (audio_entropy (collector rng))) ;;
  ret [ ("mouse_samples"%string, mouse_count);
        ("cpu_samples"%string, cpu_count);
        ("audio_samples"%string, audio_count);
        ("total_samples"%string, mouse_count + cpu_count + audio_count) ].

Inductive event : Type :=
| Start (include_audio : bool) (now : Q)
| Stop
| Mouse_move (x y timestamp : Z) (current_time : Q)
| Cpu_tick (reading : option Q)
| Audio_open (opened : option nat)
| Audio_read (reading : option (Z * Z * Z * Z))
| Audio_exit.

Definition step (c : EntropyCollector) (e : event) : EntropyCollector :=
  match e with
  | Start include_audio now => start_collection include_audio now c
  | Stop => stop_collection c
  | Mouse_move x y timestamp current_time =>
      on_mouse_move x y timestamp current_time c
  | Cpu_tick reading => cpu_tick reading c
  | Audio_open opened => audio_open opened c
  | Audio_read reading => audio_read reading c
  | Audio_exit => audio_exit c
  end.

Definition run (es : list event) (c : EntropyCollector) : EntropyCollector :=
  fold_left step es c.

End Gui.

(** ** entropy_rng_gui.py (class EntropyRNGGUI, the state it keeps) *)

(** Of the front end only the logic is modelled: its own [collecting]
    flag, the calls it makes on the generator and the text it builds
    from the numbers.  The widgets it configures are left out, and so
    are its [except] clauses for exceptions of calls outside the model
    (listener, threads, widgets). *)
Module Front.

Record EntropyRNGGUI : Type := {
  rng : Gui.EntropyRNG;
  collecting : bool
}.

(** EntropyRNGGUI.__init__ *)
Definition init : EntropyRNGGUI := {| rng := Gui.new; collecting := false |}.

(** start_collection(): the flag is set, then
    rng.start_entropy_collection(include_audio=True).  The calls on the
    listener and the threads are taken to return; the handler that
    clears the flag when one of them raises is not modelled. *)
Definition start_collection (now : Q) (g : EntropyRNGGUI) : EntropyRNGGUI :=
  {| rng := snd (Gui.start_entropy_collection true now (rng g));
     collecting := true |}.

(** stop_collection() *)
Definition stop_collection (g : EntropyRNGGUI) : EntropyRNGGUI :=
  {| rng := snd (Gui.stop_entropy_collection (rng g));
     collecting := false |}.

(** toggle_collection(), the command of the collect button. *)
Definition toggle_collection (now : Q) (g : EntropyRNGGUI) : EntropyRNGGUI :=
  if negb (collecting g) then start_collection now g else stop_collection g.

(** on_closing() of main(): [if app.collecting: app.stop_collection()]. *)
Definition on_closing (g : EntropyRNGGUI) : EntropyRNGGUI :=
  if collecting g then stop_collection g else g.

(** [f"{num:4d}"]: decimal, right-aligned on at least four characters. *)
Definition format_4d (num : Z) : string :=
  let digits := Codec.str num in
  String.append
    (string_of_list_ascii (repeat " "%char (4 - String.length digits)))
    digits.

(** [" | ".join(f"{num:4d}" for num in row)] *)
Definition row_text (row : list Z) : string :=
  String.concat " | " (map format_4d row).

(** [range(0, n, 6)] *)
Definition row_starts (n : nat) : list nat :=
  map (fun k => (6 * k)%nat) (seq 0 ((n + 5) / 6)).

(** The rows [numbers[i:i+6]] for [i in range(0, len(numbers), 6)]. *)
Definition rows (numbers : list Z) : list (list Z) :=
  map (fun i => firstn 6 (skipn i numbers)) (row_starts (length numbers)).

(** What generate_numbers() shows. *)
Inductive shown : Type :=
| Rows (lines : list string)       (* the grid inserted in the text widget *)
| Warning (msg : message)          (* messagebox.showwarning *)
| Error.                           (* messagebox.showerror *)

(** generate_numbers(), the command of the generate button. *)
Definition generate_numbers (now : Q) (time_ns : Z -> Z) (g : EntropyRNGGUI)
    : shown * EntropyRNGGUI :=
  match Gui.generate_random_numbers 24 400 now time_ns (rng g) with
  | (inr numbers, rng') =>
      (Rows (map row_text (rows numbers)),
       {| rng := rng'; collecting := collecting g |})
  | (inl (ValueError msg), rng') =>
      (Warning msg, {| rng := rng'; collecting := collecting g |})
  | (inl _, rng') => (Error, {| rng := rng'; collecting := collecting g |})
  end.

(** What can happen to the front end: a click on either button, the
    closing of the window, and a step of a producer of its collector. *)
Inductive event : Type :=
| Toggle (now : Q)
| Generate (now : Q) (time_ns : Z -> Z)
| Close
| Producer (e : Gui.event).

(** Steps of the listener and of the threads: every collector event but
    the calls of start_collection and stop_collection. *)
Definition is_thread_step (e : Gui.event) : bool :=
  match e with
  | Gui.Start _ _ | Gui.Stop => false
  | _ => true
  end.

Definition step (g : EntropyRNGGUI) (e : event) : EntropyRNGGUI :=
  match e with
  | Toggle now => toggle_collection now g
  | Generate now time_ns => snd (generate_numbers now time_ns g)
  | Close => on_closing g
  | Producer e =>
      if is_thread_step e then
        {| rng := {| Gui.collector := Gui.step (Gui.collector (rng g)) e;
                     Gui.generated_numbers := Gui.generated_numbers (rng g) |};
           collecting := collecting g |}
      else g
  end.

Definition run (es : list event) (g : EntropyRNGGUI) : EntropyRNGGUI :=
  fold_left step es g.

End Front.

(** ** The producers as threads *)

(** [Cli.on_mouse_move] and [Cli.cpu_tick] take a turn of a producer as
    one step.  The threads run it in two: the test of [self.collecting]
    (entropy_rng.py, line 29 and line 58) and, for a turn that passed
    the test, the statements under it, which end with the append (lines
    30-55 and 59-71).  stop_collection() may return between the two.
    Here the state counts the turns that are past the test and have not
    run their statements yet; these statements are taken as one step. *)

Module CliThreads.

Record state : Type := {
  collector : Cli.EntropyCollector;
  mouse_calls : nat;    (* callbacks past [if self.collecting:] *)
  cpu_turns : nat       (* turns past [while self.collecting:] *)
}.

(** No turn is past its test. *)
Definition quiet (c : Cli.EntropyCollector) : state :=
  {| collector := c; mouse_calls := 0; cpu_turns := 0 |}.

Definition in_flight (s : state) : nat := (mouse_calls s + cpu_turns s)%nat.

(** on_mouse_move, the statements under [if self.collecting:]. *)
Definition on_mouse_move_body (x y timestamp : Z) (current_time : Q)
    (c : Cli.EntropyCollector) : Cli.EntropyCollector :=
  let entropy_data :=
    Shared.mouse_sample x y timestamp (Cli.mouse_entropy c) in
  {| Cli.mouse_entropy := Deque.append entropy_data (Cli.mouse_entropy c);
     Cli.cpu_entropy := Cli.cpu_entropy c;
     Cli.collecting := Cli.collecting c;
     Cli.entropy_queue :=
       Cli.entropy_queue c ++ [("mouse"%string, entropy_data)];
     Cli.collection_start_time := Cli.collection_start_time c;
     Cli.mouse_movement_start :=
       Shared.movement_start (Cli.mouse_movement_start c) current_time;
     Cli.last_mouse_activity := Some current_time;
     Cli.total_active_movement_time :=
       Shared.track_activity (Cli.last_mouse_activity c)
         (Cli.total_active_movement_time c) (Cli.mouse_activity_timeout c)
         current_time;
     Cli.mouse_activity_timeout := Cli.mouse_activity_timeout c;
     Cli.mouse_listener := Cli.mouse_listener c;
     Cli.effects := Cli.effects c |}.

(** collect_cpu_entropy, the statements of one turn under
    [while self.collecting:]; [reading] is [None] when reading the
    counters raised. *)
Definition collect_cpu_entropy_body (reading : option Q)
    (c : Cli.EntropyCollector) : Cli.EntropyCollector :=
  match reading with
  | Some mix =>
      let entropy_data := Shared.cpu_sample mix in
      {| Cli.mouse_entropy := Cli.mouse_entropy c;
         Cli.cpu_entropy := Deque.append entropy_data (Cli.cpu_entropy c);
         Cli.collecting := Cli.collecting c;
         Cli.entropy_queue :=
           Cli.entropy_queue c ++ [("cpu"%string, entropy_data)];
         Cli.collection_start_time := Cli.collection_start_time c;
         Cli.mouse_movement_start := Cli.mouse_movement_start c;
         Cli.last_mouse_activity := Cli.last_mouse_activity c;
         Cli.total_active_movement_time := Cli.total_active_movement_time c;
         Cli.mouse_activity_timeout := Cli.mouse_activity_timeout c;
         Cli.mouse_listener := Cli.mouse_listener c;
         Cli.effects := Cli.effects c |}
  | None => c
  end.

Inductive event : Type :=
| Start (now : Q)                               (* start_collection() *)
| Stop                                          (* stop_collection() *)
| Mouse_test                                    (* line 29 *)
| Mouse_body (x y timestamp : Z) (current_time : Q)   (* lines 30-55 *)
| Cpu_test                                      (* line 58 *)
| Cpu_body (reading : option Q).                (* lines 59-76 *)

(** A body runs only for a turn that is past its test. *)
Definition step (s : state) (e : event) : state :=
  match e with
  | Start now =>
      {| collector := Cli.start_collection now (collector s);
         mouse_calls := mouse_calls s;
         cpu_turns := cpu_turns s |}
  | Stop =>
      {| collector := Cli.stop_collection (collector s);
         mouse_calls := mouse_calls s;
         cpu_turns := cpu_turns s |}
  | Mouse_test =>
      if Cli.collecting (collector s) then
        {| collector := collector s;
           mouse_calls := S (mouse_calls s);
           cpu_turns := cpu_turns s |}
      else s
  | Mouse_body x y timestamp current_time =>
      match mouse_calls s with
      | S n =>
          {| collector :=
               on_mouse_move_body x y timestamp current_time (collector s);
             mouse_calls := n;
             cpu_turns := cpu_turns s |}
      | O => s
      end
  | Cpu_test =>
      if Cli.collecting (collector s) then
        {| collector := collector s;
           mouse_calls := mouse_calls s;
           cpu_turns := S (cpu_turns s) |}
      else s
  | Cpu_body reading =>
      match cpu_turns s with
      | S n =>
          {| collector := collect_cpu_entropy_body reading (collector s);
             mouse_calls := mouse_calls s;
             cpu_turns := n |}
      | O => s
      end
  end.

Definition run (es : list event) (s : state) : state := fold_left step es s.

Definition is_start (e : event) : bool :=
  match e with Start _ => true | _ => false end.

(** A step of [Cli.step], as the threads run it. *)
Definition split (e : Cli.event) : list event :=
  match e with
  | Cli.Start now => [Start now]
  | Cli.Stop => [Stop]
  | Cli.Mouse_move x y timestamp current_time =>
      [Mouse_test; Mouse_body x y timestamp current_time]
  | Cli.Cpu_tick reading => [Cpu_test; Cpu_body reading]
  end.

End CliThreads.

(** The same for entropy_rng_gui.py: the tests are those of line 43,
    line 70 and line 99 ([while self.collecting and
    self.audio_recording:]). *)

Module GuiThreads.

Record state : Type := {
  collector : Gui.EntropyCollector;
  mouse_calls : nat;
  cpu_turns : nat;
  audio_turns : nat
}.

Definition quiet (c : Gui.EntropyCollector) : state :=
  {| collector := c; mouse_calls := 0; cpu_turns := 0; audio_turns := 0 |}.

Definition in_flight (s : state) : nat :=
  (mouse_calls s + cpu_turns s + audio_turns s)%nat.

(** on_mouse_move, the statements under [if self.collecting:]. *)
Definition on_mouse_move_body (x y timestamp : Z) (current_time : Q)
    (c : Gui.EntropyCollector) : Gui.EntropyCollector :=
  let entropy_data :=
    Shared.mouse_sample x y timestamp (Gui.mouse_entropy c) in
  {| Gui.mouse_entropy := Deque.append entropy_data (Gui.mouse_entropy c);
     Gui.cpu_entropy := Gui.cpu_entropy c;
     Gui.audio_entropy := Gui.audio_entropy c;
     Gui.collecting := Gui.collecting c;
     Gui.entropy_queue :=
       Gui.entropy_queue c ++ [("mouse"%string, entropy_data)];
     Gui.collection_start_time := Gui.collection_start_time c;
     Gui.mouse_movement_start :=
       Shared.movement_start (Gui.mouse_movement_start c) current_time;
     Gui.last_mouse_activity := Some current_time;
     Gui.total_active_movement_time :=
       Shared.track_activity (Gui.last_mouse_activity c)
         (Gui.total_active_movement_time c) (Gui.mouse_activity_timeout c)
         current_time;
     Gui.mouse_activity_timeout := Gui.mouse_activity_timeout c;
     Gui.audio_recording := Gui.audio_recording c;
     Gui.audio_stream := Gui.audio_stream c;
     Gui.mouse_listener := Gui.mouse_listener c;
     Gui.effects := Gui.effects c |}.

(** collect_cpu_entropy, the statements of one turn. *)
Definition collect_cpu_entropy_body (reading : option Q)
    (c : Gui.EntropyCollector) : Gui.EntropyCollector :=
  match reading with
  | Some mix =>
      let entropy_data := Shared.cpu_sample mix in
      {| Gui.mouse_entropy := Gui.mouse_entropy c;
         Gui.cpu_entropy := Deque.append entropy_data (Gui.cpu_entropy c);
         Gui.audio_entropy := Gui.audio_entropy c;
         Gui.collecting := Gui.collecting c;
         Gui.entropy_queue :=
           Gui.entropy_queue c ++ [("cpu"%string, entropy_data)];
         Gui.collection_start_time := Gui.collection_start_time c;
         Gui.mouse_movement_start := Gui.mouse_movement_start c;
         Gui.last_mouse_activity := Gui.last_mouse_activity c;
         Gui.total_active_movement_time := Gui.total_active_movement_time c;
         Gui.mouse_activity_timeout := Gui.mouse_activity_timeout c;
         Gui.audio_recording := Gui.audio_recording c;
         Gui.audio_stream := Gui.audio_stream c;
         Gui.mouse_listener := Gui.mouse_listener c;
         Gui.effects := Gui.effects c |}
  | None => c
  end.

(** collect_audio_entropy, the statements of one turn of its loop;
    [reading] is [None] when the read or the statistics raised or the
    buffer was empty. *)
Definition collect_audio_entropy_body (reading : option (Z * Z * Z * Z))
    (c : Gui.EntropyCollector) : Gui.EntropyCollector :=
  match reading with
  | Some (rms_raw, peak_raw, variance_raw, timestamp) =>
      let entropy_data :=
        Gui.audio_sample rms_raw peak_raw variance_raw timestamp in
      {| Gui.mouse_entropy := Gui.mouse_entropy c;
         Gui.cpu_entropy := Gui.cpu_entropy c;
         Gui.audio_entropy := Deque.append entropy_data (Gui.audio_entropy c);
         Gui.collecting := Gui.collecting c;
         Gui.entropy_queue :=
           Gui.entropy_queue c ++ [("audio"%string, entropy_data)];
         Gui.collection_start_time := Gui.collection_start_time c;
         Gui.mouse_movement_start := Gui.mouse_movement_start c;
         Gui.last_mouse_activity := Gui.last_mouse_activity c;
         Gui.total_active_movement_time := Gui.total_active_movement_time c;
         Gui.mouse_activity_timeout := Gui.mouse_activity_timeout c;
         Gui.audio_recording := Gui.audio_recording c;
         Gui.audio_stream := Gui.audio_stream c;
         Gui.mouse_listener := Gui.mouse_listener c;
         Gui.effects := Gui.effects c |}
  | None => c
  end.

Inductive event : Type :=
| Start (include_audio : bool) (now : Q)
| Stop
| Mouse_test
| Mouse_body (x y timestamp : Z) (current_time : Q)
| Cpu_test
| Cpu_body (reading : option Q)
| Audio_open (opened : option nat)     (* lines 90-97, or the way to finally *)
| Audio_test                           (* line 99 *)
| Audio_body (reading : option (Z * Z * Z * Z))   (* lines 100-120 *)
| Audio_exit.                          (* lines 124-127 *)

Definition with_collector (c : Gui.EntropyCollector) (s : state) : state :=
  {| collector := c;
     mouse_calls := mouse_calls s;
     cpu_turns := cpu_turns s;
     audio_turns := audio_turns s |}.

Definition step (s : state) (e : event) : state :=
  match e with
  | Start include_audio now =>
      with_collector (Gui.start_collection include_audio now (collector s)) s
  | Stop => with_collector (Gui.stop_collection (collector s)) s
  | Mouse_test =>
      if Gui.collecting (collector s) then
        {| collector := collector s;
           mouse_calls := S (mouse_calls s);
           cpu_turns := cpu_turns s;
           audio_turns := audio_turns s |}
      else s
  | Mouse_body x y timestamp current_time =>
      match mouse_calls s with
      | S n =>
          {| collector :=
               on_mouse_move_body x y timestamp current_time (collector s);
             mouse_calls := n;
             cpu_turns := cpu_turns s;
             audio_turns := audio_turns s |}
      | O => s
      end
  | Cpu_test =>
      if Gui.collecting (collector s) then
        {| collector := collector s;
           mouse_calls := mouse_calls s;
           cpu_turns := S (cpu_turns s);
           audio_turns := audio_turns s |}
      else s
  | Cpu_body reading =>
      match cpu_turns s with
      | S n =>
          {| collector := collect_cpu_entropy_body reading (collector s);
             mouse_calls := mouse_calls s;
             cpu_turns := n;
             audio_turns := audio_turns s |}
      | O => s
      end
  | Audio_open opened => with_collector (Gui.audio_open opened (collector s)) s
  | Audio_test =>
      if Gui.collecting (collector s) && Gui.audio_recording (collector s) then
        {| collector := collector s;
           mouse_calls := mouse_calls s;
           cpu_turns := cpu_turns s;
           audio_turns := S (audio_turns s) |}
      else s
  | Audio_body reading =>
      match audio_turns s with
      | S n =>
          {| collector := collect_audio_entropy_body reading (collector s);
             mouse_calls := mouse_calls s;
             cpu_turns := cpu_turns s;
             audio_turns := n |}
      | O => s
      end
  | Audio_exit => with_collector (Gui.audio_exit (collector s)) s
  end.

Definition run (es : list event) (s : state) : state := fold_left step es s.

Definition is_start (e : event) : bool :=
  match e with Start _ _ => true | _ => false end.

(** A step of [Gui.step], as the threads run it. *)
Definition split (e : Gui.event) : list event :=
  match e with
  | Gui.Start include_audio now => [Start include_audio now]
  | Gui.Stop => [Stop]
  | Gui.Mouse_move x y timestamp current_time =>
      [Mouse_test; Mouse_body x y timestamp current_time]
  | Gui.Cpu_tick reading => [Cpu_test; Cpu_body reading]
  | Gui.Audio_open opened => [Audio_open opened]
  | Gui.Audio_read reading => [Audio_test; Audio_body reading]
  | Gui.Audio_exit => [Audio_exit]
  end.

End GuiThreads.

(** ** Reading a dict *)

(** [d.get(key)]: the value under [key], [None] when the key is absent. *)
Fixpoint dict_get (key : string) (d : list (string * Z)) : option Z :=
  match d with
  | [] => None
  | (k, v) :: rest => if String.eqb key k then Some v else dict_get key rest
  end.

(** The keys of a dict, in insertion order. *)
Definition dict_keys (d : list (string * Z)) : list string := map fst d.

(** ** Vocabulary of the statements *)

(** The [n] most recent elements of a history, oldest first. *)
Definition most_recent {A} (n : nat) (history : list A) : list A :=
  skipn (length history - n) history.

(** The samples put on the entropy queue under the name [source], in
    order; the queue is never read, so it is the history of the pushes. *)
Definition pushed (source : string) (queue : list (string * Z)) : list Z :=
  map snd (filter (fun entry => String.eqb (fst entry) source) queue).

(** A value that fits four bytes. *)
Definition is_u32 (z : Z) : bool := (0 <=? z) && (z <? 2 ^ 32).

(** Python's [enumerate], from index [j]. *)
Definition enumerate_from (j : nat) (l : list Z) : list (Z * Z) :=
  combine (map Z.of_nat (seq j (length l))) l.

(** The input of the hash of generate_random_number. *)
Definition hash_input_one (timestamp : Z) (pool : list Z) : list byte :=
  Codec.encode (Codec.str timestamp) ++ flat_map (Codec.be_bytes 4) pool.

(** The input of the hash of output [i] of generate_random_numbers, for
    the clock reading [t]. *)
Definition hash_input_many (t i : Z) (pool : list Z) : list byte :=
  Codec.encode (Codec.str (t + i)) ++ Codec.encode (Codec.str i)
    ++ flat_map (fun js => Codec.be_bytes 4 (Z.lxor (Z.lxor (snd js) i) (fst js)))
         (enumerate_from 0 pool).

(** First four bytes of the digest as a big-endian number, modulo 2048. *)
Definition digest_mod_2048 (input : list byte) : Z :=
  Codec.from_bytes_big (firstn 4 (SHA256.sha256 input)) mod 2048.

(** A method call failed with the ValueError of the generators. *)
Definition insufficient_entropy {A S} (r : (exn + A) * S) : Prop :=
  exists msg, fst r = inl (ValueError msg).

(** Clock readings in chronological order, after the reading [prev]. *)
Fixpoint chronological (prev : option Q) (times : list Q) : Prop :=
  match times with
  | [] => True
  | t :: rest =>
      match prev with Some p => (p <= t)%Q | None => True end
      /\ chronological (Some t) rest
  end.

(** A sequence of mouse moves, each given by the coordinates and the two
    clock readings taken by on_mouse_move. *)
Definition moves (ms : list (Z * Z * Z * Q)) : list Cli.event :=
  map (fun m => match m with
                | (x, y, timestamp, current_time) =>
                    Cli.Mouse_move x y timestamp current_time
                end) ms.

(** The time.time() readings of a sequence of moves. *)
Definition move_times (ms : list (Z * Z * Z * Q)) : list Q := map snd ms.

(** The collector's own fields, without the log of outside calls. *)
Definition cli_fields (c : Cli.EntropyCollector) : Cli.EntropyCollector :=
  {| Cli.mouse_entropy := Cli.mouse_entropy c;
     Cli.cpu_entropy := Cli.cpu_entropy c;
     Cli.collecting := Cli.collecting c;
     Cli.entropy_queue := Cli.entropy_queue c;
     Cli.collection_start_time := Cli.collection_start_time c;
     Cli.mouse_movement_start := Cli.mouse_movement_start c;
     Cli.last_mouse_activity := Cli.last_mouse_activity c;
     Cli.total_active_movement_time := Cli.total_active_movement_time c;
     Cli.mouse_activity_timeout := Cli.mouse_activity_timeout c;
     Cli.mouse_listener := Cli.mouse_listener c;
     Cli.effects := [] |}.

Definition gui_fields (c : Gui.EntropyCollector) : Gui.EntropyCollector :=
  {| Gui.mouse_entropy := Gui.mouse_entropy c;
     Gui.cpu_entropy := Gui.cpu_entropy c;
     Gui.audio_entropy := Gui.audio_entropy c;
     Gui.collecting := Gui.collecting c;
     Gui.entropy_queue := Gui.entropy_queue c;
     Gui.collection_start_time := Gui.collection_start_time c;
     Gui.mouse_movement_start := Gui.mouse_movement_start c;
     Gui.last_mouse_activity := Gui.last_mouse_activity c;
     Gui.total_active_movement_time := Gui.total_active_movement_time c;
     Gui.mouse_activity_timeout := Gui.mouse_activity_timeout c;
     Gui.audio_recording := Gui.audio_recording c;
     Gui.audio_stream := Gui.audio_stream c;
     Gui.mouse_listener := Gui.mouse_listener c;
     Gui.effects := [] |}.

(** What holds of a collector after any sequence of events: each pool
    is bounded by 2000 and holds the most recent 2000 samples pushed for
    its source, every sample fits four bytes, the timeout is 2 s. *)
Definition pool_ok (source : string) (queue : list (string * Z))
    (pool : Deque.t) : Prop :=
  Deque.maxlen pool = 2000%nat
  /\ Deque.items pool = most_recent 2000 (pushed source queue)
  /\ forallb is_u32 (Deque.items pool) = true.

Definition cli_ok (c : Cli.EntropyCollector) : Prop :=
  pool_ok "mouse" (Cli.entropy_queue c) (Cli.mouse_entropy c)
  /\ pool_ok "cpu" (Cli.entropy_queue c) (Cli.cpu_entropy c)
  /\ Cli.mouse_activity_timeout c = 2%Q.

Definition gui_ok (c : Gui.EntropyCollector) : Prop :=
  pool_ok "mouse" (Gui.entropy_queue c) (Gui.mouse_entropy c)
  /\ pool_ok "cpu" (Gui.entropy_queue c) (Gui.cpu_entropy c)
  /\ pool_ok "audio" (Gui.entropy_queue c) (Gui.audio_entropy c)
  /\ Gui.mouse_activity_timeout c = 2%Q.

(** ** Concrete sessions *)

(** The clock readings 0, 1, ..., n-1 seconds. *)
Definition seconds (n : nat) : list Q :=
  map (fun k => inject_Z (Z.of_nat k)) (seq 0 n).

(** Command-line session: start at 0 s, then 301 mouse moves one second
    apart and five CPU samples. *)
Definition cli_events : list Cli.event :=
  Cli.Start 0
    :: map (fun t => Cli.Mouse_move 640 480 1700000000123456789 t)
           (seconds 301)
    ++ map (fun k => Cli.Cpu_tick (Some (inject_Z (Z.of_nat k))))
           (seq 1000 5).

Definition cli_session : Cli.EntropyCollector := Cli.run cli_events Cli.init.

(** Session with audio: start at 0 s with audio, the stream opens, then
    301 mouse moves one second apart and 100 audio buffers. *)
Definition gui_events : list Gui.event :=
  Gui.Start true 0 :: Gui.Audio_open (Some 0%nat)
    :: map (fun t => Gui.Mouse_move 640 480 1700000000123456789 t)
           (seconds 301)
    ++ map (fun k => Gui.Audio_read (Some (Z.of_nat k, 7, 9, 11)))
           (seq 0 100).

Definition gui_session : Gui.EntropyCollector := Gui.run gui_events Gui.init.

(** Session without audio: start at 0 s with include_audio=False, then
    301 mouse moves one second apart. *)
Definition gui_events_no_audio : list Gui.event :=
  Gui.Start false 0
    :: map (fun t => Gui.Mouse_move 640 480 1700000000123456789 t)
           (seconds 301).

(** Command-line session that stops short: start at 0 s, 280 mouse
    moves at 0 s, then one move per second from 1 s to 29 s. *)
Definition cli_events_29s : list Cli.event :=
  Cli.Start 0
    :: map (fun _ => Cli.Mouse_move 640 480 1700000000123456789 0)
           (seq 0 280)
    ++ map (fun t => Cli.Mouse_move 640 480 1700000000123456789 t)
           (tl (seconds 30)).

(** ** Vocabulary of the further properties *)



(** What the producers write: the pools, the queue and the activity
    tracker. *)
Definition cli_data (c : Cli.EntropyCollector) :=
  (Cli.mouse_entropy c, Cli.cpu_entropy c, Cli.entropy_queue c,
   Cli.mouse_movement_start c, Cli.last_mouse_activity c,
   Cli.total_active_movement_time c).

Definition gui_data (c : Gui.EntropyCollector) :=
  (Gui.mouse_entropy c, Gui.cpu_entropy c, Gui.audio_entropy c,
   Gui.entropy_queue c, Gui.mouse_movement_start c,
   Gui.last_mouse_activity c, Gui.total_active_movement_time c).

(** From [s] to [s'] no turn has passed a test, and every sample put
    in the queue or appended to a pool has used up a turn that was past
    its test. *)
Definition cli_drains (s s' : CliThreads.state) : Prop :=
  let c := CliThreads.collector s in
  let c' := CliThreads.collector s' in
  Cli.collecting c' = false
  /\ (CliThreads.mouse_calls s' <= CliThreads.mouse_calls s)%nat
  /\ (CliThreads.cpu_turns s' <= CliThreads.cpu_turns s)%nat
  /\ (exists added,
         Cli.entropy_queue c' = Cli.entropy_queue c ++ added
         /\ (length added + CliThreads.in_flight s'
             <= CliThreads.in_flight s)%nat)
  /\ Deque.len (Cli.mouse_entropy c') + Z.of_nat (CliThreads.mouse_calls s')
     <= Deque.len (Cli.mouse_entropy c) + Z.of_nat (CliThreads.mouse_calls s)
  /\ Deque.len (Cli.cpu_entropy c') + Z.of_nat (CliThreads.cpu_turns s')
     <= Deque.len (Cli.cpu_entropy c) + Z.of_nat (CliThreads.cpu_turns s)
  /\ (CliThreads.in_flight s = 0%nat -> cli_data c' = cli_data c).

Definition gui_drains (s s' : GuiThreads.state) : Prop :=
  let c := GuiThreads.collector s in
  let c' := GuiThreads.collector s' in
  Gui.collecting c' = false
  /\ (GuiThreads.mouse_calls s' <= GuiThreads.mouse_calls s)%nat
  /\ (GuiThreads.cpu_turns s' <= GuiThreads.cpu_turns s)%nat
  /\ (GuiThreads.audio_turns s' <= GuiThreads.audio_turns s)%nat
  /\ (exists added,
         Gui.entropy_queue c' = Gui.entropy_queue c ++ added
         /\ (length added + GuiThreads.in_flight s'
             <= GuiThreads.in_flight s)%nat)
  /\ Deque.len (Gui.mouse_entropy c') + Z.of_nat (GuiThreads.mouse_calls s')
     <= Deque.len (Gui.mouse_entropy c) + Z.of_nat (GuiThreads.mouse_calls s)
  /\ Deque.len (Gui.cpu_entropy c') + Z.of_nat (GuiThreads.cpu_turns s')
     <= Deque.len (Gui.cpu_entropy c) + Z.of_nat (GuiThreads.cpu_turns s)
  /\ Deque.len (Gui.audio_entropy c') + Z.of_nat (GuiThreads.audio_turns s')
     <= Deque.len (Gui.audio_entropy c) + Z.of_nat (GuiThreads.audio_turns s)
  /\ (GuiThreads.in_flight s = 0%nat -> gui_data c' = gui_data c).

(** start_collection(include_audio=True) *)
Definition gui_starts_audio (e : Gui.event) : bool :=
  match e with Gui.Start true _ => true | _ => false end.

(** Clock readings that follow [prev] in order, each at most [timeout]
    after the one before. *)
Fixpoint steady (timeout prev : Q) (times : list Q) : Prop :=
  match times with
  | [] => True
  | t :: rest =>
      ((prev <= t)%Q /\ (t - prev <= timeout)%Q) /\ steady timeout t rest
  end.

(** A generated number is in range. *)
Definition in_output_range (v : Z) : Prop := 0 <= v < 2048.

(** What can happen to a generator object: an event of its collector,
    a call of the generator, a status query. *)
Inductive cli_op : Type :=
| Cli_event (e : Cli.event)
| Cli_generate (min_entropy_samples : Z) (now : Q) (timestamp : Z)
| Cli_status.

Definition cli_apply (rng : Cli.EntropyRNG) (op : cli_op) : Cli.EntropyRNG :=
  match op with
  | Cli_event e =>
      {| Cli.collector := Cli.step (Cli.collector rng) e;
         Cli.generated_numbers := Cli.generated_numbers rng |}
  | Cli_generate min_entropy_samples now timestamp =>
      snd (Cli.generate_random_number min_entropy_samples now timestamp rng)
  | Cli_status => snd (Cli.get_entropy_status rng)
  end.

Definition cli_apply_all (ops : list cli_op) (rng : Cli.EntropyRNG)
    : Cli.EntropyRNG :=
  fold_left cli_apply ops rng.

Inductive gui_op : Type :=
| Gui_event (e : Gui.event)
| Gui_generate (count min_entropy_samples : Z) (now : Q) (time_ns : Z -> Z)
| Gui_status.

Definition gui_apply (rng : Gui.EntropyRNG) (op : gui_op) : Gui.EntropyRNG :=
  match op with
  | Gui_event e =>
      {| Gui.collector := Gui.step (Gui.collector rng) e;
         Gui.generated_numbers := Gui.generated_numbers rng |}
  | Gui_generate count min_entropy_samples now time_ns =>
      snd (Gui.generate_random_numbers count min_entropy_samples now time_ns rng)
  | Gui_status => snd (Gui.get_entropy_status rng)
  end.

Definition gui_apply_all (ops : list gui_op) (rng : Gui.EntropyRNG)
    : Gui.EntropyRNG :=
  fold_left gui_apply ops rng.

(** How often an outside call occurs in a log. *)
Definition count_effect (f : effect -> bool) (log : list effect) : nat :=
  length (filter f log).

Definition is_listener_start (e : effect) : bool :=
  match e with Listener_start => true | _ => false end.

Definition is_listener_stop (e : effect) : bool :=
  match e with Listener_stop => true | _ => false end.

Definition is_stream_close (s : nat) (e : effect) : bool :=
  match e with Stream_close s' => Nat.eqb s s' | _ => false end.

(** Events that reach the release of the audio stream: stop_collection
    and the [finally] clause of the audio thread (also taken when
    opening the stream fails). *)
Definition gui_is_release (e : Gui.event) : bool :=
  match e with
  | Gui.Stop | Gui.Audio_exit | Gui.Audio_open None => true
  | _ => false
  end.

(** The audio thread opened a stream. *)
Definition gui_opens_stream (e : Gui.event) : bool :=
  match e with Gui.Audio_open (Some _) => true | _ => false end.

(** Hexadecimal rendering, used to state test vectors. *)
Definition hex_digit (z : Z) : ascii :=
  nth (Z.to_nat z) (list_ascii_of_string "0123456789abcdef") "0"%char.

Definition hexdigest (bs : list byte) : string :=
  string_of_list_ascii
    (flat_map (fun b => let z := Codec.Z_of_byte b in
                        [hex_digit (z / 16); hex_digit (z mod 16)]) bs).

(** * Verification *)

(** ** Test vectors of the library models *)

Example sha256_round_constants :
  forallb (fun pk => root_fraction_bits 3 (fst pk) (snd pk))
          (combine first_primes SHA256.K) = true
  /\ length SHA256.K = 64%nat.
Proof. vm_compute. split; reflexivity. Qed.

Example sha256_initial_value :
  forallb (fun pk => root_fraction_bits 2 (fst pk) (snd pk))
          (combine first_primes
             [SHA256.ra SHA256.H0; SHA256.rb SHA256.H0; SHA256.rc SHA256.H0;
              SHA256.rd SHA256.H0; SHA256.re SHA256.H0; SHA256.rf SHA256.H0;
              SHA256.rg SHA256.H0; SHA256.rh SHA256.H0]) = true.
Proof. vm_compute. reflexivity. Qed.

Example sha256_empty :
  hexdigest (SHA256.sha256 []) =
  "e3b0c44298fc1c149afbf4c8996fb92427ae41e4649b934ca495991b7852b855"%string.
Proof. vm_compute. reflexivity. Qed.

Example sha256_abc :
  hexdigest (SHA256.sha256 (Codec.encode "abc")) =
  "ba7816bf8f01cfea414140de5dae2223b00361a396177a9cb410ff61f20015ad"%string.
Proof. vm_compute. reflexivity. Qed.

Example str_examples :
  (Codec.str 0, Codec.str 1700000000123456789, Codec.str (-42))
  = ("0", "1700000000123456789", "-42")%string.
Proof. vm_compute. reflexivity. Qed.

Example to_bytes4_examples :
  (Codec.to_bytes4 0x01020304, Codec.to_bytes4 (2 ^ 32), Codec.to_bytes4 (-1))
  = (Some [x01; x02; x03; x04], None, None).
Proof. vm_compute. reflexivity. Qed.

(** ** The bounded deque *)

Section DequeFacts.

Lemma most_recent_length {A} (n : nat) (l : list A) :
  length (most_recent n l) = Nat.min n (length l).
Proof. unfold most_recent. rewrite length_skipn. lia. Qed.

Lemma most_recent_all {A} (n : nat) (l : list A) :
  (length l <= n)%nat -> most_recent n l = l.
Proof.
  intros Hle. unfold most_recent.
  replace (length l - n)%nat with 0%nat by lia. reflexivity.
Qed.

(** Appending to the history and keeping the [n] most recent is
    appending to the kept part and dropping the oldest if that makes
    [n + 1]. *)
Lemma most_recent_snoc {A} (n : nat) (l : list A) (x : A) :
  most_recent n (l ++ [x]) =
  if (n <? length (most_recent n l ++ [x]))%nat
  then tl (most_recent n l ++ [x])
  else most_recent n l ++ [x].
Proof.
  rewrite length_app, most_recent_length. cbn [length].
  destruct (Nat.ltb_spec n (Nat.min n (length l) + 1)) as [Hfull | Hroom].
  - assert (Hn : (n <= length l)%nat) by lia.
    unfold most_recent. rewrite length_app. cbn [length].
    replace (length l + 1 - n)%nat with (1 + (length l - n))%nat by lia.
    rewrite <- skipn_skipn. cbn [skipn].
    rewrite skipn_app.
    replace (length l - n - length l)%nat with 0%nat by lia.
    reflexivity.
  - assert (Hn : (length l < n)%nat) by lia.
    rewrite (most_recent_all n l) by lia.
    apply most_recent_all. rewrite length_app. cbn [length]. lia.
Qed.

Lemma append_maxlen x d : Deque.maxlen (Deque.append x d) = Deque.maxlen d.
Proof. unfold Deque.append. destruct (_ <? _)%nat; reflexivity. Qed.

(** One append keeps "the items are the most recent of the history". *)
Lemma append_most_recent x d history :
  Deque.items d = most_recent (Deque.maxlen d) history ->
  Deque.items (Deque.append x d)
  = most_recent (Deque.maxlen d) (history ++ [x]).
Proof.
  intros Hd. rewrite most_recent_snoc. unfold Deque.append.
  rewrite Hd. destruct (_ <? _)%nat; reflexivity.
Qed.

Lemma append_all_snoc xs x d :
  Deque.append_all (xs ++ [x]) d = Deque.append x (Deque.append_all xs d).
Proof. unfold Deque.append_all. rewrite fold_left_app. reflexivity. Qed.

Lemma append_all_maxlen xs d :
  Deque.maxlen (Deque.append_all xs d) = Deque.maxlen d.
Proof.
  induction xs as [| x xs IH] using rev_ind; [reflexivity |].
  rewrite append_all_snoc, append_maxlen. exact IH.
Qed.

Lemma append_all_most_recent n xs :
  Deque.items (Deque.append_all xs (Deque.empty n)) = most_recent n xs.
Proof.
  induction xs as [| x xs IH] using rev_ind; [reflexivity |].
  rewrite append_all_snoc.
  pose proof (append_all_maxlen xs (Deque.empty n)) as Hm. cbn in Hm.
  rewrite <- Hm at 2. apply append_most_recent. rewrite Hm. exact IH.
Qed.

(** A push on a full deque drops exactly the oldest item. *)
Lemma append_full x d :
  length (Deque.items d) = Deque.maxlen d ->
  Deque.items (Deque.append x d) = tl (Deque.items d ++ [x]).
Proof.
  intros Hfull. unfold Deque.append. rewrite length_app. cbn [length].
  destruct (Nat.ltb_spec (Deque.maxlen d) (length (Deque.items d) + 1));
    [reflexivity | lia].
Qed.

Lemma append_room x d :
  (length (Deque.items d) < Deque.maxlen d)%nat ->
  Deque.items (Deque.append x d) = Deque.items d ++ [x].
Proof.
  intros Hroom. unfold Deque.append. rewrite length_app. cbn [length].
  destruct (Nat.ltb_spec (Deque.maxlen d) (length (Deque.items d) + 1));
    [lia | reflexivity].
Qed.

End DequeFacts.

(** ** Range of the samples *)

Section SampleRange.

Lemma is_u32_iff z : is_u32 z = true <-> 0 <= z < 2 ^ 32.
Proof. unfold is_u32. rewrite andb_true_iff, Z.leb_le, Z.ltb_lt. tauto. Qed.

Lemma lxor_below n a b :
  0 < n -> 0 <= a < 2 ^ n -> 0 <= b < 2 ^ n -> 0 <= Z.lxor a b < 2 ^ n.
Proof.
  intros Hn Ha Hb.
  assert (Hnn : 0 <= Z.lxor a b) by (apply Z.lxor_nonneg; lia).
  split; [exact Hnn |].
  destruct (Z.eq_dec (Z.lxor a b) 0) as [-> | Hnz].
  - apply Z.pow_pos_nonneg; lia.
  - apply Z.log2_lt_pow2; [lia |].
    pose proof (Z.log2_lxor a b (proj1 Ha) (proj1 Hb)) as Hlog.
    assert (Hla : Z.log2 a < n).
    { destruct (Z.eq_dec a 0) as [-> | ?]; [cbn; lia |].
      apply Z.log2_lt_pow2; lia. }
    assert (Hlb : Z.log2 b < n).
    { destruct (Z.eq_dec b 0) as [-> | ?]; [cbn; lia |].
      apply Z.log2_lt_pow2; lia. }
    lia.
Qed.

Lemma land_FFFF a : 0 <= Z.land a 0xFFFF < 2 ^ 16.
Proof.
  change 0xFFFF with (Z.ones 16). rewrite Z.land_ones by lia.
  apply Z.mod_pos_bound. reflexivity.
Qed.

Lemma mouse_sample_u32 x y timestamp pool :
  is_u32 (Shared.mouse_sample x y timestamp pool) = true.
Proof.
  apply is_u32_iff. unfold Shared.mouse_sample.
  pose proof (land_FFFF (Z.lxor (Z.lxor x y) (Z.land timestamp 0xFFFFFFFF)))
    as Hdata.
  destruct (0 <? Deque.len pool).
  - pose proof (Z.mod_pos_bound timestamp 1000000 eq_refl) as Hmod.
    assert (H30 : 0 <= Z.lxor
              (Z.land (Z.lxor (Z.lxor x y) (Z.land timestamp 0xFFFFFFFF)) 0xFFFF)
              (timestamp mod 1000000 * 1000) < 2 ^ 30).
    { apply lxor_below; [lia | |].
      - assert (2 ^ 16 < 2 ^ 30) by reflexivity. lia.
      - assert (999999 * 1000 < 2 ^ 30) by reflexivity. lia. }
    assert (2 ^ 30 < 2 ^ 32) by reflexivity. lia.
  - assert (2 ^ 16 < 2 ^ 32) by reflexivity. lia.
Qed.

Lemma cpu_sample_u32 mix : is_u32 (Shared.cpu_sample mix) = true.
Proof.
  apply is_u32_iff. unfold Shared.cpu_sample.
  apply Z.mod_pos_bound. reflexivity.
Qed.

Lemma audio_sample_u32 rms peak variance timestamp :
  is_u32 (Gui.audio_sample rms peak variance timestamp) = true.
Proof.
  apply is_u32_iff. unfold Gui.audio_sample.
  match goal with |- 0 <= Z.land ?a _ < _ => pose proof (land_FFFF a) end.
  assert (2 ^ 16 < 2 ^ 32) by reflexivity. lia.
Qed.

End SampleRange.

(** ** Invariants of the collectors *)

Section Invariants.

Lemma pushed_snoc source queue tag v :
  pushed source (queue ++ [(tag, v)]) =
  if String.eqb tag source then pushed source queue ++ [v]
  else pushed source queue.
Proof.
  unfold pushed. rewrite filter_app, map_app. cbn.
  destruct (String.eqb tag source); cbn; [reflexivity | apply app_nil_r].
Qed.

Lemma forallb_append x d :
  forallb is_u32 (Deque.items d) = true -> is_u32 x = true ->
  forallb is_u32 (Deque.items (Deque.append x d)) = true.
Proof.
  intros Hd Hx.
  assert (Hg : forallb is_u32 (Deque.items d ++ [x]) = true).
  { rewrite forallb_app, Hd. cbn. rewrite Hx. reflexivity. }
  unfold Deque.append. destruct (_ <? _)%nat; cbn [Deque.items]; [| exact Hg].
  destruct (Deque.items d ++ [x]) as [| y l]; [reflexivity |].
  cbn in Hg |- *. apply andb_true_iff in Hg. tauto.
Qed.

(** A push for the pool's own source. *)
Lemma pool_ok_push source queue pool v :
  pool_ok source queue pool -> is_u32 v = true ->
  pool_ok source (queue ++ [(source, v)]) (Deque.append v pool).
Proof.
  intros (Hmax & Hitems & Hu32) Hv. repeat split.
  - rewrite append_maxlen. exact Hmax.
  - rewrite pushed_snoc, String.eqb_refl, <- Hmax.
    apply append_most_recent. rewrite Hmax. exact Hitems.
  - apply forallb_append; assumption.
Qed.

(** A push for another source. *)
Lemma pool_ok_other source queue pool tag v :
  pool_ok source queue pool -> String.eqb tag source = false ->
  pool_ok source (queue ++ [(tag, v)]) pool.
Proof.
  intros (Hmax & Hitems & Hu32) Hne. repeat split; try assumption.
  rewrite pushed_snoc, Hne. exact Hitems.
Qed.

Lemma pool_ok_empty source : pool_ok source [] (Deque.empty 2000).
Proof. repeat split. Qed.

Lemma pool_ok_length source queue pool :
  pool_ok source queue pool -> (length (Deque.items pool) <= 2000)%nat.
Proof.
  intros (_ & Hitems & _). rewrite Hitems, most_recent_length. lia.
Qed.

Lemma cli_init_ok : cli_ok Cli.init.
Proof. repeat split. Qed.

Lemma cli_step_ok c e : cli_ok c -> cli_ok (Cli.step c e).
Proof.
  intros (Hm & Hc & Ht).
  destruct e as [now | | x y timestamp current_time | [mix |]]; cbn;
    unfold Cli.on_mouse_move, Cli.cpu_tick;
    try destruct (Cli.collecting c);
    refine (conj _ (conj _ _)); cbn; try assumption.
  - apply pool_ok_push; [exact Hm | apply mouse_sample_u32].
  - apply pool_ok_other; [exact Hc | reflexivity].
  - apply pool_ok_other; [exact Hm | reflexivity].
  - apply pool_ok_push; [exact Hc | apply cpu_sample_u32].
Qed.

Lemma cli_run_ok es c : cli_ok c -> cli_ok (Cli.run es c).
Proof.
  revert c. induction es as [| e es IH]; intros c Hc; [exact Hc |].
  cbn. apply IH, cli_step_ok, Hc.
Qed.

Lemma gui_init_ok : gui_ok Gui.init.
Proof. repeat split. Qed.

Lemma gui_step_ok c e : gui_ok c -> gui_ok (Gui.step c e).
Proof.
  intros (Hm & Hc & Ha & Ht).
  destruct e as [include_audio now | | x y timestamp current_time
                | [mix |] | [s |] | [[[[rms peak] variance] timestamp] |] | ];
    cbn;
    unfold Gui.on_mouse_move, Gui.cpu_tick, Gui.audio_open, Gui.audio_read,
      Gui.audio_exit;
    try destruct (Gui.collecting c); try destruct (Gui.audio_recording c);
    try destruct (Gui.audio_stream c);
    refine (conj _ (conj _ (conj _ _))); cbn; try assumption;
    first [ apply pool_ok_push; [assumption |]
          | apply pool_ok_other; [assumption | reflexivity] ];
    first [ apply mouse_sample_u32 | apply cpu_sample_u32
          | apply audio_sample_u32 ].
Qed.

Lemma gui_run_ok es c : gui_ok c -> gui_ok (Gui.run es c).
Proof.
  revert c. induction es as [| e es IH]; intros c Hc; [exact Hc |].
  cbn. apply IH, gui_step_ok, Hc.
Qed.

End Invariants.

(** ** Pools are bounded first-in first-out buffers *)

(** C6. Every pool is a deque bounded by 2000: after any sequence of
    pushes on an empty pool its length is at most 2000 and its items are
    the most recent 2000 pushed values in push order (all of them when
    fewer were pushed); a push on a full pool drops exactly the oldest
    item and keeps the others in order.  The same holds of the mouse and
    CPU pools of the command-line collector and of the mouse, CPU and
    audio pools of the collector with audio after any sequence of events,
    where the values pushed for a source are those put on the entropy
    queue under its name. *)
Theorem C6_pools_bounded_fifo :
  (forall xs : list Z,
      let d := Deque.append_all xs (Deque.empty 2000) in
      (length (Deque.items d) <= 2000)%nat
      /\ Deque.items d = skipn (length xs - 2000) xs)
  /\ (forall (x oldest : Z) (others : list Z) (d : Deque.t),
         Deque.items d = oldest :: others ->
         length (Deque.items d) = Deque.maxlen d ->
         Deque.items (Deque.append x d) = others ++ [x])
  /\ (forall es : list Cli.event,
         let c := Cli.run es Cli.init in
         (length (Deque.items (Cli.mouse_entropy c)) <= 2000)%nat
         /\ (length (Deque.items (Cli.cpu_entropy c)) <= 2000)%nat
         /\ Deque.items (Cli.mouse_entropy c)
            = most_recent 2000 (pushed "mouse" (Cli.entropy_queue c))
         /\ Deque.items (Cli.cpu_entropy c)
            = most_recent 2000 (pushed "cpu" (Cli.entropy_queue c)))
  /\ (forall es : list Gui.event,
         let c := Gui.run es Gui.init in
         (length (Deque.items (Gui.mouse_entropy c)) <= 2000)%nat
         /\ (length (Deque.items (Gui.cpu_entropy c)) <= 2000)%nat
         /\ (length (Deque.items (Gui.audio_entropy c)) <= 2000)%nat
         /\ Deque.items (Gui.mouse_entropy c)
            = most_recent 2000 (pushed "mouse" (Gui.entropy_queue c))
         /\ Deque.items (Gui.cpu_entropy c)
            = most_recent 2000 (pushed "cpu" (Gui.entropy_queue c))
         /\ Deque.items (Gui.audio_entropy c)
            = most_recent 2000 (pushed "audio" (Gui.entropy_queue c))).
Proof.
  split; [| split; [| split]].
  - intros xs d. subst d. rewrite append_all_most_recent. split.
    + rewrite most_recent_length. lia.
    + reflexivity.
  - intros x oldest others d Hitems Hfull.
    rewrite append_full by exact Hfull. rewrite Hitems. reflexivity.
  - intros es c.
    destruct (cli_run_ok es Cli.init cli_init_ok) as (Hm & Hc & _).
    fold c in Hm, Hc.
    pose proof (pool_ok_length _ _ _ Hm). pose proof (pool_ok_length _ _ _ Hc).
    destruct Hm as (_ & Hm & _). destruct Hc as (_ & Hc & _). auto.
  - intros es c.
    destruct (gui_run_ok es Gui.init gui_init_ok) as (Hm & Hc & Ha & _).
    fold c in Hm, Hc, Ha.
    pose proof (pool_ok_length _ _ _ Hm). pose proof (pool_ok_length _ _ _ Hc).
    pose proof (pool_ok_length _ _ _ Ha).
    destruct Hm as (_ & Hm & _). destruct Hc as (_ & Hc & _).
    destruct Ha as (_ & Ha & _). auto 10.
Qed.

(** A pool bounded by 3 that holds 1, 2, 3 and receives 4. *)
Lemma C6_pools_bounded_fifo_witness :
  Deque.items (Deque.append 4 (Deque.mk 3 [1; 2; 3])) = [2; 3] ++ [4].
Proof.
  apply (proj1 (proj2 C6_pools_bounded_fifo) 4 1 [2; 3] (Deque.mk 3 [1; 2; 3]));
    reflexivity.
Defined.

Example deque_2003_pushes :
  Deque.items
    (Deque.append_all (map Z.of_nat (seq 0 2003)) (Deque.empty 2000))
  = map Z.of_nat (seq 3 2000).
Proof. vm_compute. reflexivity. Qed.

(** ** Accumulated time of active mouse movement *)

Section Activity.

(** With the clock not running backwards, tracking never decreases the
    total. *)
Lemma track_activity_mono last total timeout now :
  match last with Some p => (p <= now)%Q | None => True end ->
  (total <= Shared.track_activity last total timeout now)%Q.
Proof.
  intros Hchron. unfold Shared.track_activity.
  destruct last as [p |]; [| lra].
  destruct (Qle_bool (now - p) timeout); lra.
Qed.

Lemma track_activity_within p total timeout now :
  (now - p <= timeout)%Q ->
  Shared.track_activity (Some p) total timeout now = (total + (now - p))%Q.
Proof.
  intros Hgap. unfold Shared.track_activity.
  apply Qle_bool_iff in Hgap. rewrite Hgap. reflexivity.
Qed.

Lemma track_activity_beyond p total timeout now :
  (timeout < now - p)%Q ->
  Shared.track_activity (Some p) total timeout now = total.
Proof.
  intros Hgap. unfold Shared.track_activity.
  destruct (Qle_bool (now - p) timeout) eqn:Hle; [| reflexivity].
  apply Qle_bool_iff in Hle. lra.
Qed.

Lemma chronological_app prev ts1 ts2 :
  chronological prev (ts1 ++ ts2) ->
  chronological prev ts1
  /\ chronological (fold_left (fun _ t => Some t) ts1 prev) ts2.
Proof.
  revert prev. induction ts1 as [| t ts1 IH]; intros prev H; cbn in *.
  - split; [exact I | exact H].
  - destruct H as [Hp Hrest]. destruct (IH _ Hrest). tauto.
Qed.

Lemma cli_move_collecting x y ts t c :
  Cli.collecting c = true ->
  Cli.collecting (Cli.on_mouse_move x y ts t c) = true.
Proof. intros Hc. unfold Cli.on_mouse_move. rewrite Hc. reflexivity. Qed.

Lemma cli_move_last x y ts t c :
  Cli.collecting c = true ->
  Cli.last_mouse_activity (Cli.on_mouse_move x y ts t c) = Some t.
Proof. intros Hc. unfold Cli.on_mouse_move. rewrite Hc. reflexivity. Qed.

Lemma cli_move_total x y ts t c :
  Cli.collecting c = true ->
  Cli.total_active_movement_time (Cli.on_mouse_move x y ts t c)
  = Shared.track_activity (Cli.last_mouse_activity c)
      (Cli.total_active_movement_time c) (Cli.mouse_activity_timeout c) t.
Proof. intros Hc. unfold Cli.on_mouse_move. rewrite Hc. reflexivity. Qed.

Lemma cli_moves_collecting ms c :
  Cli.collecting c = true -> Cli.collecting (Cli.run (moves ms) c) = true.
Proof.
  revert c. induction ms as [| [[[x y] ts] t] ms IH]; intros c Hc;
    [exact Hc |].
  cbn. apply IH, cli_move_collecting, Hc.
Qed.

Lemma cli_moves_last ms c :
  Cli.collecting c = true ->
  Cli.last_mouse_activity (Cli.run (moves ms) c)
  = fold_left (fun _ t => Some t) (move_times ms) (Cli.last_mouse_activity c).
Proof.
  revert c. induction ms as [| [[[x y] ts] t] ms IH]; intros c Hc;
    [reflexivity |].
  cbn. rewrite IH by (apply cli_move_collecting, Hc).
  rewrite cli_move_last by exact Hc. reflexivity.
Qed.

Lemma cli_moves_idle ms c :
  Cli.collecting c = false -> Cli.run (moves ms) c = c.
Proof.
  revert c. induction ms as [| [[[x y] ts] t] ms IH]; intros c Hc;
    [reflexivity |].
  cbn. unfold Cli.on_mouse_move. rewrite Hc. apply IH, Hc.
Qed.

Lemma cli_moves_mono ms c :
  Cli.collecting c = true ->
  chronological (Cli.last_mouse_activity c) (move_times ms) ->
  (Cli.total_active_movement_time c
   <= Cli.total_active_movement_time (Cli.run (moves ms) c))%Q.
Proof.
  revert c. induction ms as [| [[[x y] ts] t] ms IH]; intros c Hc Hchron.
  - cbn. lra.
  - cbn in Hchron. destruct Hchron as [Hp Hrest]. cbn.
    eapply Qle_trans; [| apply IH].
    + rewrite cli_move_total by exact Hc.
      apply track_activity_mono. exact Hp.
    + apply cli_move_collecting, Hc.
    + rewrite cli_move_last by exact Hc. exact Hrest.
Qed.

End Activity.

(** C5. On a collecting collector reached from the initial one (so with
    the 2-second timeout), a mouse move at clock reading [now] sets
    last_mouse_activity to [now]; when a prior activity exists and the gap
    [now - prior] is at most 2 seconds, total_active_movement_time grows
    by exactly that gap; when the gap exceeds 2 seconds, or there is no
    prior activity, it is unchanged.  Along any sequence of mouse moves
    whose clock readings are in chronological order, from any collector,
    the total after a prefix is at most the total after the whole
    sequence. *)
Theorem C5_active_time_accumulation :
  (forall (es : list Cli.event) (x y timestamp : Z) (now : Q),
      let c := Cli.run es Cli.init in
      let c' := Cli.on_mouse_move x y timestamp now c in
      Cli.collecting c = true ->
      Cli.last_mouse_activity c' = Some now
      /\ match Cli.last_mouse_activity c with
         | Some prior =>
             ((now - prior <= 2)%Q ->
              Cli.total_active_movement_time c'
              = (Cli.total_active_movement_time c + (now - prior))%Q)
             /\ ((2 < now - prior)%Q ->
                 Cli.total_active_movement_time c'
                 = Cli.total_active_movement_time c)
         | None =>
             Cli.total_active_movement_time c'
             = Cli.total_active_movement_time c
         end)
  /\ (forall (c : Cli.EntropyCollector) (before after : list (Z * Z * Z * Q)),
         chronological (Cli.last_mouse_activity c)
           (move_times (before ++ after)) ->
         (Cli.total_active_movement_time (Cli.run (moves before) c)
          <= Cli.total_active_movement_time
               (Cli.run (moves (before ++ after)) c))%Q).
Proof.
  split.
  - intros es x y timestamp now c c' Hc.
    destruct (cli_run_ok es Cli.init cli_init_ok) as (_ & _ & Ht).
    fold c in Ht. subst c'.
    rewrite cli_move_last, cli_move_total by exact Hc.
    split; [reflexivity |]. rewrite Ht.
    destruct (Cli.last_mouse_activity c) as [prior |]; [| reflexivity].
    split; intros Hgap.
    + apply track_activity_within. exact Hgap.
    + apply track_activity_beyond. exact Hgap.
  - intros c before after Hchron.
    destruct (Cli.collecting c) eqn:Hc.
    + unfold move_times in Hchron. rewrite map_app in Hchron.
      apply chronological_app in Hchron. destruct Hchron as [_ Hafter].
      unfold moves, Cli.run. rewrite map_app, fold_left_app.
      apply (cli_moves_mono after (Cli.run (moves before) c)).
      * apply cli_moves_collecting. exact Hc.
      * rewrite cli_moves_last by exact Hc. exact Hafter.
    + rewrite !cli_moves_idle by exact Hc. apply Qle_refl.
Qed.

(** After a start at 0 s and a first move at 5 s: a move at 6.5 s adds
    1.5 s, a move at 8 s adds nothing; and along the moves at 5 s, 6 s,
    9 s, 10 s the total after the first two is at most the final total. *)
Lemma C5_active_time_accumulation_witness :
  let c := Cli.run [Cli.Start 0; Cli.Mouse_move 1 2 3 5] Cli.init in
  let before := [(1, 2, 3, 5%Q); (1, 2, 3, 6%Q)] in
  let after := [(1, 2, 3, 9%Q); (1, 2, 3, 10%Q)] in
  let started := Cli.start_collection 0 Cli.init in
  (Cli.total_active_movement_time (Cli.on_mouse_move 4 5 6 (13 # 2) c)
   = (Cli.total_active_movement_time c + ((13 # 2) - 5))%Q
   /\ Cli.total_active_movement_time (Cli.on_mouse_move 4 5 6 8 c)
      = Cli.total_active_movement_time c)
  /\ (Cli.total_active_movement_time (Cli.run (moves before) started)
      <= Cli.total_active_movement_time
           (Cli.run (moves (before ++ after)) started))%Q.
Proof.
  intros c before after started. split; [split |].
  - apply (proj1 (proj2 (proj1 C5_active_time_accumulation
                           [Cli.Start 0; Cli.Mouse_move 1 2 3 5]
                           4 5 6 (13 # 2)%Q eq_refl))).
    vm_compute. discriminate.
  - apply (proj2 (proj2 (proj1 C5_active_time_accumulation
                           [Cli.Start 0; Cli.Mouse_move 1 2 3 5]
                           4 5 6 8%Q eq_refl))).
    vm_compute. reflexivity.
  - apply (proj2 C5_active_time_accumulation started before after).
    cbn. repeat split; vm_compute; discriminate.
Defined.

Example active_time_values :
  let c := Cli.run (moves [(1, 2, 3, 5%Q); (1, 2, 3, 6%Q);
                           (1, 2, 3, 9%Q); (1, 2, 3, 10%Q)])
                   (Cli.start_collection 0 Cli.init) in
  (Cli.total_active_movement_time c == 2)%Q
  /\ (Cli.get_mouse_movement_duration (21 # 2) c == 5 # 2)%Q
  /\ (Cli.get_mouse_movement_duration 13 c == 2)%Q
  /\ Cli.is_mouse_currently_active (21 # 2) c = true
  /\ Cli.is_mouse_currently_active 13 c = false.
Proof. vm_compute. repeat split; discriminate. Qed.

(** ** The mixing step *)

Section Mixing.

Lemma to_bytes4_u32 z :
  is_u32 z = true -> Codec.to_bytes4 z = Some (Codec.be_bytes 4 z).
Proof. unfold Codec.to_bytes4, is_u32. intros ->. reflexivity. Qed.

Lemma to_bytes4_overflow z :
  is_u32 z = false -> Codec.to_bytes4 z = None.
Proof. unfold Codec.to_bytes4, is_u32. intros ->. reflexivity. Qed.

Lemma digest_mod_2048_range input : 0 <= digest_mod_2048 input < 2048.
Proof. unfold digest_mod_2048. apply Z.mod_pos_bound. reflexivity. Qed.

Lemma reduce_digest hasher : Shared.reduce hasher = digest_mod_2048 hasher.
Proof. reflexivity. Qed.

(** *** generate_random_number *)

Lemma cli_feed_samples pool hasher :
  forallb is_u32 pool = true ->
  Cli.feed_samples pool hasher
  = inr (hasher ++ flat_map (Codec.be_bytes 4) pool).
Proof.
  revert hasher. induction pool as [| sample rest IH]; intros hasher Hu32.
  - cbn. rewrite app_nil_r. reflexivity.
  - cbn in Hu32. apply andb_true_iff in Hu32. destruct Hu32 as [Hs Hrest].
    cbn [Cli.feed_samples]. rewrite (to_bytes4_u32 _ Hs), (IH _ Hrest).
    unfold Hasher.update. cbn [flat_map]. rewrite <- app_assoc. reflexivity.
Qed.

Lemma cli_mix_value timestamp pool :
  forallb is_u32 pool = true ->
  Cli.mix timestamp pool
  = inr (digest_mod_2048 (hash_input_one timestamp pool)).
Proof.
  intros Hu32. unfold Cli.mix. rewrite (cli_feed_samples _ _ Hu32).
  rewrite reduce_digest. reflexivity.
Qed.

(** *** generate_random_numbers *)

Lemma gui_feed_samples_exn i j pool hasher e :
  Gui.feed_samples i j pool hasher = inl e -> e = OverflowError.
Proof.
  revert j hasher. induction pool as [| sample rest IH]; intros j hasher;
    cbn [Gui.feed_samples]; [discriminate |].
  destruct (Codec.to_bytes4 _); [apply IH | congruence].
Qed.

Lemma gui_feed_samples i j pool hasher :
  0 <= i < 2 ^ 32 ->
  forallb is_u32 pool = true ->
  Z.of_nat j + Z.of_nat (length pool) <= 2 ^ 32 ->
  Gui.feed_samples i (Z.of_nat j) pool hasher
  = inr (hasher
           ++ flat_map
                (fun js => Codec.be_bytes 4 (Z.lxor (Z.lxor (snd js) i) (fst js)))
                (enumerate_from j pool)).
Proof.
  intros Hi. revert j hasher.
  induction pool as [| sample rest IH]; intros j hasher Hu32 Hlen.
  - cbn. rewrite app_nil_r. reflexivity.
  - cbn in Hu32. apply andb_true_iff in Hu32. destruct Hu32 as [Hs Hrest].
    cbn [length] in Hlen. apply is_u32_iff in Hs.
    assert (Hx : is_u32 (Z.lxor (Z.lxor sample i) (Z.of_nat j)) = true).
    { apply is_u32_iff. apply lxor_below; [lia | | lia].
      apply lxor_below; lia. }
    cbn [Gui.feed_samples]. rewrite (to_bytes4_u32 _ Hx).
    replace (Z.of_nat j + 1) with (Z.of_nat (S j)) by lia.
    rewrite IH by (try assumption; lia).
    unfold Hasher.update, enumerate_from. cbn. rewrite <- app_assoc.
    reflexivity.
Qed.

Lemma gui_number_at_exn time_ns pool i e :
  Gui.number_at time_ns pool i = inl e -> e = OverflowError.
Proof.
  unfold Gui.number_at.
  destruct (Gui.feed_samples _ _ _ _) eqn:Hfeed; [| discriminate].
  intros [= <-]. eapply gui_feed_samples_exn, Hfeed.
Qed.

Lemma gui_number_at_value time_ns pool i :
  0 <= i < 2 ^ 32 ->
  forallb is_u32 pool = true ->
  Z.of_nat (length pool) <= 2 ^ 32 ->
  Gui.number_at time_ns pool i
  = inr (digest_mod_2048 (hash_input_many (time_ns i) i pool)).
Proof.
  intros Hi Hu32 Hlen. unfold Gui.number_at.
  change 0 with (Z.of_nat 0) at 1.
  rewrite gui_feed_samples by (try assumption; lia).
  rewrite reduce_digest. unfold hash_input_many, Hasher.update, Hasher.new.
  cbn [app]. rewrite <- app_assoc. reflexivity.
Qed.

(** An index of 2^32 or more does not fit four bytes once mixed into a
    sample of a pool that is not empty. *)
Lemma gui_number_at_overflow time_ns sample rest i :
  is_u32 sample = true -> i = 2 ^ 32 ->
  Gui.number_at time_ns (sample :: rest) i = inl OverflowError.
Proof.
  intros Hs ->. unfold Gui.number_at. cbn [Gui.feed_samples].
  rewrite to_bytes4_overflow; [reflexivity |].
  rewrite Z.lxor_0_r. apply is_u32_iff in Hs.
  assert (Hbit : Z.testbit (Z.lxor sample (2 ^ 32)) 32 = true).
  { assert (Hlow : Z.testbit sample 32 = false).
    { apply Z.testbit_false; [lia |].
      rewrite Z.div_small by lia. reflexivity. }
    rewrite Z.lxor_spec, Z.pow2_bits_true, Hlow by lia. reflexivity. }
  destruct (is_u32 (Z.lxor sample (2 ^ 32))) eqn:Hfit; [| reflexivity].
  apply is_u32_iff in Hfit.
  rewrite Z.testbit_true in Hbit by lia.
  rewrite Z.div_small in Hbit by lia. discriminate.
Qed.

Lemma in_range i count : In i (Gui.range count) <-> 0 <= i < count.
Proof.
  unfold Gui.range. rewrite in_map_iff. split.
  - intros (k & <- & Hk). apply in_seq in Hk. lia.
  - intros Hi. exists (Z.to_nat i). split; [lia |]. apply in_seq. lia.
Qed.

Lemma range_length count : length (Gui.range count) = Z.to_nat count.
Proof. unfold Gui.range. rewrite length_map, length_seq. reflexivity. Qed.

Lemma range_nth count i :
  0 <= i < count -> nth (Z.to_nat i) (Gui.range count) 0 = i.
Proof.
  intros Hi. unfold Gui.range.
  change 0 with (Z.of_nat 0). rewrite map_nth, seq_nth by lia. lia.
Qed.

(** The loop succeeds when every turn does, with one number per index
    in order. *)
Lemma gui_numbers_loop_value time_ns pool indices numbers :
  Forall (fun i => 0 <= i < 2 ^ 32) indices ->
  forallb is_u32 pool = true ->
  Z.of_nat (length pool) <= 2 ^ 32 ->
  Gui.numbers_loop time_ns pool indices numbers
  = inr (numbers
           ++ map (fun i => digest_mod_2048 (hash_input_many (time_ns i) i pool))
                  indices).
Proof.
  intros Hidx Hu32 Hlen. revert numbers.
  induction Hidx as [| i rest Hi _ IH]; intros numbers.
  - cbn. rewrite app_nil_r. reflexivity.
  - cbn [Gui.numbers_loop]. rewrite gui_number_at_value by assumption.
    rewrite IH. cbn [map]. rewrite <- app_assoc. reflexivity.
Qed.

(** The loop raises OverflowError when some turn does. *)
Lemma gui_numbers_loop_overflow time_ns pool indices numbers i :
  In i indices ->
  Gui.number_at time_ns pool i = inl OverflowError ->
  Gui.numbers_loop time_ns pool indices numbers = inl OverflowError.
Proof.
  intros Hin Hfail. revert numbers.
  induction indices as [| k rest IH]; intros numbers; [destruct Hin |].
  cbn [Gui.numbers_loop].
  destruct (Gui.number_at time_ns pool k) as [e | result] eqn:Hk.
  - apply gui_number_at_exn in Hk. rewrite Hk. reflexivity.
  - destruct Hin as [-> | Hin]; [congruence | apply IH, Hin].
Qed.

End Mixing.

(** ** The generators *)

Section Generators.

(** generate_random_number without the monad. *)
Lemma cli_generate_cases min_entropy_samples now timestamp rng :
  Cli.generate_random_number min_entropy_samples now timestamp rng =
  if negb (Cli.has_sufficient_entropy 30 300 now (Cli.collector rng))
  then (inl (ValueError Insufficient_entropy), rng)
  else if Shared.len (Cli.get_entropy_pool (Cli.collector rng))
          <? min_entropy_samples
  then (inl (ValueError Insufficient_total_entropy), rng)
  else match Cli.mix timestamp (Cli.get_entropy_pool (Cli.collector rng)) with
       | inl e => (inl e, rng)
       | inr result =>
           (inr result,
            {| Cli.collector := Cli.collector rng;
               Cli.generated_numbers := Cli.generated_numbers rng ++ [result] |})
       end.
Proof.
  unfold Cli.generate_random_number, bind, gets, raise, lift, modify, ret.
  destruct (negb _); [reflexivity |].
  destruct (_ <? _); [reflexivity |].
  destruct (Cli.mix _ _); reflexivity.
Qed.

(** generate_random_numbers without the monad. *)
Lemma gui_generate_cases count min_entropy_samples now time_ns rng :
  Gui.generate_random_numbers count min_entropy_samples now time_ns rng =
  if negb (Gui.has_sufficient_entropy 30 300 100 now (Gui.collector rng))
  then (inl (ValueError Insufficient_entropy), rng)
  else if Shared.len (Gui.get_entropy_pool (Gui.collector rng))
          <? min_entropy_samples
  then (inl (ValueError Insufficient_total_entropy), rng)
  else match Gui.numbers_loop time_ns
               (Gui.get_entropy_pool (Gui.collector rng))
               (Gui.range count) [] with
       | inl e => (inl e, rng)
       | inr numbers =>
           (inr numbers,
            {| Gui.collector := Gui.collector rng;
               Gui.generated_numbers := Gui.generated_numbers rng ++ numbers |})
       end.
Proof.
  unfold Gui.generate_random_numbers, bind, gets, raise, lift, modify, ret.
  destruct (negb _); [reflexivity |].
  destruct (_ <? _); [reflexivity |].
  destruct (Gui.numbers_loop _ _ _ _); reflexivity.
Qed.

Lemma cli_pool_length c :
  Shared.len (Cli.get_entropy_pool c)
  = Deque.len (Cli.mouse_entropy c) + Deque.len (Cli.cpu_entropy c).
Proof.
  unfold Shared.len, Cli.get_entropy_pool, Deque.len, Deque.to_list.
  cbn [app]. rewrite length_app. lia.
Qed.

Lemma gui_pool_length c :
  Shared.len (Gui.get_entropy_pool c)
  = Deque.len (Gui.mouse_entropy c) + Deque.len (Gui.cpu_entropy c)
    + Deque.len (Gui.audio_entropy c).
Proof.
  unfold Shared.len, Gui.get_entropy_pool, Deque.len, Deque.to_list.
  cbn [app]. rewrite !length_app. lia.
Qed.

Lemma deque_len_nonneg d : 0 <= Deque.len d.
Proof. unfold Deque.len. lia. Qed.

(** The samples of a collector reached from the initial one fit four
    bytes, and there are at most 2000 per pool. *)
Lemma cli_pool_u32 c :
  cli_ok c -> forallb is_u32 (Cli.get_entropy_pool c) = true.
Proof.
  intros ((_ & _ & Hm) & (_ & _ & Hc) & _).
  unfold Cli.get_entropy_pool, Deque.to_list. cbn [app].
  rewrite forallb_app, Hm, Hc. reflexivity.
Qed.

Lemma gui_pool_u32 c :
  gui_ok c -> forallb is_u32 (Gui.get_entropy_pool c) = true.
Proof.
  intros ((_ & _ & Hm) & (_ & _ & Hc) & (_ & _ & Ha) & _).
  unfold Gui.get_entropy_pool, Deque.to_list. cbn [app].
  rewrite !forallb_app, Hm, Hc, Ha. reflexivity.
Qed.

Lemma gui_pool_bounded c :
  gui_ok c -> Z.of_nat (length (Gui.get_entropy_pool c)) <= 2 ^ 32.
Proof.
  intros (Hm & Hc & Ha & _).
  apply pool_ok_length in Hm, Hc, Ha.
  pose proof (gui_pool_length c) as Hlen.
  unfold Shared.len, Deque.len in Hlen. rewrite Hlen.
  assert (6000 <= 2 ^ 32) by (vm_compute; discriminate). lia.
Qed.

(** Sufficiency implies the minimum of the generator. *)
Lemma cli_sufficient_total min_mouse_samples required_duration now c :
  Cli.has_sufficient_entropy required_duration min_mouse_samples now c = true ->
  min_mouse_samples <= Shared.len (Cli.get_entropy_pool c).
Proof.
  unfold Cli.has_sufficient_entropy. intros H.
  apply andb_true_iff in H. destruct H as [_ Hm]. apply Z.leb_le in Hm.
  rewrite cli_pool_length.
  pose proof (deque_len_nonneg (Cli.cpu_entropy c)). lia.
Qed.

Lemma gui_sufficient_total min_mouse min_audio required_duration now c :
  Gui.has_sufficient_entropy required_duration min_mouse min_audio now c
  = true ->
  min_mouse + min_audio <= Shared.len (Gui.get_entropy_pool c).
Proof.
  unfold Gui.has_sufficient_entropy. intros H.
  apply andb_true_iff in H. destruct H as [H Ha].
  apply andb_true_iff in H. destruct H as [_ Hm].
  apply Z.leb_le in Hm, Ha. rewrite gui_pool_length.
  pose proof (deque_len_nonneg (Gui.cpu_entropy c)). lia.
Qed.

End Generators.

(** C1. generate_random_number feeds a fresh SHA-256 object the decimal
    string of the timestamp, then every sample of the pool in order on
    four bytes big-endian, reads the first four digest bytes as a
    big-endian number and reduces it modulo 2048: for every pool of
    four-byte samples and every timestamp the mixing returns that value,
    which lies in [0, 2048).  On a collector reached from the initial one
    that has sufficient entropy, the call returns this value for the
    mouse samples followed by the CPU samples, and appends it to the
    history of generated numbers. *)
Theorem C1_generate_one_mixing :
  (forall (timestamp : Z) (pool : list Z),
      forallb is_u32 pool = true ->
      exists result,
        Cli.mix timestamp pool = inr result
        /\ result
           = Codec.from_bytes_big
               (firstn 4
                  (SHA256.sha256
                     (Codec.encode (Codec.str timestamp)
                        ++ flat_map (Codec.be_bytes 4) pool)))
             mod 2048
        /\ 0 <= result < 2048)
  /\ (forall (es : list Cli.event) (numbers : list Z) (now : Q)
             (timestamp : Z),
         let rng := {| Cli.collector := Cli.run es Cli.init;
                       Cli.generated_numbers := numbers |} in
         let pool := Deque.items (Cli.mouse_entropy (Cli.collector rng))
                       ++ Deque.items (Cli.cpu_entropy (Cli.collector rng)) in
         Cli.has_sufficient_entropy 30 300 now (Cli.collector rng) = true ->
         exists result,
           Cli.generate_random_number 300 now timestamp rng
           = (inr result,
              {| Cli.collector := Cli.collector rng;
                 Cli.generated_numbers := numbers ++ [result] |})
           /\ result = digest_mod_2048 (hash_input_one timestamp pool)
           /\ 0 <= result < 2048).
Proof.
  split.
  - intros timestamp pool Hu32.
    exists (digest_mod_2048 (hash_input_one timestamp pool)).
    split; [apply cli_mix_value, Hu32 |].
    split; [reflexivity | apply digest_mod_2048_range].
  - intros es numbers now timestamp rng pool Hsuff.
    exists (digest_mod_2048 (hash_input_one timestamp pool)).
    split; [| split; [reflexivity | apply digest_mod_2048_range]].
    rewrite cli_generate_cases. rewrite Hsuff. cbn [negb].
    pose proof (cli_sufficient_total _ _ _ _ Hsuff) as Hlen.
    destruct (Z.ltb_spec (Shared.len (Cli.get_entropy_pool (Cli.collector rng)))
                300) as [Hlt | _]; [lia |].
    rewrite cli_mix_value.
    + reflexivity.
    + apply cli_pool_u32. apply cli_run_ok, cli_init_ok.
Qed.

(** The pool 10, 20, 30, 100 at a fixed timestamp, and the command-line
    session at 300 s. *)
Lemma C1_generate_one_mixing_witness :
  (exists result,
      Cli.mix 1700000000123456789 [10; 20; 30; 100] = inr result
      /\ result
         = Codec.from_bytes_big
             (firstn 4
                (SHA256.sha256
                   (Codec.encode (Codec.str 1700000000123456789)
                      ++ flat_map (Codec.be_bytes 4) [10; 20; 30; 100])))
           mod 2048
      /\ 0 <= result < 2048)
  /\ (let rng := {| Cli.collector := Cli.run cli_events Cli.init;
                    Cli.generated_numbers := [7] |} in
      let pool := Deque.items (Cli.mouse_entropy (Cli.collector rng))
                    ++ Deque.items (Cli.cpu_entropy (Cli.collector rng)) in
      exists result,
        Cli.generate_random_number 300 300 1700000000123456789 rng
        = (inr result,
           {| Cli.collector := Cli.collector rng;
              Cli.generated_numbers := [7] ++ [result] |})
        /\ result = digest_mod_2048 (hash_input_one 1700000000123456789 pool)
        /\ 0 <= result < 2048).
Proof.
  split.
  - apply (proj1 C1_generate_one_mixing 1700000000123456789 [10; 20; 30; 100]).
    vm_compute. reflexivity.
  - apply (proj2 C1_generate_one_mixing cli_events [7] 300%Q
             1700000000123456789).
    vm_compute. reflexivity.
Defined.

Example mix_small_pool :
  Cli.mix 1700000000123456789 [10; 20; 30; 100] = inr 1808.
Proof. vm_compute. reflexivity. Qed.

Example mix_overflow : Cli.mix 0 [10; 2 ^ 32] = inl OverflowError.
Proof. vm_compute. reflexivity. Qed.

(** ** Outcomes of the generators *)

Section Outcomes.

Lemma cli_feed_samples_exn pool hasher e :
  Cli.feed_samples pool hasher = inl e -> e = OverflowError.
Proof.
  revert hasher. induction pool as [| sample rest IH]; intros hasher;
    cbn [Cli.feed_samples]; [discriminate |].
  destruct (Codec.to_bytes4 _); [apply IH | congruence].
Qed.

Lemma cli_mix_exn timestamp pool e :
  Cli.mix timestamp pool = inl e -> e = OverflowError.
Proof.
  unfold Cli.mix. destruct (Cli.feed_samples _ _) eqn:Hfeed; [| discriminate].
  intros [= <-]. eapply cli_feed_samples_exn, Hfeed.
Qed.

Lemma gui_numbers_loop_exn time_ns pool indices numbers e :
  Gui.numbers_loop time_ns pool indices numbers = inl e -> e = OverflowError.
Proof.
  revert numbers. induction indices as [| i rest IH]; intros numbers;
    cbn [Gui.numbers_loop]; [discriminate |].
  destruct (Gui.number_at time_ns pool i) eqn:Hi; [| apply IH].
  intros [= <-]. eapply gui_number_at_exn, Hi.
Qed.

Lemma range_below count :
  count <= 2 ^ 32 -> Forall (fun i => 0 <= i < 2 ^ 32) (Gui.range count).
Proof.
  intros Hcount. apply Forall_forall. intros i Hi.
  apply in_range in Hi. lia.
Qed.

(** With the gates passed and an index beyond four bytes, the batch
    generator raises OverflowError and leaves the generator unchanged. *)
Lemma gui_generate_overflow rng count min_entropy_samples now time_ns :
  gui_ok (Gui.collector rng) ->
  Gui.has_sufficient_entropy 30 300 100 now (Gui.collector rng) = true ->
  min_entropy_samples <= Shared.len (Gui.get_entropy_pool (Gui.collector rng)) ->
  2 ^ 32 < count ->
  Gui.generate_random_numbers count min_entropy_samples now time_ns rng
  = (inl OverflowError, rng).
Proof.
  intros Hok Hsuff Hmin Hcount.
  rewrite gui_generate_cases, Hsuff. cbn [negb].
  destruct (Z.ltb_spec (Shared.len (Gui.get_entropy_pool (Gui.collector rng)))
              min_entropy_samples) as [Hlt | _]; [lia |].
  pose proof (gui_sufficient_total _ _ _ _ _ Hsuff) as Hlen.
  pose proof (gui_pool_u32 _ Hok) as Hu32.
  destruct (Gui.get_entropy_pool (Gui.collector rng)) as [| sample rest]
    eqn:Hpool; [cbn in Hlen; lia |].
  cbn in Hu32. apply andb_true_iff in Hu32. destruct Hu32 as [Hs _].
  rewrite (gui_numbers_loop_overflow time_ns (sample :: rest)
             (Gui.range count) [] (2 ^ 32)).
  - reflexivity.
  - apply in_range. lia.
  - apply gui_number_at_overflow; [exact Hs | reflexivity].
Qed.

(** With the gates passed and at most 2^32 indices, the batch generator
    returns one number per index. *)
Lemma gui_generate_value rng count min_entropy_samples now time_ns :
  gui_ok (Gui.collector rng) ->
  Gui.has_sufficient_entropy 30 300 100 now (Gui.collector rng) = true ->
  min_entropy_samples <= Shared.len (Gui.get_entropy_pool (Gui.collector rng)) ->
  count <= 2 ^ 32 ->
  let numbers :=
    map (fun i =>
           digest_mod_2048
             (hash_input_many (time_ns i) i
                (Gui.get_entropy_pool (Gui.collector rng))))
        (Gui.range count) in
  Gui.generate_random_numbers count min_entropy_samples now time_ns rng
  = (inr numbers,
     {| Gui.collector := Gui.collector rng;
        Gui.generated_numbers := Gui.generated_numbers rng ++ numbers |}).
Proof.
  intros Hok Hsuff Hmin Hcount numbers.
  rewrite gui_generate_cases, Hsuff. cbn [negb].
  destruct (Z.ltb_spec (Shared.len (Gui.get_entropy_pool (Gui.collector rng)))
              min_entropy_samples) as [Hlt | _]; [lia |].
  rewrite gui_numbers_loop_value.
  - reflexivity.
  - apply range_below, Hcount.
  - apply gui_pool_u32, Hok.
  - apply gui_pool_bounded, Hok.
Qed.

Lemma cli_generate_value rng min_entropy_samples now timestamp :
  cli_ok (Cli.collector rng) ->
  Cli.has_sufficient_entropy 30 300 now (Cli.collector rng) = true ->
  min_entropy_samples <= Shared.len (Cli.get_entropy_pool (Cli.collector rng)) ->
  let result :=
    digest_mod_2048
      (hash_input_one timestamp (Cli.get_entropy_pool (Cli.collector rng))) in
  Cli.generate_random_number min_entropy_samples now timestamp rng
  = (inr result,
     {| Cli.collector := Cli.collector rng;
        Cli.generated_numbers := Cli.generated_numbers rng ++ [result] |}).
Proof.
  intros Hok Hsuff Hmin result.
  rewrite cli_generate_cases, Hsuff. cbn [negb].
  destruct (Z.ltb_spec (Shared.len (Cli.get_entropy_pool (Cli.collector rng)))
              min_entropy_samples) as [Hlt | _]; [lia |].
  rewrite cli_mix_value by (apply cli_pool_u32, Hok). reflexivity.
Qed.

(** The ValueError is raised exactly when a gate fails. *)
Lemma cli_generate_insufficient rng min_entropy_samples now timestamp :
  insufficient_entropy
    (Cli.generate_random_number min_entropy_samples now timestamp rng)
  <-> Cli.has_sufficient_entropy 30 300 now (Cli.collector rng) = false
      \/ Shared.len (Cli.get_entropy_pool (Cli.collector rng))
         < min_entropy_samples.
Proof.
  unfold insufficient_entropy. rewrite cli_generate_cases.
  destruct (Cli.has_sufficient_entropy _ _ _ _); cbn [negb].
  - destruct (Z.ltb_spec (Shared.len (Cli.get_entropy_pool (Cli.collector rng)))
                min_entropy_samples) as [Hlt | Hge].
    + split; [right; exact Hlt | intros _; eexists; reflexivity].
    + split.
      * intros [msg Hmsg].
        destruct (Cli.mix _ _) as [e | result] eqn:Hmix; cbn in Hmsg;
          [| discriminate].
        apply cli_mix_exn in Hmix. subst e. discriminate.
      * intros [Hf | Hlt]; [discriminate | lia].
  - split; [left; reflexivity | intros _; eexists; reflexivity].
Qed.

Lemma gui_generate_insufficient rng count min_entropy_samples now time_ns :
  insufficient_entropy
    (Gui.generate_random_numbers count min_entropy_samples now time_ns rng)
  <-> Gui.has_sufficient_entropy 30 300 100 now (Gui.collector rng) = false
      \/ Shared.len (Gui.get_entropy_pool (Gui.collector rng))
         < min_entropy_samples.
Proof.
  unfold insufficient_entropy. rewrite gui_generate_cases.
  destruct (Gui.has_sufficient_entropy _ _ _ _ _); cbn [negb].
  - destruct (Z.ltb_spec (Shared.len (Gui.get_entropy_pool (Gui.collector rng)))
                min_entropy_samples) as [Hlt | Hge].
    + split; [right; exact Hlt | intros _; eexists; reflexivity].
    + split.
      * intros [msg Hmsg].
        destruct (Gui.numbers_loop _ _ _ _) as [e | numbers] eqn:Hloop;
          cbn in Hmsg; [| discriminate].
        apply gui_numbers_loop_exn in Hloop. subst e. discriminate.
      * intros [Hf | Hlt]; [discriminate | lia].
  - split; [left; reflexivity | intros _; eexists; reflexivity].
Qed.

End Outcomes.

(** C10. At the default thresholds, sufficient entropy implies the
    minimum total of the generator: 300 mouse samples already make a pool
    of at least 300 samples for generate_random_number, and 300 mouse
    samples with 100 audio samples make at least 400 for
    generate_random_numbers.  Hence, whatever the state and the inputs,
    neither generator called with its default minimum raises the
    "Insufficient total entropy" ValueError. *)
Theorem C10_total_minimum_implied :
  (forall (c : Cli.EntropyCollector) (now : Q),
      Cli.has_sufficient_entropy 30 300 now c = true ->
      300 <= Shared.len (Cli.get_entropy_pool c))
  /\ (forall (c : Gui.EntropyCollector) (now : Q),
         Gui.has_sufficient_entropy 30 300 100 now c = true ->
         400 <= Shared.len (Gui.get_entropy_pool c))
  /\ (forall (rng : Cli.EntropyRNG) (now : Q) (timestamp : Z),
         fst (Cli.generate_random_number 300 now timestamp rng)
         <> inl (ValueError Insufficient_total_entropy))
  /\ (forall (rng : Gui.EntropyRNG) (count : Z) (now : Q) (time_ns : Z -> Z),
         fst (Gui.generate_random_numbers count 400 now time_ns rng)
         <> inl (ValueError Insufficient_total_entropy)).
Proof.
  split; [| split; [| split]].
  - intros c now Hsuff. apply (cli_sufficient_total _ _ _ _ Hsuff).
  - intros c now Hsuff.
    pose proof (gui_sufficient_total _ _ _ _ _ Hsuff). lia.
  - intros rng now timestamp. rewrite cli_generate_cases.
    destruct (Cli.has_sufficient_entropy 30 300 now (Cli.collector rng))
      eqn:Hsuff; cbn [negb]; [| discriminate].
    pose proof (cli_sufficient_total _ _ _ _ Hsuff) as Hlen.
    destruct (Z.ltb_spec (Shared.len (Cli.get_entropy_pool (Cli.collector rng)))
                300) as [Hlt | _]; [lia |].
    destruct (Cli.mix _ _) as [e | result] eqn:Hmix; [| discriminate].
    apply cli_mix_exn in Hmix. subst e. discriminate.
  - intros rng count now time_ns. rewrite gui_generate_cases.
    destruct (Gui.has_sufficient_entropy 30 300 100 now (Gui.collector rng))
      eqn:Hsuff; cbn [negb]; [| discriminate].
    pose proof (gui_sufficient_total _ _ _ _ _ Hsuff) as Hlen.
    destruct (Z.ltb_spec (Shared.len (Gui.get_entropy_pool (Gui.collector rng)))
                400) as [Hlt | _]; [lia |].
    destruct (Gui.numbers_loop _ _ _ _) as [e | numbers] eqn:Hloop;
      [| discriminate].
    apply gui_numbers_loop_exn in Hloop. subst e. discriminate.
Qed.

(** The two sample sessions at 300 s. *)
Lemma C10_total_minimum_implied_witness :
  300 <= Shared.len (Cli.get_entropy_pool (Cli.run cli_events Cli.init))
  /\ 400 <= Shared.len (Gui.get_entropy_pool (Gui.run gui_events Gui.init)).
Proof.
  split.
  - apply (proj1 C10_total_minimum_implied (Cli.run cli_events Cli.init) 300%Q).
    vm_compute. reflexivity.
  - apply (proj1 (proj2 C10_total_minimum_implied)
             (Gui.run gui_events Gui.init) 300%Q).
    vm_compute. reflexivity.
Defined.

(** C8. generate_random_number does not consume the pool: a successful
    call leaves the collector as it was and only appends its result to
    the history.  A second call with the same time.time_ns() reading on
    the unchanged collector, if it returns at all, returns the same
    value; and it does return, with the value recorded twice, whenever
    entropy is still sufficient at its time.time() reading. *)
Theorem C8_same_tick_same_value :
  forall (rng rng1 : Cli.EntropyRNG) (min_entropy_samples : Z) (now1 now2 : Q)
         (timestamp result : Z),
    Cli.generate_random_number min_entropy_samples now1 timestamp rng
    = (inr result, rng1) ->
    Cli.collector rng1 = Cli.collector rng
    /\ Cli.generated_numbers rng1 = Cli.generated_numbers rng ++ [result]
    /\ (forall (result2 : Z) (rng2 : Cli.EntropyRNG),
           Cli.generate_random_number min_entropy_samples now2 timestamp rng1
           = (inr result2, rng2) ->
           result2 = result)
    /\ (Cli.has_sufficient_entropy 30 300 now2 (Cli.collector rng) = true ->
        Cli.generate_random_number min_entropy_samples now2 timestamp rng1
        = (inr result,
           {| Cli.collector := Cli.collector rng;
              Cli.generated_numbers :=
                Cli.generated_numbers rng ++ [result; result] |})).
Proof.
  intros rng rng1 min_entropy_samples now1 now2 timestamp result Hfirst.
  rewrite cli_generate_cases in Hfirst.
  destruct (negb _); [discriminate |].
  destruct (Shared.len (Cli.get_entropy_pool (Cli.collector rng))
            <? min_entropy_samples) eqn:Hmin; [discriminate |].
  destruct (Cli.mix timestamp (Cli.get_entropy_pool (Cli.collector rng)))
    as [e | value] eqn:Hmix; [discriminate |].
  injection Hfirst as Hvalue Hrng1. subst value rng1. cbn [Cli.collector
    Cli.generated_numbers].
  split; [reflexivity |]. split; [reflexivity |]. split.
  - intros result2 rng2 Hsecond. rewrite cli_generate_cases in Hsecond.
    cbn [Cli.collector Cli.generated_numbers] in Hsecond.
    rewrite Hmin, Hmix in Hsecond.
    destruct (negb _); [discriminate |]. congruence.
  - intros Hsuff. rewrite cli_generate_cases.
    cbn [Cli.collector Cli.generated_numbers].
    rewrite Hsuff, Hmin, Hmix. cbn [negb]. rewrite <- app_assoc. reflexivity.
Qed.

(** Two calls on the command-line session with the same timestamp, at
    300 s and at 301 s: both return 1996. *)
Lemma C8_same_tick_same_value_witness :
  let rng := {| Cli.collector := Cli.run cli_events Cli.init;
                Cli.generated_numbers := [] |} in
  let rng1 := {| Cli.collector := Cli.run cli_events Cli.init;
                 Cli.generated_numbers := [1996] |} in
  Cli.collector rng1 = Cli.collector rng
  /\ Cli.generated_numbers rng1 = Cli.generated_numbers rng ++ [1996]
  /\ (forall (result2 : Z) (rng2 : Cli.EntropyRNG),
         Cli.generate_random_number 300 301 1700000000123456789 rng1
         = (inr result2, rng2) ->
         result2 = 1996)
  /\ (Cli.has_sufficient_entropy 30 300 301 (Cli.collector rng) = true ->
      Cli.generate_random_number 300 301 1700000000123456789 rng1
      = (inr 1996,
         {| Cli.collector := Cli.collector rng;
            Cli.generated_numbers :=
              Cli.generated_numbers rng ++ [1996; 1996] |})).
Proof.
  intros rng rng1.
  apply (C8_same_tick_same_value rng rng1 300 300%Q 301%Q
           1700000000123456789 1996).
  vm_compute. reflexivity.
Defined.

(** ** The entropy gate of the generators *)

(** C2 as stated fails for the batch generator: on the session with
    audio at 300 s the sufficiency policy holds and the pool has 401
    samples, at least the minimum of 400, yet a call for 2^32 + 1 numbers
    does not return a sequence: it raises OverflowError in turn
    i = 2^32, where (sample ^ i ^ j) no longer fits four bytes. *)
Lemma C2_batch_overflow_counterexample :
  let rng := {| Gui.collector := Gui.run gui_events Gui.init;
                Gui.generated_numbers := [] |} in
  Gui.has_sufficient_entropy 30 300 100 300 (Gui.collector rng) = true
  /\ 400 <= Shared.len (Gui.get_entropy_pool (Gui.collector rng))
  /\ fst (Gui.generate_random_numbers (2 ^ 32 + 1) 400 300
            (fun _ => 1700000000123456789) rng)
     = inl OverflowError
  /\ ~ (exists numbers : list Z,
           fst (Gui.generate_random_numbers (2 ^ 32 + 1) 400 300
                  (fun _ => 1700000000123456789) rng)
           = inr numbers).
Proof.
  intros rng.
  assert (Hsuff : Gui.has_sufficient_entropy 30 300 100 300 (Gui.collector rng)
                  = true) by (vm_compute; reflexivity).
  assert (Hlen : 400 <= Shared.len (Gui.get_entropy_pool (Gui.collector rng))).
  { pose proof (gui_sufficient_total _ _ _ _ _ Hsuff). lia. }
  assert (Hraise :
            Gui.generate_random_numbers (2 ^ 32 + 1) 400 300
              (fun _ => 1700000000123456789) rng
            = (inl OverflowError, rng)).
  { apply gui_generate_overflow; [| exact Hsuff | exact Hlen | lia].
    apply gui_run_ok, gui_init_ok. }
  split; [exact Hsuff |]. split; [exact Hlen |].
  rewrite Hraise. split; [reflexivity |].
  intros [numbers Hnumbers]. discriminate.
Qed.

(** C2, amended.  On a collector reached from the initial one, each
    generator raises its ValueError if and only if the sufficiency policy
    is false at the call or the pool has fewer samples than the minimum
    (300 by default for generate_random_number, 400 for
    generate_random_numbers).  When the policy holds and the pool meets
    the minimum, generate_random_number returns a value, and
    generate_random_numbers returns a sequence provided the requested
    count is at most 2^32. *)
Theorem C2_insufficient_entropy_gate :
  (forall (es : list Cli.event) (numbers : list Z) (min_entropy_samples : Z)
          (now : Q) (timestamp : Z),
      let rng := {| Cli.collector := Cli.run es Cli.init;
                    Cli.generated_numbers := numbers |} in
      let call :=
        Cli.generate_random_number min_entropy_samples now timestamp rng in
      let sufficient :=
        Cli.has_sufficient_entropy 30 300 now (Cli.collector rng) in
      let total := Shared.len (Cli.get_entropy_pool (Cli.collector rng)) in
      (insufficient_entropy call
       <-> sufficient = false \/ total < min_entropy_samples)
      /\ (sufficient = true -> min_entropy_samples <= total ->
          exists result, fst call = inr result))
  /\ (forall (es : list Gui.event) (numbers : list Z)
             (count min_entropy_samples : Z) (now : Q) (time_ns : Z -> Z),
         let rng := {| Gui.collector := Gui.run es Gui.init;
                       Gui.generated_numbers := numbers |} in
         let call :=
           Gui.generate_random_numbers count min_entropy_samples now time_ns
             rng in
         let sufficient :=
           Gui.has_sufficient_entropy 30 300 100 now (Gui.collector rng) in
         let total := Shared.len (Gui.get_entropy_pool (Gui.collector rng)) in
         (insufficient_entropy call
          <-> sufficient = false \/ total < min_entropy_samples)
         /\ (sufficient = true -> min_entropy_samples <= total ->
             count <= 2 ^ 32 ->
             exists batch, fst call = inr batch)).
Proof.
  split.
  - intros es numbers min_entropy_samples now timestamp rng call sufficient
      total.
    split; [apply cli_generate_insufficient |].
    intros Hsuff Hmin. subst call.
    rewrite cli_generate_value; try assumption.
    + eexists. reflexivity.
    + apply cli_run_ok, cli_init_ok.
  - intros es numbers count min_entropy_samples now time_ns rng call
      sufficient total.
    split; [apply gui_generate_insufficient |].
    intros Hsuff Hmin Hcount. subst call.
    rewrite gui_generate_value; try assumption.
    + eexists. reflexivity.
    + apply gui_run_ok, gui_init_ok.
Qed.

(** Both generators on the sample sessions at 300 s, with the default
    minimum and, for the batch, the default count of 24. *)
Lemma C2_insufficient_entropy_gate_witness :
  (exists result,
      fst (Cli.generate_random_number 300 300 1700000000123456789
             {| Cli.collector := Cli.run cli_events Cli.init;
                Cli.generated_numbers := [] |})
      = inr result)
  /\ (exists batch,
         fst (Gui.generate_random_numbers 24 400 300
                (fun _ => 1700000000123456789)
                {| Gui.collector := Gui.run gui_events Gui.init;
                   Gui.generated_numbers := [] |})
         = inr batch).
Proof.
  split.
  - apply (proj2 (proj1 C2_insufficient_entropy_gate cli_events [] 300 300%Q
                    1700000000123456789)).
    + vm_compute. reflexivity.
    + vm_compute. discriminate.
  - apply (proj2 (proj2 C2_insufficient_entropy_gate gui_events [] 24 400 300%Q
                    (fun _ => 1700000000123456789))).
    + vm_compute. reflexivity.
    + vm_compute. discriminate.
    + vm_compute. discriminate.
Defined.

Example gate_closed_on_fresh_generator :
  fst (Cli.generate_random_number 300 0 0 Cli.new)
  = inl (ValueError Insufficient_entropy)
  /\ fst (Gui.generate_random_numbers 24 400 0 (fun _ => 0) Gui.new)
     = inl (ValueError Insufficient_entropy).
Proof. vm_compute. split; reflexivity. Qed.

(** ** The batch generator *)

Section Batch.

Lemma batch_nth (f : Z -> Z) count i :
  0 <= i < count ->
  nth (Z.to_nat i) (map f (Gui.range count)) 0 = f i.
Proof.
  intros Hi.
  rewrite (nth_indep _ 0 (f 0))
    by (rewrite length_map, range_length; lia).
  rewrite map_nth, range_nth by exact Hi. reflexivity.
Qed.

End Batch.

(** C3 as stated fails for a count above 2^32: on the session with
    audio at 300 s, which passes both gates, a call for 2^32 + 1 numbers
    raises OverflowError and returns no sequence at all; the same happens
    in the mixing loop alone on the one-sample pool [0]. *)
Lemma C3_count_above_2_32_counterexample :
  let rng := {| Gui.collector := Gui.run gui_events Gui.init;
                Gui.generated_numbers := [] |} in
  let count := 2 ^ 32 + 1 in
  Gui.generate_random_numbers count 400 300 (fun _ => 1700000000123456789) rng
  = (inl OverflowError, rng)
  /\ ~ (exists (numbers : list Z) (rng' : Gui.EntropyRNG),
           Gui.generate_random_numbers count 400 300
             (fun _ => 1700000000123456789) rng
           = (inr numbers, rng')
           /\ length numbers = Z.to_nat count)
  /\ Gui.numbers_loop (fun _ => 1700000000123456789) [0] (Gui.range count) []
     = inl OverflowError.
Proof.
  intros rng count.
  assert (Hsuff : Gui.has_sufficient_entropy 30 300 100 300 (Gui.collector rng)
                  = true) by (vm_compute; reflexivity).
  assert (Hraise :
            Gui.generate_random_numbers count 400 300
              (fun _ => 1700000000123456789) rng
            = (inl OverflowError, rng)).
  { apply gui_generate_overflow; [| exact Hsuff | | subst count; lia].
    - apply gui_run_ok, gui_init_ok.
    - pose proof (gui_sufficient_total _ _ _ _ _ Hsuff). lia. }
  split; [exact Hraise |]. split.
  - rewrite Hraise. intros (numbers & rng' & Hcall & _). discriminate.
  - apply (gui_numbers_loop_overflow _ _ _ _ (2 ^ 32)).
    + apply in_range. subst count. lia.
    + apply gui_number_at_overflow; reflexivity.
Qed.

(** C3, amended.  For every count N of at most 2^32, every pool of at
    most 2^32 four-byte samples and all clock readings, the loop of
    generate_random_numbers returns exactly N values (none when N is
    negative), each in [0, 2048); the value at index i is the first four
    digest bytes, big-endian, modulo 2048, of a fresh SHA-256 fed the
    decimal string of (the time.time_ns() reading of turn i) + i, then
    the decimal string of i, then every sample s at position j as
    (s XOR i XOR j) on four bytes big-endian, in pool order.  On a
    collector reached from the initial one that has sufficient entropy,
    the call returns these values for the mouse, CPU and audio samples in
    this order and appends them to the history. *)
Theorem C3_generate_many_mixing :
  (forall (time_ns : Z -> Z) (pool : list Z) (count : Z),
      forallb is_u32 pool = true ->
      Z.of_nat (length pool) <= 2 ^ 32 ->
      count <= 2 ^ 32 ->
      exists numbers,
        Gui.numbers_loop time_ns pool (Gui.range count) [] = inr numbers
        /\ length numbers = Z.to_nat count
        /\ forall i, 0 <= i < count ->
             nth (Z.to_nat i) numbers 0
             = Codec.from_bytes_big
                 (firstn 4
                    (SHA256.sha256
                       (Codec.encode (Codec.str (time_ns i + i))
                          ++ Codec.encode (Codec.str i)
                          ++ flat_map
                               (fun js =>
                                  Codec.be_bytes 4
                                    (Z.lxor (Z.lxor (snd js) i) (fst js)))
                               (enumerate_from 0 pool))))
               mod 2048
             /\ 0 <= nth (Z.to_nat i) numbers 0 < 2048)
  /\ (forall (es : list Gui.event) (history : list Z) (count : Z) (now : Q)
             (time_ns : Z -> Z),
         let rng := {| Gui.collector := Gui.run es Gui.init;
                       Gui.generated_numbers := history |} in
         let pool := Deque.items (Gui.mouse_entropy (Gui.collector rng))
                       ++ Deque.items (Gui.cpu_entropy (Gui.collector rng))
                       ++ Deque.items (Gui.audio_entropy (Gui.collector rng)) in
         Gui.has_sufficient_entropy 30 300 100 now (Gui.collector rng) = true ->
         count <= 2 ^ 32 ->
         exists numbers,
           Gui.generate_random_numbers count 400 now time_ns rng
           = (inr numbers,
              {| Gui.collector := Gui.collector rng;
                 Gui.generated_numbers := history ++ numbers |})
           /\ length numbers = Z.to_nat count
           /\ forall i, 0 <= i < count ->
                nth (Z.to_nat i) numbers 0
                = digest_mod_2048 (hash_input_many (time_ns i) i pool)
                /\ 0 <= nth (Z.to_nat i) numbers 0 < 2048).
Proof.
  split.
  - intros time_ns pool count Hu32 Hlen Hcount.
    eexists. split; [| split].
    + rewrite gui_numbers_loop_value by
        (try assumption; apply range_below, Hcount).
      cbn [app]. reflexivity.
    + rewrite length_map, range_length. reflexivity.
    + intros i Hi. rewrite batch_nth by exact Hi.
      split; [reflexivity | apply digest_mod_2048_range].
  - intros es history count now time_ns rng pool Hsuff Hcount.
    assert (Hok : gui_ok (Gui.collector rng)) by apply gui_run_ok, gui_init_ok.
    pose proof (gui_sufficient_total _ _ _ _ _ Hsuff) as Hlen.
    eexists. split; [| split].
    + apply gui_generate_value; try assumption; lia.
    + rewrite length_map, range_length. reflexivity.
    + intros i Hi. rewrite batch_nth by exact Hi.
      split; [| apply digest_mod_2048_range].
      unfold Gui.get_entropy_pool, Deque.to_list. cbn [app].
      subst pool. rewrite <- app_assoc. reflexivity.
Qed.

(** Two numbers from the pool 10, 20, 30, 100 with a clock that does not
    advance, and two numbers from the session with audio at 300 s. *)
Lemma C3_generate_many_mixing_witness :
  (exists numbers,
      Gui.numbers_loop (fun _ => 1700000000123456789) [10; 20; 30; 100]
        (Gui.range 2) []
      = inr numbers
      /\ length numbers = Z.to_nat 2
      /\ forall i, 0 <= i < 2 ->
           nth (Z.to_nat i) numbers 0
           = Codec.from_bytes_big
               (firstn 4
                  (SHA256.sha256
                     (Codec.encode (Codec.str (1700000000123456789 + i))
                        ++ Codec.encode (Codec.str i)
                        ++ flat_map
                             (fun js =>
                                Codec.be_bytes 4
                                  (Z.lxor (Z.lxor (snd js) i) (fst js)))
                             (enumerate_from 0 [10; 20; 30; 100]))))
             mod 2048
           /\ 0 <= nth (Z.to_nat i) numbers 0 < 2048)
  /\ (let rng := {| Gui.collector := Gui.run gui_events Gui.init;
                    Gui.generated_numbers := [5] |} in
      let pool := Deque.items (Gui.mouse_entropy (Gui.collector rng))
                    ++ Deque.items (Gui.cpu_entropy (Gui.collector rng))
                    ++ Deque.items (Gui.audio_entropy (Gui.collector rng)) in
      exists numbers,
        Gui.generate_random_numbers 2 400 300 (fun _ => 1700000000123456789) rng
        = (inr numbers,
           {| Gui.collector := Gui.collector rng;
              Gui.generated_numbers := [5] ++ numbers |})
        /\ length numbers = Z.to_nat 2
        /\ forall i, 0 <= i < 2 ->
             nth (Z.to_nat i) numbers 0
             = digest_mod_2048 (hash_input_many 1700000000123456789 i pool)
             /\ 0 <= nth (Z.to_nat i) numbers 0 < 2048).
Proof.
  split.
  - apply (proj1 C3_generate_many_mixing (fun _ => 1700000000123456789)
             [10; 20; 30; 100] 2).
    + vm_compute. reflexivity.
    + vm_compute. discriminate.
    + vm_compute. discriminate.
  - apply (proj2 C3_generate_many_mixing gui_events [5] 2 300%Q
             (fun _ => 1700000000123456789)).
    + vm_compute. reflexivity.
    + vm_compute. discriminate.
Defined.

Example batch_small_pool :
  Gui.numbers_loop (fun _ => 1700000000123456789) [10; 20; 30; 100]
    (Gui.range 2) []
  = inr [1078; 683].
Proof. vm_compute. reflexivity. Qed.

Example batch_session :
  fst (Gui.generate_random_numbers 2 400 300 (fun _ => 1700000000123456789)
         {| Gui.collector := gui_session; Gui.generated_numbers := [] |})
  = inr [137; 695].
Proof. vm_compute. reflexivity. Qed.

(** ** The sufficiency predicate *)

Section Sufficiency.

Lemma cli_sufficient_iff required_duration min_mouse_samples now c :
  Cli.has_sufficient_entropy required_duration min_mouse_samples now c = true
  <-> (required_duration <= Cli.get_mouse_movement_duration now c)%Q
      /\ min_mouse_samples <= Deque.len (Cli.mouse_entropy c).
Proof.
  unfold Cli.has_sufficient_entropy.
  rewrite andb_true_iff, Qle_bool_iff, Z.leb_le. reflexivity.
Qed.

(** In the variant with audio the third conjunct is there whatever the
    value of audio_recording. *)
Lemma gui_sufficient_iff required_duration min_mouse min_audio now c :
  Gui.has_sufficient_entropy required_duration min_mouse min_audio now c
  = true
  <-> (required_duration <= Gui.get_mouse_movement_duration now c)%Q
      /\ min_mouse <= Deque.len (Gui.mouse_entropy c)
      /\ min_audio <= Deque.len (Gui.audio_entropy c).
Proof.
  unfold Gui.has_sufficient_entropy.
  rewrite !andb_true_iff, Qle_bool_iff, !Z.leb_le. tauto.
Qed.

Lemma gui_insufficient_without_audio now c :
  Deque.len (Gui.audio_entropy c) < 100 ->
  Gui.has_sufficient_entropy 30 300 100 now c = false.
Proof.
  intros Haudio.
  destruct (Gui.has_sufficient_entropy 30 300 100 now c) eqn:Hsuff;
    [| reflexivity].
  apply gui_sufficient_iff in Hsuff. lia.
Qed.

End Sufficiency.

(** C4, evaluation of entropy_rng_gui.py where it departs from the
    claim.  After start_collection(include_audio=False) at 0 s and 301
    mouse moves one second apart, at 300 s: no audio thread was started
    and audio_recording is false, the active duration is 300 s (at least
    30) and the mouse pool has 301 samples (at least 300), the audio pool
    is empty, and has_sufficient_entropy() is false, so that
    generate_random_numbers raises its ValueError.  With the same mouse
    activity the command-line collector, which has no audio source, has
    sufficient entropy. *)
Theorem C4_audio_required_when_disabled :
  let c := Gui.run gui_events_no_audio Gui.init in
  Gui.audio_recording c = false
  /\ ~ In Audio_thread_start (Gui.effects c)
  /\ (30 <= Gui.get_mouse_movement_duration 300 c)%Q
  /\ 300 <= Deque.len (Gui.mouse_entropy c)
  /\ Deque.len (Gui.audio_entropy c) = 0
  /\ Gui.has_sufficient_entropy 30 300 100 300 c = false
  /\ fst (Gui.generate_random_numbers 24 400 300 (fun _ => 0)
            {| Gui.collector := c; Gui.generated_numbers := [] |})
     = inl (ValueError Insufficient_entropy)
  /\ Cli.has_sufficient_entropy 30 300 300
       (Cli.run (Cli.Start 0
                   :: map (fun t => Cli.Mouse_move 640 480 1700000000123456789 t)
                          (seconds 301))
                Cli.init)
     = true.
Proof.
  vm_compute. repeat split; try reflexivity; try discriminate.
  intros [H | [H | []]]; discriminate.
Qed.

(** ** Starting and stopping *)

Section Lifecycle.

Lemma cli_stop_idle c :
  Cli.collecting c = false ->
  cli_fields (Cli.stop_collection c) = cli_fields c.
Proof.
  intros Hidle. unfold cli_fields, Cli.stop_collection. cbn.
  rewrite Hidle. reflexivity.
Qed.

Lemma gui_stop_idle c :
  Gui.collecting c = false -> Gui.audio_recording c = false ->
  gui_fields (Gui.stop_collection c) = gui_fields c.
Proof.
  intros Hidle Haudio. unfold gui_fields, Gui.stop_collection. cbn.
  rewrite Hidle, Haudio. reflexivity.
Qed.

Lemma cli_started_duration now now' c :
  Cli.get_mouse_movement_duration now' (Cli.start_collection now c) = 0%Q.
Proof. reflexivity. Qed.

Lemma gui_started_duration include_audio now now' c :
  Gui.get_mouse_movement_duration now'
    (Gui.start_collection include_audio now c) = 0%Q.
Proof. reflexivity. Qed.

(** After a start the tracker begins anew: of two later moves, the
    first becomes the start of the movement and only the time between
    them can count, whatever was accumulated before the start. *)
Lemma cli_restart_moves c now x y timestamp t1 t2 :
  (t1 <= t2)%Q ->
  let c1 := Cli.on_mouse_move x y timestamp t1 (Cli.start_collection now c) in
  let c2 := Cli.on_mouse_move x y timestamp t2 c1 in
  Cli.mouse_movement_start c2 = Some t1
  /\ (Cli.total_active_movement_time c2 <= t2 - t1)%Q
  /\ (Cli.get_mouse_movement_duration t2 c2 <= t2 - t1)%Q.
Proof.
  intros Hle. cbn. split; [reflexivity |].
  unfold Cli.get_mouse_movement_duration, Shared.movement_duration. cbn.
  destruct (Qle_bool (t2 - t1) (Cli.mouse_activity_timeout c));
    destruct (Qle_bool (t2 - t2) (Cli.mouse_activity_timeout c));
    split; lra.
Qed.

Lemma gui_restart_moves c include_audio now x y timestamp t1 t2 :
  (t1 <= t2)%Q ->
  let c1 := Gui.on_mouse_move x y timestamp t1
              (Gui.start_collection include_audio now c) in
  let c2 := Gui.on_mouse_move x y timestamp t2 c1 in
  Gui.mouse_movement_start c2 = Some t1
  /\ (Gui.total_active_movement_time c2 <= t2 - t1)%Q
  /\ (Gui.get_mouse_movement_duration t2 c2 <= t2 - t1)%Q.
Proof.
  intros Hle. cbn. split; [reflexivity |].
  unfold Gui.get_mouse_movement_duration, Shared.movement_duration. cbn.
  destruct (Qle_bool (t2 - t1) (Gui.mouse_activity_timeout c));
    destruct (Qle_bool (t2 - t2) (Gui.mouse_activity_timeout c));
    split; lra.
Qed.

(** The second of two stops in a row calls stop_stream() and close()
    again on the stream that the first one closed. *)
Lemma gui_stop_twice_releases_twice c s :
  Gui.audio_stream c = Some s ->
  Gui.effects (Gui.stop_collection (Gui.stop_collection c))
  = Gui.effects c
      ++ ((if Gui.mouse_listener c then [Listener_stop] else [])
            ++ [Stream_stop s; Stream_close s])
      ++ ((if Gui.mouse_listener c then [Listener_stop] else [])
            ++ [Stream_stop s; Stream_close s]).
Proof.
  intros Hstream. unfold Gui.stop_collection. cbn. rewrite Hstream.
  rewrite <- !app_assoc. reflexivity.
Qed.

Example gui_stop_twice_after_audio :
  Gui.effects
    (Gui.run [Gui.Start true 0; Gui.Audio_open (Some 0%nat); Gui.Stop; Gui.Stop]
             Gui.init)
  = [Listener_start; Cpu_thread_start; Audio_thread_start; Stream_open 0;
     Listener_stop; Stream_stop 0; Stream_close 0;
     Listener_stop; Stream_stop 0; Stream_close 0].
Proof. reflexivity. Qed.

End Lifecycle.

(** C7 as stated fails for start_collection.  A command-line collector
    started at 0 s with mouse moves at 1 s and 2 s is collecting with one
    second of active movement; start_collection() at 2 s changes its
    fields (the active duration drops to 0; last_mouse_activity and
    mouse_movement_start are cleared, total_active_movement_time is set
    to 0) and starts a second listener and a second CPU thread while
    the first ones keep running, which a single start does not.  After
    two more moves, at 3 s and 4 s, the duration reads 1 s, where it
    reads 3 s without the second start. *)
Lemma C7_restart_counterexample :
  let c := Cli.run [Cli.Start 0; Cli.Mouse_move 1 2 3 1; Cli.Mouse_move 1 2 3 2]
                   Cli.init in
  let c' := Cli.start_collection 2 c in
  let later := [Cli.Mouse_move 1 2 3 3; Cli.Mouse_move 1 2 3 4] in
  Cli.collecting c = true
  /\ (Cli.get_mouse_movement_duration 2 c == 1)%Q
  /\ (Cli.get_mouse_movement_duration 2 c' == 0)%Q
  /\ Cli.last_mouse_activity c = Some 2%Q
  /\ Cli.last_mouse_activity c' = None
  /\ cli_fields c' <> cli_fields c
  /\ Cli.effects c = [Listener_start; Cpu_thread_start]
  /\ Cli.effects c'
     = [Listener_start; Cpu_thread_start; Listener_start; Cpu_thread_start]
  /\ Cli.mouse_movement_start c = Some 1%Q
  /\ Cli.mouse_movement_start c' = None
  /\ (Cli.total_active_movement_time c == 1)%Q
  /\ (Cli.total_active_movement_time c' == 0)%Q
  /\ (Cli.get_mouse_movement_duration 4 (Cli.run later c) == 3)%Q
  /\ (Cli.get_mouse_movement_duration 4 (Cli.run later c') == 1)%Q
  /\ Cli.mouse_movement_start (Cli.run later c') = Some 3%Q.
Proof.
  vm_compute. repeat split; try reflexivity. discriminate.
Qed.

(** C7, amended.  stop_collection() on an idle collector, and so the
    second of two stops in a row, leaves every field of the collector as
    it is, in both variants, and calls nothing on an audio stream when
    none was opened.  start_collection() on a collecting
    collector is not a no-op: exactly as from idle it keeps the pools and
    the queue, leaves collecting true, overwrites the start time, clears
    the activity tracker (mouse_movement_start and last_mouse_activity
    are None, total_active_movement_time is 0, the timeout is kept), so
    that the active duration reads 0, sufficiency is lost, and of two
    later moves the first becomes the start of the movement and at most
    the time between them counts; and starts one more listener and CPU
    thread (and an audio thread when audio is requested, the audio flag
    and stream being otherwise kept) without stopping those running; the
    fields after two starts in a row are those after the second start
    alone. *)
Theorem C7_start_stop_repeated :
  (forall c : Cli.EntropyCollector,
      Cli.collecting c = false ->
      cli_fields (Cli.stop_collection c) = cli_fields c)
  /\ (forall c : Cli.EntropyCollector,
         cli_fields (Cli.stop_collection (Cli.stop_collection c))
         = cli_fields (Cli.stop_collection c))
  /\ (forall c : Gui.EntropyCollector,
         Gui.collecting c = false -> Gui.audio_recording c = false ->
         gui_fields (Gui.stop_collection c) = gui_fields c)
  /\ (forall c : Gui.EntropyCollector,
         gui_fields (Gui.stop_collection (Gui.stop_collection c))
         = gui_fields (Gui.stop_collection c))
  /\ (forall c : Gui.EntropyCollector,
         Gui.audio_stream c = None ->
         Gui.effects (Gui.stop_collection c)
         = Gui.effects c
             ++ (if Gui.mouse_listener c then [Listener_stop] else []))
  /\ (forall (c : Cli.EntropyCollector) (now now' later : Q),
         Cli.collecting c = true ->
         let c' := Cli.start_collection now c in
         Cli.collecting c' = true
         /\ Cli.mouse_entropy c' = Cli.mouse_entropy c
         /\ Cli.cpu_entropy c' = Cli.cpu_entropy c
         /\ Cli.entropy_queue c' = Cli.entropy_queue c
         /\ Cli.collection_start_time c' = Some now
         /\ Cli.last_mouse_activity c' = None
         /\ Cli.mouse_movement_start c' = None
         /\ Cli.total_active_movement_time c' = 0%Q
         /\ Cli.mouse_activity_timeout c' = Cli.mouse_activity_timeout c
         /\ Cli.get_mouse_movement_duration later c' = 0%Q
         /\ Cli.has_sufficient_entropy 30 300 later c' = false
         /\ (forall (x y timestamp : Z) (t1 t2 : Q),
                (t1 <= t2)%Q ->
                let c1 := Cli.on_mouse_move x y timestamp t1 c' in
                let c2 := Cli.on_mouse_move x y timestamp t2 c1 in
                Cli.mouse_movement_start c2 = Some t1
                /\ (Cli.total_active_movement_time c2 <= t2 - t1)%Q
                /\ (Cli.get_mouse_movement_duration t2 c2 <= t2 - t1)%Q)
         /\ Cli.effects c' = Cli.effects c ++ [Listener_start; Cpu_thread_start]
         /\ cli_fields (Cli.start_collection now' c')
            = cli_fields (Cli.start_collection now' c))
  /\ (forall (c : Gui.EntropyCollector) (include_audio : bool)
             (now now' later : Q),
         Gui.collecting c = true ->
         let c' := Gui.start_collection include_audio now c in
         Gui.collecting c' = true
         /\ Gui.mouse_entropy c' = Gui.mouse_entropy c
         /\ Gui.cpu_entropy c' = Gui.cpu_entropy c
         /\ Gui.audio_entropy c' = Gui.audio_entropy c
         /\ Gui.entropy_queue c' = Gui.entropy_queue c
         /\ Gui.collection_start_time c' = Some now
         /\ Gui.last_mouse_activity c' = None
         /\ Gui.mouse_movement_start c' = None
         /\ Gui.total_active_movement_time c' = 0%Q
         /\ Gui.mouse_activity_timeout c' = Gui.mouse_activity_timeout c
         /\ Gui.audio_recording c'
            = (if include_audio then true else Gui.audio_recording c)
         /\ Gui.audio_stream c' = Gui.audio_stream c
         /\ Gui.get_mouse_movement_duration later c' = 0%Q
         /\ Gui.has_sufficient_entropy 30 300 100 later c' = false
         /\ (forall (x y timestamp : Z) (t1 t2 : Q),
                (t1 <= t2)%Q ->
                let c1 := Gui.on_mouse_move x y timestamp t1 c' in
                let c2 := Gui.on_mouse_move x y timestamp t2 c1 in
                Gui.mouse_movement_start c2 = Some t1
                /\ (Gui.total_active_movement_time c2 <= t2 - t1)%Q
                /\ (Gui.get_mouse_movement_duration t2 c2 <= t2 - t1)%Q)
         /\ Gui.effects c'
            = Gui.effects c ++ [Listener_start; Cpu_thread_start]
                ++ (if include_audio then [Audio_thread_start] else [])
         /\ gui_fields (Gui.start_collection include_audio now' c')
            = gui_fields (Gui.start_collection include_audio now' c)).
Proof.
  split; [exact cli_stop_idle |].
  split; [intros c; apply cli_stop_idle; reflexivity |].
  split; [exact gui_stop_idle |].
  split; [intros c; apply gui_stop_idle; reflexivity |].
  split.
  { intros c Hstream. unfold Gui.stop_collection. cbn.
    rewrite Hstream, app_nil_r. reflexivity. }
  split.
  - intros c now now' later Hc c'. subst c'.
    repeat (split; [reflexivity |]).
    split; [intros x y timestamp t1 t2 Hle; now apply cli_restart_moves |].
    split; reflexivity.
  - intros c include_audio now now' later Hc c'. subst c'.
    repeat (split; [reflexivity |]).
    split; [intros x y timestamp t1 t2 Hle; now apply gui_restart_moves |].
    split; [reflexivity |].
    unfold gui_fields, Gui.start_collection. cbn.
    destruct include_audio; reflexivity.
Qed.

(** A stop on the initial (idle) collectors, and a start on collectors
    that are collecting with one second of active movement. *)
Lemma C7_start_stop_repeated_witness :
  (cli_fields (Cli.stop_collection Cli.init) = cli_fields Cli.init
   /\ gui_fields (Gui.stop_collection Gui.init) = gui_fields Gui.init)
  /\ (let c := Cli.run [Cli.Start 0; Cli.Mouse_move 1 2 3 1;
                        Cli.Mouse_move 1 2 3 2] Cli.init in
      let c' := Cli.start_collection 2 c in
      Cli.get_mouse_movement_duration 2 c' = 0%Q
      /\ Cli.effects c' = Cli.effects c ++ [Listener_start; Cpu_thread_start]
      /\ Cli.total_active_movement_time c' = 0%Q
      /\ Cli.mouse_movement_start c' = None
      /\ (Cli.get_mouse_movement_duration 4
            (Cli.on_mouse_move 1 2 3 4 (Cli.on_mouse_move 1 2 3 3 c'))
          <= 4 - 3)%Q)
  /\ (let g := Gui.run [Gui.Start true 0; Gui.Mouse_move 1 2 3 1;
                        Gui.Mouse_move 1 2 3 2] Gui.init in
      let g' := Gui.start_collection true 2 g in
      Gui.get_mouse_movement_duration 2 g' = 0%Q
      /\ Gui.effects g'
         = Gui.effects g
             ++ [Listener_start; Cpu_thread_start] ++ [Audio_thread_start]).
Proof.
  split; [split | split].
  - apply (proj1 C7_start_stop_repeated Cli.init). reflexivity.
  - apply (proj1 (proj2 (proj2 C7_start_stop_repeated)) Gui.init);
      reflexivity.
  - intros c c'.
    pose proof (proj1 (proj2 (proj2 (proj2 (proj2 (proj2
                  C7_start_stop_repeated)))))
                  c 2%Q 2%Q 2%Q eq_refl) as H.
    cbv zeta in H. fold c' in H.
    destruct H as (_ & _ & _ & _ & _ & _ & Hfirst & Htotal & _ & Hduration
                   & _ & Hmoves & Heffects & _).
    split; [exact Hduration |]. split; [exact Heffects |].
    split; [exact Htotal |]. split; [exact Hfirst |].
    apply (Hmoves 1 2 3 3%Q 4%Q). unfold Qle. cbn. lia.
  - intros g g'.
    pose proof (proj2 (proj2 (proj2 (proj2 (proj2 (proj2
                  C7_start_stop_repeated)))))
                  g true 2%Q 2%Q 2%Q eq_refl) as H.
    cbv zeta in H. fold g' in H.
    split; [apply H | apply H].
Defined.

(** ** The status query *)

(** C9 as stated fails on the content of the record.  On the
    command-line session the status has exactly the keys mouse_samples,
    cpu_samples and total_samples, and on the session with audio these
    and audio_samples; neither has an entry for the active duration or
    for the pointer-activity flag, although the collector's own queries
    give 300 s and active at 300 s. *)
Lemma C9_status_record_counterexample :
  let cli := {| Cli.collector := cli_session; Cli.generated_numbers := [] |} in
  let gui := {| Gui.collector := gui_session; Gui.generated_numbers := [] |} in
  fst (Cli.get_entropy_status cli)
  = inr [("mouse_samples"%string, 301); ("cpu_samples"%string, 5);
         ("total_samples"%string, 306)]
  /\ fst (Gui.get_entropy_status gui)
     = inr [("mouse_samples"%string, 301); ("cpu_samples"%string, 0);
            ("audio_samples"%string, 100); ("total_samples"%string, 401)]
  /\ (forall d, fst (Cli.get_entropy_status cli) = inr d ->
        dict_get "active_duration_seconds" d = None
        /\ dict_get "is_pointer_active" d = None)
  /\ (forall d, fst (Gui.get_entropy_status gui) = inr d ->
        dict_get "active_duration_seconds" d = None
        /\ dict_get "is_pointer_active" d = None)
  /\ (Cli.get_mouse_movement_duration 300 cli_session == 300)%Q
  /\ Cli.is_mouse_currently_active 300 cli_session = true.
Proof.
  intros cli gui.
  split; [vm_compute; reflexivity |].
  split; [vm_compute; reflexivity |].
  split; [intros d Hd; vm_compute in Hd; injection Hd as <-;
          split; reflexivity |].
  split; [intros d Hd; vm_compute in Hd; injection Hd as <-;
          split; reflexivity |].
  split; vm_compute; reflexivity.
Qed.

(** C9, amended.  The status query does not modify the generator or its
    collector and returns a record whose keys are exactly mouse_samples,
    cpu_samples and total_samples in the command-line variant, with
    audio_samples before total_samples in the variant with audio; the
    per-source entries are the lengths of the pools and total_samples is
    the sum of the per-source entries of the record (the audio pool is
    counted whether or not audio collection was requested).  The record
    has no entry for the active duration or the pointer-activity flag. *)
Theorem C9_status_record :
  (forall rng : Cli.EntropyRNG,
      exists d,
        Cli.get_entropy_status rng = (inr d, rng)
        /\ dict_keys d = ["mouse_samples"; "cpu_samples"; "total_samples"]%string
        /\ dict_get "mouse_samples" d
           = Some (Z.of_nat (length (Deque.items
                                       (Cli.mouse_entropy (Cli.collector rng)))))
        /\ dict_get "cpu_samples" d
           = Some (Z.of_nat (length (Deque.items
                                       (Cli.cpu_entropy (Cli.collector rng)))))
        /\ (exists mouse cpu,
               dict_get "mouse_samples" d = Some mouse
               /\ dict_get "cpu_samples" d = Some cpu
               /\ dict_get "total_samples" d = Some (mouse + cpu))
        /\ dict_get "active_duration_seconds" d = None
        /\ dict_get "is_pointer_active" d = None)
  /\ (forall rng : Gui.EntropyRNG,
         exists d,
           Gui.get_entropy_status rng = (inr d, rng)
           /\ dict_keys d
              = ["mouse_samples"; "cpu_samples"; "audio_samples";
                 "total_samples"]%string
           /\ dict_get "mouse_samples" d
              = Some (Z.of_nat (length (Deque.items
                                          (Gui.mouse_entropy (Gui.collector rng)))))
           /\ dict_get "cpu_samples" d
              = Some (Z.of_nat (length (Deque.items
                                          (Gui.cpu_entropy (Gui.collector rng)))))
           /\ dict_get "audio_samples" d
              = Some (Z.of_nat (length (Deque.items
                                          (Gui.audio_entropy (Gui.collector rng)))))
           /\ (exists mouse cpu audio,
                  dict_get "mouse_samples" d = Some mouse
                  /\ dict_get "cpu_samples" d = Some cpu
                  /\ dict_get "audio_samples" d = Some audio
                  /\ dict_get "total_samples" d = Some (mouse + cpu + audio))
           /\ dict_get "active_duration_seconds" d = None
           /\ dict_get "is_pointer_active" d = None).
Proof.
  split.
  - intros rng. eexists. split; [reflexivity |].
    do 3 (split; [reflexivity |]).
    split; [| split; reflexivity].
    do 2 eexists. repeat split.
  - intros rng. eexists. split; [reflexivity |].
    do 4 (split; [reflexivity |]).
    split; [| split; reflexivity].
    do 3 eexists. repeat split.
Qed.

Example status_counts_audio_left_from_an_earlier_session :
  let rng := {| Gui.collector :=
                  Gui.run [Gui.Stop; Gui.Start false 1000] gui_session;
                Gui.generated_numbers := [] |} in
  Gui.audio_recording (Gui.collector rng) = false
  /\ fst (Gui.get_entropy_status rng)
     = inr [("mouse_samples"%string, 301); ("cpu_samples"%string, 0);
            ("audio_samples"%string, 100); ("total_samples"%string, 401)].
Proof. vm_compute. split; reflexivity. Qed.

(** * Further properties of the code *)

(** ** Ranges of the samples in the pools *)

Section PoolRanges.

Lemma append_Forall (P : Z -> Prop) x d :
  Forall P (Deque.items d) -> P x -> Forall P (Deque.items (Deque.append x d)).
Proof.
  intros Hd Hx.
  assert (Hg : Forall P (Deque.items d ++ [x])).
  { apply Forall_app. split; [exact Hd | repeat constructor; exact Hx]. }
  unfold Deque.append. destruct (_ <? _)%nat; cbn [Deque.items]; [| exact Hg].
  destruct (Deque.items d ++ [x]) as [| y l]; [constructor |].
  inversion Hg. assumption.
Qed.

Lemma mouse_sample_below x y timestamp pool :
  0 <= Shared.mouse_sample x y timestamp pool < 2 ^ 30.
Proof.
  unfold Shared.mouse_sample.
  pose proof (land_FFFF (Z.lxor (Z.lxor x y) (Z.land timestamp 0xFFFFFFFF)))
    as Hdata.
  assert (H16 : 2 ^ 16 < 2 ^ 30) by reflexivity.
  destruct (0 <? Deque.len pool); [| lia].
  pose proof (Z.mod_pos_bound timestamp 1000000 eq_refl) as Hmod.
  apply lxor_below; [lia | lia |].
  assert (999999 * 1000 < 2 ^ 30) by reflexivity. lia.
Qed.

Lemma mouse_sample_first x y timestamp pool :
  Deque.items pool = [] ->
  0 <= Shared.mouse_sample x y timestamp pool < 2 ^ 16.
Proof.
  intros Hempty. unfold Shared.mouse_sample, Deque.len. rewrite Hempty.
  cbn [length Z.of_nat Z.ltb Z.compare]. apply land_FFFF.
Qed.

Lemma cpu_sample_below mix : 0 <= Shared.cpu_sample mix < 2 ^ 32.
Proof. apply is_u32_iff, cpu_sample_u32. Qed.

Lemma audio_sample_below rms peak variance timestamp :
  0 <= Gui.audio_sample rms peak variance timestamp < 2 ^ 16.
Proof. unfold Gui.audio_sample. apply land_FFFF. Qed.

Lemma cli_step_ranges c e :
  Forall (fun v => 0 <= v < 2 ^ 30) (Deque.items (Cli.mouse_entropy c))
  /\ Forall (fun v => 0 <= v < 2 ^ 32) (Deque.items (Cli.cpu_entropy c)) ->
  Forall (fun v => 0 <= v < 2 ^ 30)
         (Deque.items (Cli.mouse_entropy (Cli.step c e)))
  /\ Forall (fun v => 0 <= v < 2 ^ 32)
            (Deque.items (Cli.cpu_entropy (Cli.step c e))).
Proof.
  intros [Hm Hc].
  destruct e as [now | | x y timestamp current_time | [mix |]]; cbn;
    unfold Cli.on_mouse_move, Cli.cpu_tick;
    try destruct (Cli.collecting c); cbn; split; try assumption.
  - apply append_Forall; [exact Hm | apply mouse_sample_below].
  - apply append_Forall; [exact Hc | apply cpu_sample_below].
Qed.

Lemma gui_step_ranges c e :
  Forall (fun v => 0 <= v < 2 ^ 30) (Deque.items (Gui.mouse_entropy c))
  /\ Forall (fun v => 0 <= v < 2 ^ 32) (Deque.items (Gui.cpu_entropy c))
  /\ Forall (fun v => 0 <= v < 2 ^ 16) (Deque.items (Gui.audio_entropy c)) ->
  Forall (fun v => 0 <= v < 2 ^ 30)
         (Deque.items (Gui.mouse_entropy (Gui.step c e)))
  /\ Forall (fun v => 0 <= v < 2 ^ 32)
            (Deque.items (Gui.cpu_entropy (Gui.step c e)))
  /\ Forall (fun v => 0 <= v < 2 ^ 16)
            (Deque.items (Gui.audio_entropy (Gui.step c e))).
Proof.
  intros (Hm & Hc & Ha).
  destruct e as [include_audio now | | x y timestamp current_time
                | [mix |] | [s |] | [[[[rms peak] variance] timestamp] |] | ];
    cbn;
    unfold Gui.on_mouse_move, Gui.cpu_tick, Gui.audio_open, Gui.audio_read,
      Gui.audio_exit;
    try destruct (Gui.collecting c); try destruct (Gui.audio_recording c);
    try destruct (Gui.audio_stream c);
    cbn; refine (conj _ (conj _ _)); try assumption;
    apply append_Forall; try assumption.
  - apply mouse_sample_below.
  - apply mouse_sample_below.
  - apply mouse_sample_below.
  - apply mouse_sample_below.
  - apply cpu_sample_below.
  - apply cpu_sample_below.
  - apply cpu_sample_below.
  - apply cpu_sample_below.
  - apply audio_sample_below.
  - apply audio_sample_below.
Qed.

End PoolRanges.

(** X1. After any sequence of events from the initial collector, every
    mouse sample in the pool is in [0, 2^30), every CPU sample in
    [0, 2^32) and, in the variant with audio, every audio sample in
    [0, 2^16). *)
Theorem X1_sample_ranges (es : list Cli.event) (gs : list Gui.event) :
  (Forall (fun v => 0 <= v < 2 ^ 30)
          (Deque.items (Cli.mouse_entropy (Cli.run es Cli.init)))
   /\ Forall (fun v => 0 <= v < 2 ^ 32)
             (Deque.items (Cli.cpu_entropy (Cli.run es Cli.init))))
  /\ (Forall (fun v => 0 <= v < 2 ^ 30)
             (Deque.items (Gui.mouse_entropy (Gui.run gs Gui.init)))
      /\ Forall (fun v => 0 <= v < 2 ^ 32)
                (Deque.items (Gui.cpu_entropy (Gui.run gs Gui.init)))
      /\ Forall (fun v => 0 <= v < 2 ^ 16)
                (Deque.items (Gui.audio_entropy (Gui.run gs Gui.init)))).
Proof.
  split.
  - assert (Hgen : forall c,
               Forall (fun v => 0 <= v < 2 ^ 30)
                      (Deque.items (Cli.mouse_entropy c))
               /\ Forall (fun v => 0 <= v < 2 ^ 32)
                         (Deque.items (Cli.cpu_entropy c)) ->
               Forall (fun v => 0 <= v < 2 ^ 30)
                      (Deque.items (Cli.mouse_entropy (Cli.run es c)))
               /\ Forall (fun v => 0 <= v < 2 ^ 32)
                         (Deque.items (Cli.cpu_entropy (Cli.run es c)))).
    { induction es as [| e es IH]; intros c Hc; [exact Hc |].
      cbn. apply IH, cli_step_ranges, Hc. }
    apply Hgen. split; constructor.
  - assert (Hgen : forall c,
               Forall (fun v => 0 <= v < 2 ^ 30)
                      (Deque.items (Gui.mouse_entropy c))
               /\ Forall (fun v => 0 <= v < 2 ^ 32)
                         (Deque.items (Gui.cpu_entropy c))
               /\ Forall (fun v => 0 <= v < 2 ^ 16)
                         (Deque.items (Gui.audio_entropy c)) ->
               Forall (fun v => 0 <= v < 2 ^ 30)
                      (Deque.items (Gui.mouse_entropy (Gui.run gs c)))
               /\ Forall (fun v => 0 <= v < 2 ^ 32)
                         (Deque.items (Gui.cpu_entropy (Gui.run gs c)))
               /\ Forall (fun v => 0 <= v < 2 ^ 16)
                         (Deque.items (Gui.audio_entropy (Gui.run gs c)))).
    { induction gs as [| e gs IH]; intros c Hc; [exact Hc |].
      cbn. apply IH, gui_step_ranges, Hc. }
    apply Hgen. repeat split; constructor.
Qed.

(** ** Producers on an idle collector *)

Section Idle.

Lemma append_len_le x d : Deque.len (Deque.append x d) <= Deque.len d + 1.
Proof.
  unfold Deque.len, Deque.append.
  destruct (_ <? _)%nat; cbn [Deque.items].
  - destruct (Deque.items d) as [| y l]; cbn [app tl length];
      [lia | rewrite length_app; cbn [length]; lia].
  - rewrite length_app. cbn [length]. lia.
Qed.

(** The steps of [Cli.step] and [Gui.step] are the steps of the threads
    in which no other step comes between a test and its statements. *)
Lemma cli_atomic_turn c e :
  CliThreads.run (CliThreads.split e) (CliThreads.quiet c)
  = CliThreads.quiet (Cli.step c e).
Proof.
  destruct c as [mouse cpu [|] queue started first last total timeout
                 listener called];
    destruct e as [now | | x y timestamp current_time | [mix |]];
    reflexivity.
Qed.

Lemma cli_atomic_trace es c :
  CliThreads.run (flat_map CliThreads.split es) (CliThreads.quiet c)
  = CliThreads.quiet (Cli.run es c).
Proof.
  revert c. induction es as [| e es IH]; intros c; [reflexivity |].
  cbn [flat_map]. unfold CliThreads.run in *. rewrite fold_left_app.
  fold (CliThreads.run (CliThreads.split e) (CliThreads.quiet c)).
  rewrite cli_atomic_turn. apply IH.
Qed.

Lemma gui_atomic_turn c e :
  GuiThreads.run (GuiThreads.split e) (GuiThreads.quiet c)
  = GuiThreads.quiet (Gui.step c e).
Proof.
  destruct c as [mouse cpu audio [|] queue started first last total timeout
                 [|] stream listener called];
    destruct e as [include_audio now | | x y timestamp current_time
                  | [mix |] | opened | [[[[rms peak] variance] timestamp] |] | ];
    reflexivity.
Qed.

Lemma gui_atomic_trace es c :
  GuiThreads.run (flat_map GuiThreads.split es) (GuiThreads.quiet c)
  = GuiThreads.quiet (Gui.run es c).
Proof.
  revert c. induction es as [| e es IH]; intros c; [reflexivity |].
  cbn [flat_map]. unfold GuiThreads.run in *. rewrite fold_left_app.
  fold (GuiThreads.run (GuiThreads.split e) (GuiThreads.quiet c)).
  rewrite gui_atomic_turn. apply IH.
Qed.

Lemma cli_drains_refl s :
  Cli.collecting (CliThreads.collector s) = false -> cli_drains s s.
Proof.
  intros Hidle. unfold cli_drains. cbv zeta.
  split; [exact Hidle |]. split; [lia |]. split; [lia |].
  split; [exists []; rewrite app_nil_r; split; [reflexivity | cbn; lia] |].
  split; [lia |]. split; [lia | reflexivity].
Qed.

Lemma cli_drains_trans s1 s2 s3 :
  cli_drains s1 s2 -> cli_drains s2 s3 -> cli_drains s1 s3.
Proof.
  unfold cli_drains. cbv zeta.
  intros (_ & Hm1 & Hc1 & (a1 & Hq1 & Hn1) & Hlm1 & Hlc1 & Hz1)
         (Hidle & Hm2 & Hc2 & (a2 & Hq2 & Hn2) & Hlm2 & Hlc2 & Hz2).
  split; [exact Hidle |]. split; [lia |]. split; [lia |].
  split.
  { exists (a1 ++ a2). rewrite Hq2, Hq1, app_assoc, length_app.
    split; [reflexivity | lia]. }
  split; [lia |]. split; [lia |].
  intros Hzero. rewrite Hz2, Hz1; [reflexivity | exact Hzero |].
  unfold CliThreads.in_flight in *. lia.
Qed.

Lemma cli_drains_step s e :
  Cli.collecting (CliThreads.collector s) = false ->
  CliThreads.is_start e = false ->
  cli_drains s (CliThreads.step s e).
Proof.
  intros Hidle He. destruct s as [c m k]. cbn in Hidle.
  destruct e as [now | | | x y timestamp current_time | | reading];
    try discriminate; cbn [CliThreads.step CliThreads.collector
                           CliThreads.mouse_calls CliThreads.cpu_turns].
  - unfold cli_drains, CliThreads.in_flight. cbn.
    split; [reflexivity |]. split; [lia |]. split; [lia |].
    split; [exists []; rewrite app_nil_r; split; [reflexivity | cbn; lia] |].
    split; [lia |]. split; [lia | reflexivity].
  - rewrite Hidle. now apply cli_drains_refl.
  - destruct m as [| n]; [now apply cli_drains_refl |].
    unfold cli_drains, CliThreads.in_flight. cbn.
    split; [exact Hidle |]. split; [lia |]. split; [lia |].
    split; [eexists; split; [reflexivity | cbn; lia] |].
    split.
    { pose proof (append_len_le
                    (Shared.mouse_sample x y timestamp (Cli.mouse_entropy c))
                    (Cli.mouse_entropy c)). lia. }
    split; [lia | discriminate].
  - rewrite Hidle. now apply cli_drains_refl.
  - destruct k as [| n]; [now apply cli_drains_refl |].
    destruct reading as [mix |]; unfold cli_drains, CliThreads.in_flight; cbn.
    + split; [exact Hidle |]. split; [lia |]. split; [lia |].
      split; [eexists; split; [reflexivity | cbn; lia] |].
      split; [lia |].
      split.
      { pose proof (append_len_le (Shared.cpu_sample mix) (Cli.cpu_entropy c)).
        lia. }
      intros Hzero. lia.
    + split; [exact Hidle |]. split; [lia |]. split; [lia |].
      split; [exists []; rewrite app_nil_r; split; [reflexivity | cbn; lia] |].
      split; [lia |]. split; [lia |]. intros Hzero. lia.
Qed.

Lemma cli_drains_run es s :
  Cli.collecting (CliThreads.collector s) = false ->
  forallb (fun e => negb (CliThreads.is_start e)) es = true ->
  cli_drains s (CliThreads.run es s).
Proof.
  revert s. induction es as [| e es IH]; intros s Hidle Hes;
    [now apply cli_drains_refl |].
  cbn in Hes. apply andb_true_iff in Hes. destruct Hes as [He Hes].
  apply negb_true_iff in He.
  pose proof (cli_drains_step s e Hidle He) as Hstep.
  apply (cli_drains_trans s (CliThreads.step s e)); [exact Hstep |].
  apply IH; [apply Hstep | exact Hes].
Qed.

Lemma gui_drains_refl s :
  Gui.collecting (GuiThreads.collector s) = false -> gui_drains s s.
Proof.
  intros Hidle. unfold gui_drains. cbv zeta.
  split; [exact Hidle |]. split; [lia |]. split; [lia |]. split; [lia |].
  split; [exists []; rewrite app_nil_r; split; [reflexivity | cbn; lia] |].
  split; [lia |]. split; [lia |]. split; [lia | reflexivity].
Qed.

Lemma gui_drains_trans s1 s2 s3 :
  gui_drains s1 s2 -> gui_drains s2 s3 -> gui_drains s1 s3.
Proof.
  unfold gui_drains. cbv zeta.
  intros (_ & Hm1 & Hc1 & Ha1 & (a1 & Hq1 & Hn1) & Hlm1 & Hlc1 & Hla1 & Hz1)
         (Hidle & Hm2 & Hc2 & Ha2 & (a2 & Hq2 & Hn2) & Hlm2 & Hlc2 & Hla2
          & Hz2).
  split; [exact Hidle |]. split; [lia |]. split; [lia |]. split; [lia |].
  split.
  { exists (a1 ++ a2). rewrite Hq2, Hq1, app_assoc, length_app.
    split; [reflexivity | lia]. }
  split; [lia |]. split; [lia |]. split; [lia |].
  intros Hzero. rewrite Hz2, Hz1; [reflexivity | exact Hzero |].
  unfold GuiThreads.in_flight in *. lia.
Qed.

(** A step of a thread or a stop that changes neither the flag nor
    what the producers write. *)
Lemma gui_drains_same_data s c' :
  Gui.collecting c' = false ->
  gui_data c' = gui_data (GuiThreads.collector s) ->
  gui_drains s (GuiThreads.with_collector c' s).
Proof.
  intros Hidle Hdata. unfold gui_data in Hdata.
  injection Hdata as Hm Hc Ha Hq Hfirst Hlast Htotal.
  destruct s as [c m k a]. unfold gui_drains, GuiThreads.in_flight. cbn in *.
  rewrite Hm, Hc, Ha, Hq.
  split; [exact Hidle |]. split; [lia |]. split; [lia |]. split; [lia |].
  split; [exists []; rewrite app_nil_r; split; [reflexivity | cbn; lia] |].
  split; [lia |]. split; [lia |]. split; [lia |].
  intros _. unfold gui_data. rewrite Hm, Hc, Ha, Hq, Hfirst, Hlast, Htotal.
  reflexivity.
Qed.

Lemma gui_drains_step s e :
  Gui.collecting (GuiThreads.collector s) = false ->
  GuiThreads.is_start e = false ->
  gui_drains s (GuiThreads.step s e).
Proof.
  intros Hidle He.
  destruct e as [include_audio now | | | x y timestamp current_time | | reading
                | opened | | reading | ];
    try discriminate; cbn [GuiThreads.step].
  - apply gui_drains_same_data; reflexivity.
  - rewrite Hidle. now apply gui_drains_refl.
  - destruct s as [c m k a]. cbn in Hidle.
    cbn [GuiThreads.mouse_calls GuiThreads.collector GuiThreads.cpu_turns
         GuiThreads.audio_turns].
    destruct m as [| n]; [now apply gui_drains_refl |].
    unfold gui_drains, GuiThreads.in_flight. cbn.
    split; [exact Hidle |]. split; [lia |]. split; [lia |]. split; [lia |].
    split; [eexists; split; [reflexivity | cbn; lia] |].
    split.
    { pose proof (append_len_le
                    (Shared.mouse_sample x y timestamp (Gui.mouse_entropy c))
                    (Gui.mouse_entropy c)). lia. }
    split; [lia |]. split; [lia | discriminate].
  - rewrite Hidle. now apply gui_drains_refl.
  - destruct s as [c m k a]. cbn in Hidle.
    cbn [GuiThreads.mouse_calls GuiThreads.collector GuiThreads.cpu_turns
         GuiThreads.audio_turns].
    destruct k as [| n]; [now apply gui_drains_refl |].
    destruct reading as [mix |]; unfold gui_drains, GuiThreads.in_flight; cbn.
    + split; [exact Hidle |]. split; [lia |]. split; [lia |]. split; [lia |].
      split; [eexists; split; [reflexivity | cbn; lia] |].
      split; [lia |].
      split.
      { pose proof (append_len_le (Shared.cpu_sample mix) (Gui.cpu_entropy c)).
        lia. }
      split; [lia |]. intros Hzero. lia.
    + split; [exact Hidle |]. split; [lia |]. split; [lia |]. split; [lia |].
      split; [exists []; rewrite app_nil_r; split; [reflexivity | cbn; lia] |].
      split; [lia |]. split; [lia |]. split; [lia |]. intros Hzero. lia.
  - apply gui_drains_same_data.
    + destruct opened as [stream |]; cbn; [exact Hidle |].
      unfold Gui.audio_exit.
      destruct (Gui.audio_stream (GuiThreads.collector s)); exact Hidle.
    + destruct opened as [stream |]; cbn; [reflexivity |].
      unfold Gui.audio_exit.
      destruct (Gui.audio_stream (GuiThreads.collector s)); reflexivity.
  - rewrite Hidle. now apply gui_drains_refl.
  - destruct s as [c m k a]. cbn in Hidle.
    cbn [GuiThreads.mouse_calls GuiThreads.collector GuiThreads.cpu_turns
         GuiThreads.audio_turns].
    destruct a as [| n]; [now apply gui_drains_refl |].
    destruct reading as [[[[rms peak] variance] timestamp] |];
      unfold gui_drains, GuiThreads.in_flight; cbn.
    + split; [exact Hidle |]. split; [lia |]. split; [lia |]. split; [lia |].
      split; [eexists; split; [reflexivity | cbn; lia] |].
      split; [lia |]. split; [lia |].
      split.
      { pose proof (append_len_le
                      (Gui.audio_sample rms peak variance timestamp)
                      (Gui.audio_entropy c)). lia. }
      intros Hzero. lia.
    + split; [exact Hidle |]. split; [lia |]. split; [lia |]. split; [lia |].
      split; [exists []; rewrite app_nil_r; split; [reflexivity | cbn; lia] |].
      split; [lia |]. split; [lia |]. split; [lia |]. intros Hzero. lia.
  - apply gui_drains_same_data; unfold Gui.audio_exit;
      destruct (Gui.audio_stream (GuiThreads.collector s));
      [exact Hidle | exact Hidle | reflexivity | reflexivity].
Qed.

Lemma gui_drains_run es s :
  Gui.collecting (GuiThreads.collector s) = false ->
  forallb (fun e => negb (GuiThreads.is_start e)) es = true ->
  gui_drains s (GuiThreads.run es s).
Proof.
  revert s. induction es as [| e es IH]; intros s Hidle Hes;
    [now apply gui_drains_refl |].
  cbn in Hes. apply andb_true_iff in Hes. destruct Hes as [He Hes].
  apply negb_true_iff in He.
  pose proof (gui_drains_step s e Hidle He) as Hstep.
  apply (gui_drains_trans s (GuiThreads.step s e)); [exact Hstep |].
  apply IH; [apply Hstep | exact Hes].
Qed.

End Idle.

(** X2. What the producers still do on an idle collector, with each
    turn taken as the threads run it: the test of the flag first, the
    statements that end with the append afterwards.  From a state in
    which collecting is False, along any steps other than a new start
    (tests, statements of turns past their test, stops, the opening and
    the exit of an audio thread): collecting stays False; no turn gets
    past a test; every sample put in the queue uses up a turn that was
    past its test when the collector became idle, so at most that many
    samples are added, and each pool grows by at most the number of
    such turns of its producer; and when no turn is past its test, the
    pools, the queue and the activity tracker stay exactly as they
    are. *)
Theorem X2_idle_collector_takes_only_turns_in_flight :
  (forall (s : CliThreads.state) (es : list CliThreads.event),
      Cli.collecting (CliThreads.collector s) = false ->
      forallb (fun e => negb (CliThreads.is_start e)) es = true ->
      let s' := CliThreads.run es s in
      let c := CliThreads.collector s in
      let c' := CliThreads.collector s' in
      Cli.collecting c' = false
      /\ (CliThreads.mouse_calls s' <= CliThreads.mouse_calls s)%nat
      /\ (CliThreads.cpu_turns s' <= CliThreads.cpu_turns s)%nat
      /\ (exists added,
             Cli.entropy_queue c' = Cli.entropy_queue c ++ added
             /\ (length added + CliThreads.in_flight s'
                 <= CliThreads.in_flight s)%nat)
      /\ Deque.len (Cli.mouse_entropy c')
         + Z.of_nat (CliThreads.mouse_calls s')
         <= Deque.len (Cli.mouse_entropy c)
            + Z.of_nat (CliThreads.mouse_calls s)
      /\ Deque.len (Cli.cpu_entropy c') + Z.of_nat (CliThreads.cpu_turns s')
         <= Deque.len (Cli.cpu_entropy c) + Z.of_nat (CliThreads.cpu_turns s)
      /\ (CliThreads.in_flight s = 0%nat -> cli_data c' = cli_data c))
  /\ (forall (s : GuiThreads.state) (es : list GuiThreads.event),
         Gui.collecting (GuiThreads.collector s) = false ->
         forallb (fun e => negb (GuiThreads.is_start e)) es = true ->
         let s' := GuiThreads.run es s in
         let c := GuiThreads.collector s in
         let c' := GuiThreads.collector s' in
         Gui.collecting c' = false
         /\ (GuiThreads.mouse_calls s' <= GuiThreads.mouse_calls s)%nat
         /\ (GuiThreads.cpu_turns s' <= GuiThreads.cpu_turns s)%nat
         /\ (GuiThreads.audio_turns s' <= GuiThreads.audio_turns s)%nat
         /\ (exists added,
                Gui.entropy_queue c' = Gui.entropy_queue c ++ added
                /\ (length added + GuiThreads.in_flight s'
                    <= GuiThreads.in_flight s)%nat)
         /\ Deque.len (Gui.mouse_entropy c')
            + Z.of_nat (GuiThreads.mouse_calls s')
            <= Deque.len (Gui.mouse_entropy c)
               + Z.of_nat (GuiThreads.mouse_calls s)
         /\ Deque.len (Gui.cpu_entropy c') + Z.of_nat (GuiThreads.cpu_turns s')
            <= Deque.len (Gui.cpu_entropy c)
               + Z.of_nat (GuiThreads.cpu_turns s)
         /\ Deque.len (Gui.audio_entropy c')
            + Z.of_nat (GuiThreads.audio_turns s')
            <= Deque.len (Gui.audio_entropy c)
               + Z.of_nat (GuiThreads.audio_turns s)
         /\ (GuiThreads.in_flight s = 0%nat -> gui_data c' = gui_data c)).
Proof.
  split.
  - intros s es Hidle Hes. exact (cli_drains_run es s Hidle Hes).
  - intros s es Hidle Hes. exact (gui_drains_run es s Hidle Hes).
Qed.

(** On the command line: a mouse callback and a CPU turn are past their
    tests when stop_collection() returns; they run to their end, further
    turns are tried, a second stop is called.  With audio: the same with
    an audio turn, and none past its test after a stop on a started
    collector. *)
Lemma X2_idle_collector_takes_only_turns_in_flight_witness :
  (let s := CliThreads.run
              [CliThreads.Start 0; CliThreads.Cpu_test; CliThreads.Mouse_test;
               CliThreads.Stop]
              (CliThreads.quiet Cli.init) in
   let s' := CliThreads.run
               [CliThreads.Cpu_body (Some 77%Q); CliThreads.Cpu_test;
                CliThreads.Mouse_body 640 480 3 4; CliThreads.Mouse_test;
                CliThreads.Cpu_body (Some 5%Q); CliThreads.Stop] s in
   Cli.collecting (CliThreads.collector s') = false
   /\ exists added,
        Cli.entropy_queue (CliThreads.collector s')
        = Cli.entropy_queue (CliThreads.collector s) ++ added
        /\ (length added + CliThreads.in_flight s'
            <= CliThreads.in_flight s)%nat)
  /\ (let s := GuiThreads.run
                 [GuiThreads.Start true 0; GuiThreads.Audio_open (Some 0%nat);
                  GuiThreads.Audio_test; GuiThreads.Stop]
                 (GuiThreads.quiet Gui.init) in
      let s' := GuiThreads.run
                  [GuiThreads.Audio_body (Some (1, 2, 3, 4));
                   GuiThreads.Audio_test; GuiThreads.Audio_body None;
                   GuiThreads.Audio_exit] s in
      Deque.len (Gui.audio_entropy (GuiThreads.collector s'))
      + Z.of_nat (GuiThreads.audio_turns s')
      <= Deque.len (Gui.audio_entropy (GuiThreads.collector s))
         + Z.of_nat (GuiThreads.audio_turns s))
  /\ (let s := GuiThreads.quiet
                 (Gui.stop_collection (Gui.start_collection true 0 Gui.init)) in
      let s' := GuiThreads.run
                  [GuiThreads.Mouse_test; GuiThreads.Mouse_body 1 2 3 4;
                   GuiThreads.Cpu_test; GuiThreads.Cpu_body (Some 5%Q);
                   GuiThreads.Audio_test;
                   GuiThreads.Audio_body (Some (1, 2, 3, 4))] s in
      gui_data (GuiThreads.collector s') = gui_data (GuiThreads.collector s)).
Proof.
  split; [| split].
  - intros s s'.
    pose proof (proj1 X2_idle_collector_takes_only_turns_in_flight s
                  [CliThreads.Cpu_body (Some 77%Q); CliThreads.Cpu_test;
                   CliThreads.Mouse_body 640 480 3 4; CliThreads.Mouse_test;
                   CliThreads.Cpu_body (Some 5%Q); CliThreads.Stop]
                  eq_refl eq_refl) as H.
    cbv zeta in H. fold s' in H.
    split; [apply H | apply H].
  - intros s s'.
    pose proof (proj2 X2_idle_collector_takes_only_turns_in_flight s
                  [GuiThreads.Audio_body (Some (1, 2, 3, 4));
                   GuiThreads.Audio_test; GuiThreads.Audio_body None;
                   GuiThreads.Audio_exit]
                  eq_refl eq_refl) as H.
    cbv zeta in H. fold s' in H. apply H.
  - intros s s'.
    pose proof (proj2 X2_idle_collector_takes_only_turns_in_flight s
                  [GuiThreads.Mouse_test; GuiThreads.Mouse_body 1 2 3 4;
                   GuiThreads.Cpu_test; GuiThreads.Cpu_body (Some 5%Q);
                   GuiThreads.Audio_test;
                   GuiThreads.Audio_body (Some (1, 2, 3, 4))]
                  eq_refl eq_refl) as H.
    cbv zeta in H. fold s' in H. apply H. reflexivity.
Defined.

(** The turn of the CPU loop that is past its test when
    stop_collection() returns appends its sample to the pool of the idle
    collector; the next turn does not pass the test. *)
Example cpu_turn_in_flight_at_stop :
  let s := CliThreads.run
             [CliThreads.Start 0; CliThreads.Cpu_test; CliThreads.Stop;
              CliThreads.Cpu_body (Some 77%Q); CliThreads.Cpu_test;
              CliThreads.Cpu_body (Some 78%Q)]
             (CliThreads.quiet Cli.init) in
  Cli.collecting (CliThreads.collector s) = false
  /\ Deque.items (Cli.cpu_entropy (CliThreads.collector s)) = [77]
  /\ Cli.entropy_queue (CliThreads.collector s) = [("cpu"%string, 77)]
  /\ CliThreads.in_flight s = 0%nat.
Proof. vm_compute. repeat split; reflexivity. Qed.

(** ** The active duration against the clock *)

Section Duration.


Lemma last_default (u d1 d2 : Q) (l : list Q) :
  last (u :: l) d1 = last (u :: l) d2.
Proof.
  revert u. induction l as [| v l IH]; intros u; [reflexivity |].
  change (last (v :: l) d1 = last (v :: l) d2). apply IH.
Qed.

Lemma last_cons (t p : Q) (l : list Q) : last (t :: l) p = last l t.
Proof.
  destruct l as [| u l]; [reflexivity |].
  change (last (u :: l) p = last (u :: l) t). apply last_default.
Qed.





End Duration.





(** ** Continuous movement, and movement that stops *)

Section Continuity.

Lemma cli_move_timeout x y ts t c :
  Cli.mouse_activity_timeout (Cli.on_mouse_move x y ts t c)
  = Cli.mouse_activity_timeout c.
Proof. unfold Cli.on_mouse_move. destruct (Cli.collecting c); reflexivity. Qed.

(** With every move within the timeout of the one before, the whole
    time from the first to the last move is accumulated. *)
Lemma cli_steady_moves ms :
  forall c l,
    Cli.collecting c = true ->
    Cli.last_mouse_activity c = Some l ->
    steady (Cli.mouse_activity_timeout c) l (move_times ms) ->
    (Cli.total_active_movement_time (Cli.run (moves ms) c)
     == Cli.total_active_movement_time c + (last (move_times ms) l - l))%Q
    /\ Cli.last_mouse_activity (Cli.run (moves ms) c)
       = Some (last (move_times ms) l)
    /\ Cli.mouse_activity_timeout (Cli.run (moves ms) c)
       = Cli.mouse_activity_timeout c.
Proof.
  induction ms as [| [[[x y] ts] t] ms IH]; intros c l Hc Hl Hsteady.
  - cbn. split; [lra | split; [exact Hl | reflexivity]].
  - cbn in Hsteady. destruct Hsteady as [[Hlt Hgap] Hrest].
    change (move_times ((x, y, ts, t) :: ms)) with (t :: move_times ms).
    rewrite last_cons.
    change (Cli.run (moves ((x, y, ts, t) :: ms)) c)
      with (Cli.run (moves ms) (Cli.on_mouse_move x y ts t c)).
    destruct (IH (Cli.on_mouse_move x y ts t c) t) as (Htot & Hlast & Hto).
    + apply cli_move_collecting, Hc.
    + apply cli_move_last, Hc.
    + rewrite cli_move_timeout. exact Hrest.
    + rewrite cli_move_timeout in Hto.
      split; [| split; [exact Hlast | exact Hto]].
      rewrite Htot, cli_move_total, Hl by exact Hc.
      rewrite track_activity_within by exact Hgap. lra.
Qed.

End Continuity.

(** X5. While the mouse keeps moving, each move at most the timeout
    after the one before, the whole time since the first move counts:
    after a start and such a sequence of moves the accumulated total is
    the time from the first to the last move, and the duration read
    within the timeout after the last move is the time elapsed since
    the first move. *)
Theorem X5_continuous_movement_counts_fully
    (c0 : Cli.EntropyCollector) (t0 first now : Q) (x y timestamp : Z)
    (rest : list (Z * Z * Z * Q)) :
  steady (Cli.mouse_activity_timeout c0) first (move_times rest) ->
  (last (move_times rest) first <= now)%Q ->
  (now - last (move_times rest) first <= Cli.mouse_activity_timeout c0)%Q ->
  let c := Cli.run (moves ((x, y, timestamp, first) :: rest))
                   (Cli.start_collection t0 c0) in
  (Cli.total_active_movement_time c == last (move_times rest) first - first)%Q
  /\ (Cli.get_mouse_movement_duration now c == now - first)%Q.
Proof.
  intros Hsteady Hnow Hlive c.
  pose (c1 := Cli.on_mouse_move x y timestamp first
                (Cli.start_collection t0 c0)).
  assert (Hc1 : Cli.collecting c1 = true) by reflexivity.
  assert (Hl1 : Cli.last_mouse_activity c1 = Some first) by reflexivity.
  assert (Ht1 : Cli.total_active_movement_time c1 = 0%Q) by reflexivity.
  assert (Hto1 : Cli.mouse_activity_timeout c1 = Cli.mouse_activity_timeout c0)
    by reflexivity.
  destruct (cli_steady_moves rest c1 first Hc1 Hl1) as (Htot & Hlast & Hto).
  { rewrite Hto1. exact Hsteady. }
  change (Cli.run (moves rest) c1) with c in Htot, Hlast, Hto.
  rewrite Ht1 in Htot. rewrite Hto1 in Hto.
  split; [lra |].
  unfold Cli.get_mouse_movement_duration, Shared.movement_duration.
  rewrite Hlast, Hto.
  apply Qle_bool_iff in Hlive. rewrite Hlive. lra.
Qed.

(** Moves at 5 s, 6 s, 7.5 s and 9 s after a start at 0 s, read at
    10 s: 4 s accumulated, 5 s of duration. *)
Lemma X5_continuous_movement_counts_fully_witness :
  let rest := [(1, 2, 3, 6%Q); (1, 2, 3, (15 # 2)%Q); (1, 2, 3, 9%Q)] in
  let c := Cli.run (moves ((1, 2, 3, 5%Q) :: rest))
                   (Cli.start_collection 0 Cli.init) in
  (Cli.total_active_movement_time c == last (move_times rest) 5 - 5)%Q
  /\ (Cli.get_mouse_movement_duration 10 c == 10 - 5)%Q.
Proof.
  apply (X5_continuous_movement_counts_fully Cli.init 0%Q 5%Q 10%Q 1 2 3
           [(1, 2, 3, 6%Q); (1, 2, 3, (15 # 2)%Q); (1, 2, 3, 9%Q)]).
  - cbn. repeat split; vm_compute; discriminate.
  - vm_compute. discriminate.
  - vm_compute. discriminate.
Defined.

(** X6. The duration reading falls when the mouse stops: within the
    timeout after the last move it includes the time since that move,
    and once the timeout has passed it is back at the accumulated
    total.  So a collector with enough mouse samples whose total is
    below 30 s, and which is sufficient at [now1] only thanks to the
    running gap, is no longer sufficient at the later reading [now2],
    without any event in between. *)
Theorem X6_sufficiency_lapses_when_mouse_stops
    (c : Cli.EntropyCollector) (l now1 now2 : Q) :
  Cli.last_mouse_activity c = Some l ->
  (now1 - l <= Cli.mouse_activity_timeout c)%Q ->
  (Cli.mouse_activity_timeout c < now2 - l)%Q ->
  (Cli.total_active_movement_time c < 30)%Q ->
  (30 <= Cli.total_active_movement_time c + (now1 - l))%Q ->
  300 <= Deque.len (Cli.mouse_entropy c) ->
  (now1 < now2)%Q
  /\ Cli.is_mouse_currently_active now1 c = true
  /\ Cli.is_mouse_currently_active now2 c = false
  /\ Cli.get_mouse_movement_duration now1 c
     = (Cli.total_active_movement_time c + (now1 - l))%Q
  /\ Cli.get_mouse_movement_duration now2 c = Cli.total_active_movement_time c
  /\ Cli.has_sufficient_entropy 30 300 now1 c = true
  /\ Cli.has_sufficient_entropy 30 300 now2 c = false.
Proof.
  intros Hl Hlive Hdead Hbelow Habove Hsamples.
  assert (H1 : Qle_bool (now1 - l) (Cli.mouse_activity_timeout c) = true)
    by (apply Qle_bool_iff; exact Hlive).
  assert (H2 : Qle_bool (now2 - l) (Cli.mouse_activity_timeout c) = false).
  { destruct (Qle_bool (now2 - l) (Cli.mouse_activity_timeout c)) eqn:Hle;
      [| reflexivity].
    apply Qle_bool_iff in Hle. lra. }
  assert (Hd1 : Cli.get_mouse_movement_duration now1 c
                = (Cli.total_active_movement_time c + (now1 - l))%Q).
  { unfold Cli.get_mouse_movement_duration, Shared.movement_duration.
    rewrite Hl, H1. reflexivity. }
  assert (Hd2 : Cli.get_mouse_movement_duration now2 c
                = Cli.total_active_movement_time c).
  { unfold Cli.get_mouse_movement_duration, Shared.movement_duration.
    rewrite Hl, H2. reflexivity. }
  split; [lra |].
  split; [unfold Cli.is_mouse_currently_active, Shared.currently_active;
          rewrite Hl; exact H1 |].
  split; [unfold Cli.is_mouse_currently_active, Shared.currently_active;
          rewrite Hl; exact H2 |].
  split; [exact Hd1 |]. split; [exact Hd2 |].
  unfold Cli.has_sufficient_entropy. rewrite Hd1, Hd2.
  apply Z.leb_le in Hsamples. rewrite Hsamples.
  split.
  - apply andb_true_iff. split; [apply Qle_bool_iff; exact Habove | reflexivity].
  - destruct (Qle_bool 30 (Cli.total_active_movement_time c)) eqn:Hle;
      [| reflexivity].
    apply Qle_bool_iff in Hle. lra.
Qed.

(** After 29 s of movement with 309 samples: sufficient when read at
    30.5 s, no longer at 32 s. *)
Lemma X6_sufficiency_lapses_when_mouse_stops_witness :
  let c := Cli.run cli_events_29s Cli.init in
  ((61 # 2) < 32)%Q
  /\ Cli.is_mouse_currently_active (61 # 2) c = true
  /\ Cli.is_mouse_currently_active 32 c = false
  /\ Cli.get_mouse_movement_duration (61 # 2) c
     = (Cli.total_active_movement_time c + ((61 # 2) - 29))%Q
  /\ Cli.get_mouse_movement_duration 32 c = Cli.total_active_movement_time c
  /\ Cli.has_sufficient_entropy 30 300 (61 # 2) c = true
  /\ Cli.has_sufficient_entropy 30 300 32 c = false.
Proof.
  apply (X6_sufficiency_lapses_when_mouse_stops
           (Cli.run cli_events_29s Cli.init) 29%Q (61 # 2)%Q 32%Q).
  - vm_compute. reflexivity.
  - vm_compute. discriminate.
  - vm_compute. reflexivity.
  - vm_compute. reflexivity.
  - vm_compute. discriminate.
  - vm_compute. discriminate.
Defined.

(** ** Sample counts *)

Section Counts.

Lemma append_len_ge x d : Deque.len d <= Deque.len (Deque.append x d).
Proof.
  unfold Deque.len, Deque.append.
  destruct (_ <? _)%nat; cbn [Deque.items].
  - destruct (Deque.items d) as [| y l]; cbn [app tl length];
      [lia | rewrite length_app; cbn [length]; lia].
  - rewrite length_app. cbn [length]. lia.
Qed.

Lemma cli_step_counts c e :
  Deque.len (Cli.mouse_entropy c) <= Deque.len (Cli.mouse_entropy (Cli.step c e))
  /\ Deque.len (Cli.cpu_entropy c) <= Deque.len (Cli.cpu_entropy (Cli.step c e)).
Proof.
  destruct e as [now | | x y timestamp current_time | [mix |]]; cbn;
    unfold Cli.on_mouse_move, Cli.cpu_tick;
    try destruct (Cli.collecting c); cbn; split;
    try apply Z.le_refl; apply append_len_ge.
Qed.

Lemma gui_step_counts c e :
  Deque.len (Gui.mouse_entropy c) <= Deque.len (Gui.mouse_entropy (Gui.step c e))
  /\ Deque.len (Gui.cpu_entropy c) <= Deque.len (Gui.cpu_entropy (Gui.step c e))
  /\ Deque.len (Gui.audio_entropy c)
     <= Deque.len (Gui.audio_entropy (Gui.step c e)).
Proof.
  destruct e as [include_audio now | | x y timestamp current_time
                | [mix |] | [s |] | [[[[rms peak] variance] timestamp] |] | ];
    cbn;
    unfold Gui.on_mouse_move, Gui.cpu_tick, Gui.audio_open, Gui.audio_read,
      Gui.audio_exit;
    try destruct (Gui.collecting c); try destruct (Gui.audio_recording c);
    try destruct (Gui.audio_stream c);
    cbn; refine (conj _ (conj _ _));
    try apply Z.le_refl; apply append_len_ge.
Qed.

End Counts.

(** X7. No event ever removes a sample from a pool or shortens it:
    start, stop, the producers' turns and the audio thread's steps leave
    each pool's length as it is or one longer.  Hence along any sequence
    of events the sample counts never decrease, also across a stop and a
    new start. *)
Theorem X7_sample_counts_never_decrease
    (c : Cli.EntropyCollector) (es : list Cli.event)
    (g : Gui.EntropyCollector) (gs : list Gui.event) :
  (Deque.len (Cli.mouse_entropy c) <= Deque.len (Cli.mouse_entropy (Cli.run es c))
   /\ Deque.len (Cli.cpu_entropy c) <= Deque.len (Cli.cpu_entropy (Cli.run es c)))
  /\ (Deque.len (Gui.mouse_entropy g)
      <= Deque.len (Gui.mouse_entropy (Gui.run gs g))
      /\ Deque.len (Gui.cpu_entropy g)
         <= Deque.len (Gui.cpu_entropy (Gui.run gs g))
      /\ Deque.len (Gui.audio_entropy g)
         <= Deque.len (Gui.audio_entropy (Gui.run gs g))).
Proof.
  split.
  - revert c. induction es as [| e es IH]; intros c; [cbn; lia |].
    cbn. destruct (cli_step_counts c e), (IH (Cli.step c e)).
    unfold Cli.run in *. lia.
  - revert g. induction gs as [| e gs IH]; intros g; [cbn; lia |].
    cbn. destruct (gui_step_counts g e) as (? & ? & ?).
    destruct (IH (Gui.step g e)) as (? & ? & ?).
    unfold Gui.run in *. lia.
Qed.

(** X8. The total_samples entry of the status is the number of samples
    that the generator would hash at that moment (the length of the
    list built by get_entropy_pool); on a collector reached from the
    initial one it is at most 4000 on the command line and at most
    6000 in the variant with audio. *)
Theorem X8_status_total_is_snapshot_size
    (es : list Cli.event) (gs : list Gui.event) (numbers : list Z) :
  (let rng := {| Cli.collector := Cli.run es Cli.init;
                 Cli.generated_numbers := numbers |} in
   exists d,
     fst (Cli.get_entropy_status rng) = inr d
     /\ dict_get "total_samples" d
        = Some (Shared.len (Cli.get_entropy_pool (Cli.collector rng)))
     /\ Shared.len (Cli.get_entropy_pool (Cli.collector rng)) <= 4000)
  /\ (let rng := {| Gui.collector := Gui.run gs Gui.init;
                    Gui.generated_numbers := numbers |} in
      exists d,
        fst (Gui.get_entropy_status rng) = inr d
        /\ dict_get "total_samples" d
           = Some (Shared.len (Gui.get_entropy_pool (Gui.collector rng)))
        /\ Shared.len (Gui.get_entropy_pool (Gui.collector rng)) <= 6000).
Proof.
  split.
  - intros rng. eexists. split; [reflexivity |].
    rewrite cli_pool_length. split; [reflexivity |].
    destruct (cli_run_ok es Cli.init cli_init_ok) as (Hm & Hc & _).
    apply pool_ok_length in Hm, Hc. unfold Deque.len. cbn [Cli.collector rng].
    lia.
  - intros rng. eexists. split; [reflexivity |].
    rewrite gui_pool_length. split; [reflexivity |].
    destruct (gui_run_ok gs Gui.init gui_init_ok) as (Hm & Hc & Ha & _).
    apply pool_ok_length in Hm, Hc, Ha. unfold Deque.len.
    cbn [Gui.collector rng]. lia.
Qed.

(** ** What a call of a generator changes *)

Section Frame.

Lemma reduce_range hasher : in_output_range (Shared.reduce hasher).
Proof.
  unfold in_output_range, Shared.reduce. apply Z.mod_pos_bound. reflexivity.
Qed.

Lemma cli_mix_range timestamp pool result :
  Cli.mix timestamp pool = inr result -> in_output_range result.
Proof.
  unfold Cli.mix. destruct (Cli.feed_samples _ _); [discriminate |].
  intros [= <-]. apply reduce_range.
Qed.

Lemma gui_number_at_range time_ns pool i result :
  Gui.number_at time_ns pool i = inr result -> in_output_range result.
Proof.
  unfold Gui.number_at. destruct (Gui.feed_samples _ _ _ _); [discriminate |].
  intros [= <-]. apply reduce_range.
Qed.

(** The loop only appends to the list it was given, one number in range
    per index. *)
Lemma gui_numbers_loop_appends time_ns pool indices :
  forall acc numbers,
    Gui.numbers_loop time_ns pool indices acc = inr numbers ->
    exists added,
      numbers = acc ++ added
      /\ length added = length indices
      /\ Forall in_output_range added.
Proof.
  induction indices as [| i rest IH]; intros acc numbers Hloop.
  - cbn in Hloop. injection Hloop as <-. exists []. rewrite app_nil_r.
    repeat split. constructor.
  - cbn [Gui.numbers_loop] in Hloop.
    destruct (Gui.number_at time_ns pool i) as [e | result] eqn:Hi;
      [discriminate |].
    destruct (IH _ _ Hloop) as (added & -> & Hlen & Hrange).
    exists (result :: added). rewrite <- app_assoc. cbn [app length].
    repeat split; [congruence |].
    constructor; [eapply gui_number_at_range, Hi | exact Hrange].
Qed.

(** The outcome of generate_random_number and the generator after it. *)
Lemma cli_generate_frame min_entropy_samples now timestamp rng :
  match Cli.generate_random_number min_entropy_samples now timestamp rng with
  | (inl _, rng') => rng' = rng
  | (inr result, rng') =>
      Cli.collector rng' = Cli.collector rng
      /\ Cli.generated_numbers rng' = Cli.generated_numbers rng ++ [result]
      /\ in_output_range result
  end.
Proof.
  rewrite cli_generate_cases.
  destruct (negb _); [reflexivity |].
  destruct (_ <? _); [reflexivity |].
  destruct (Cli.mix _ _) as [e | result] eqn:Hmix; [reflexivity |].
  cbn. split; [reflexivity | split; [reflexivity |]].
  eapply cli_mix_range, Hmix.
Qed.

Lemma gui_generate_frame count min_entropy_samples now time_ns rng :
  match Gui.generate_random_numbers count min_entropy_samples now time_ns rng
  with
  | (inl _, rng') => rng' = rng
  | (inr numbers, rng') =>
      Gui.collector rng' = Gui.collector rng
      /\ Gui.generated_numbers rng' = Gui.generated_numbers rng ++ numbers
      /\ length numbers = Z.to_nat count
      /\ Forall in_output_range numbers
  end.
Proof.
  rewrite gui_generate_cases.
  destruct (negb _); [reflexivity |].
  destruct (_ <? _); [reflexivity |].
  destruct (Gui.numbers_loop _ _ _ _) as [e | numbers] eqn:Hloop;
    [reflexivity |].
  destruct (gui_numbers_loop_appends _ _ _ _ _ Hloop)
    as (added & -> & Hlen & Hrange).
  cbn. rewrite range_length in Hlen.
  split; [reflexivity | split; [reflexivity | split; assumption]].
Qed.

Lemma cli_apply_history rng op :
  exists added,
    Cli.generated_numbers (cli_apply rng op)
    = Cli.generated_numbers rng ++ added
    /\ Forall in_output_range added.
Proof.
  destruct op as [e | min_entropy_samples now timestamp |];
    cbn [cli_apply Cli.generated_numbers].
  - exists []. rewrite app_nil_r. split; [reflexivity | constructor].
  - pose proof (cli_generate_frame min_entropy_samples now timestamp rng) as H.
    destruct (Cli.generate_random_number _ _ _ rng) as [[e | result] rng'];
      cbn [snd].
    + subst rng'. exists []. rewrite app_nil_r.
      split; [reflexivity | constructor].
    + destruct H as (_ & Hnum & Hrange). exists [result].
      split; [exact Hnum | constructor; [exact Hrange | constructor]].
  - exists []. rewrite app_nil_r. split; [reflexivity | constructor].
Qed.

Lemma gui_apply_history rng op :
  exists added,
    Gui.generated_numbers (gui_apply rng op)
    = Gui.generated_numbers rng ++ added
    /\ Forall in_output_range added.
Proof.
  destruct op as [e | count min_entropy_samples now time_ns |];
    cbn [gui_apply Gui.generated_numbers].
  - exists []. rewrite app_nil_r. split; [reflexivity | constructor].
  - pose proof (gui_generate_frame count min_entropy_samples now time_ns rng)
      as H.
    destruct (Gui.generate_random_numbers _ _ _ _ rng)
      as [[e | numbers] rng']; cbn [snd].
    + subst rng'. exists []. rewrite app_nil_r.
      split; [reflexivity | constructor].
    + destruct H as (_ & Hnum & _ & Hrange). exists numbers.
      split; [exact Hnum | exact Hrange].
  - exists []. rewrite app_nil_r. split; [reflexivity | constructor].
Qed.

Lemma cli_apply_all_history ops :
  forall rng,
    exists added,
      Cli.generated_numbers (cli_apply_all ops rng)
      = Cli.generated_numbers rng ++ added
      /\ Forall in_output_range added.
Proof.
  induction ops as [| op ops IH]; intros rng.
  - exists []. cbn. rewrite app_nil_r. split; [reflexivity | constructor].
  - destruct (cli_apply_history rng op) as (a1 & H1 & R1).
    destruct (IH (cli_apply rng op)) as (a2 & H2 & R2).
    exists (a1 ++ a2). cbn. unfold cli_apply_all in H2. rewrite H2, H1.
    rewrite <- app_assoc. split; [reflexivity | apply Forall_app; tauto].
Qed.

Lemma gui_apply_all_history ops :
  forall rng,
    exists added,
      Gui.generated_numbers (gui_apply_all ops rng)
      = Gui.generated_numbers rng ++ added
      /\ Forall in_output_range added.
Proof.
  induction ops as [| op ops IH]; intros rng.
  - exists []. cbn. rewrite app_nil_r. split; [reflexivity | constructor].
  - destruct (gui_apply_history rng op) as (a1 & H1 & R1).
    destruct (IH (gui_apply rng op)) as (a2 & H2 & R2).
    exists (a1 ++ a2). cbn. unfold gui_apply_all in H2. rewrite H2, H1.
    rewrite <- app_assoc. split; [reflexivity | apply Forall_app; tauto].
Qed.

End Frame.

(** X9. The history of generated numbers is append-only and in range:
    after any sequence of collector events, generator calls (with any
    arguments, failing or not) and status queries on a new generator,
    every recorded number is in [0, 2048), and the history after a
    prefix of the sequence is a prefix of the history after all of it. *)
Theorem X9_history_append_only_and_in_range
    (before after : list cli_op) (gbefore gafter : list gui_op) :
  (Forall in_output_range
          (Cli.generated_numbers (cli_apply_all (before ++ after) Cli.new))
   /\ exists added,
        Cli.generated_numbers (cli_apply_all (before ++ after) Cli.new)
        = Cli.generated_numbers (cli_apply_all before Cli.new) ++ added)
  /\ (Forall in_output_range
             (Gui.generated_numbers (gui_apply_all (gbefore ++ gafter) Gui.new))
      /\ exists added,
           Gui.generated_numbers (gui_apply_all (gbefore ++ gafter) Gui.new)
           = Gui.generated_numbers (gui_apply_all gbefore Gui.new) ++ added).
Proof.
  split.
  - split.
    + destruct (cli_apply_all_history (before ++ after) Cli.new)
        as (added & -> & Hrange). exact Hrange.
    + unfold cli_apply_all. rewrite fold_left_app.
      destruct (cli_apply_all_history after (cli_apply_all before Cli.new))
        as (added & Hadd & _).
      exists added. exact Hadd.
  - split.
    + destruct (gui_apply_all_history (gbefore ++ gafter) Gui.new)
        as (added & -> & Hrange). exact Hrange.
    + unfold gui_apply_all. rewrite fold_left_app.
      destruct (gui_apply_all_history gafter (gui_apply_all gbefore Gui.new))
        as (added & Hadd & _).
      exists added. exact Hadd.
Qed.

(** X10. A call of a generator that raises, whatever the exception,
    leaves the generator object exactly as it was: nothing is recorded,
    not even the numbers of a batch computed before the failing turn.
    A call that returns leaves the collector untouched and appends to
    the history exactly what it returns: one number in [0, 2048), or
    max(count, 0) numbers in [0, 2048) for the batch. *)
Theorem X10_generator_calls_frame
    (rng : Cli.EntropyRNG) (min_entropy_samples timestamp : Z) (now : Q)
    (grng : Gui.EntropyRNG) (count gmin : Z) (gnow : Q) (time_ns : Z -> Z) :
  match Cli.generate_random_number min_entropy_samples now timestamp rng with
  | (inl _, rng') => rng' = rng
  | (inr result, rng') =>
      Cli.collector rng' = Cli.collector rng
      /\ Cli.generated_numbers rng' = Cli.generated_numbers rng ++ [result]
      /\ in_output_range result
  end
  /\ match Gui.generate_random_numbers count gmin gnow time_ns grng with
     | (inl _, rng') => rng' = grng
     | (inr numbers, rng') =>
         Gui.collector rng' = Gui.collector grng
         /\ Gui.generated_numbers rng' = Gui.generated_numbers grng ++ numbers
         /\ length numbers = Z.to_nat count
         /\ Forall in_output_range numbers
     end.
Proof.
  split; [apply cli_generate_frame | apply gui_generate_frame].
Qed.

(** X11. Which ValueError a generator raises: "Insufficient entropy"
    exactly when has_sufficient_entropy() is false at the call, also
    when the pool is below the minimum as well; "Insufficient total
    entropy" exactly when has_sufficient_entropy() is true and the pool
    has fewer samples than the min_entropy_samples argument. *)
Theorem X11_which_value_error
    (rng : Cli.EntropyRNG) (min_entropy_samples timestamp : Z) (now : Q)
    (grng : Gui.EntropyRNG) (count gmin : Z) (gnow : Q) (time_ns : Z -> Z) :
  (fst (Cli.generate_random_number min_entropy_samples now timestamp rng)
   = inl (ValueError Insufficient_entropy)
   <-> Cli.has_sufficient_entropy 30 300 now (Cli.collector rng) = false)
  /\ (fst (Cli.generate_random_number min_entropy_samples now timestamp rng)
      = inl (ValueError Insufficient_total_entropy)
      <-> Cli.has_sufficient_entropy 30 300 now (Cli.collector rng) = true
          /\ Shared.len (Cli.get_entropy_pool (Cli.collector rng))
             < min_entropy_samples)
  /\ (fst (Gui.generate_random_numbers count gmin gnow time_ns grng)
      = inl (ValueError Insufficient_entropy)
      <-> Gui.has_sufficient_entropy 30 300 100 gnow (Gui.collector grng)
          = false)
  /\ (fst (Gui.generate_random_numbers count gmin gnow time_ns grng)
      = inl (ValueError Insufficient_total_entropy)
      <-> Gui.has_sufficient_entropy 30 300 100 gnow (Gui.collector grng)
          = true
          /\ Shared.len (Gui.get_entropy_pool (Gui.collector grng)) < gmin).
Proof.
  rewrite cli_generate_cases, gui_generate_cases.
  split; [| split; [| split]].
  - destruct (Cli.has_sufficient_entropy _ _ _ _); cbn [negb];
      [| split; reflexivity].
    destruct (_ <? _); [split; discriminate |].
    destruct (Cli.mix _ _) as [e | r] eqn:Hmix; [| split; discriminate].
    apply cli_mix_exn in Hmix. subst e. split; discriminate.
  - destruct (Cli.has_sufficient_entropy _ _ _ _); cbn [negb];
      [| split; [discriminate | intros [? _]; discriminate]].
    destruct (Z.ltb_spec (Shared.len (Cli.get_entropy_pool (Cli.collector rng)))
                min_entropy_samples) as [Hlt | Hge].
    + split; [intros _; split; [reflexivity | exact Hlt] | reflexivity].
    + destruct (Cli.mix _ _) as [e | r] eqn:Hmix.
      * apply cli_mix_exn in Hmix. subst e.
        split; [discriminate | intros [_ ?]; lia].
      * split; [discriminate | intros [_ ?]; lia].
  - destruct (Gui.has_sufficient_entropy _ _ _ _ _); cbn [negb];
      [| split; reflexivity].
    destruct (_ <? _); [split; discriminate |].
    destruct (Gui.numbers_loop _ _ _ _) as [e | r] eqn:Hloop;
      [| split; discriminate].
    apply gui_numbers_loop_exn in Hloop. subst e. split; discriminate.
  - destruct (Gui.has_sufficient_entropy _ _ _ _ _); cbn [negb];
      [| split; [discriminate | intros [? _]; discriminate]].
    destruct (Z.ltb_spec (Shared.len (Gui.get_entropy_pool (Gui.collector grng)))
                gmin) as [Hlt | Hge].
    + split; [intros _; split; [reflexivity | exact Hlt] | reflexivity].
    + destruct (Gui.numbers_loop _ _ _ _) as [e | r] eqn:Hloop.
      * apply gui_numbers_loop_exn in Hloop. subst e.
        split; [discriminate | intros [_ ?]; lia].
      * split; [discriminate | intros [_ ?]; lia].
Qed.

(** The command-line session at 300 s asked for a minimum of 1000
    samples, and the new generator of the variant with audio. *)
Lemma X11_which_value_error_witness :
  fst (Cli.generate_random_number 1000 300 0
         {| Cli.collector := Cli.run cli_events Cli.init;
            Cli.generated_numbers := [] |})
  = inl (ValueError Insufficient_total_entropy)
  /\ fst (Gui.generate_random_numbers 24 400 0 (fun _ => 0) Gui.new)
     = inl (ValueError Insufficient_entropy).
Proof.
  split.
  - apply (X11_which_value_error
             {| Cli.collector := Cli.run cli_events Cli.init;
                Cli.generated_numbers := [] |} 1000 0 300%Q
             Gui.new 24 400 0%Q (fun _ => 0)).
    split; [vm_compute; reflexivity | vm_compute; reflexivity].
  - apply (X11_which_value_error
             {| Cli.collector := Cli.run cli_events Cli.init;
                Cli.generated_numbers := [] |} 1000 0 300%Q
             Gui.new 24 400 0%Q (fun _ => 0)).
    vm_compute. reflexivity.
Defined.

(** X12. A batch of no numbers: generate_random_numbers with a count of
    zero or less still passes through both gates, and when they are
    passed it returns the empty list and leaves the generator exactly
    as it was. *)
Theorem X12_empty_batch
    (rng : Gui.EntropyRNG) (count min_entropy_samples : Z) (now : Q)
    (time_ns : Z -> Z) :
  count <= 0 ->
  (Gui.has_sufficient_entropy 30 300 100 now (Gui.collector rng) = true
   /\ min_entropy_samples <= Shared.len (Gui.get_entropy_pool (Gui.collector rng))
   -> Gui.generate_random_numbers count min_entropy_samples now time_ns rng
      = (inr [], rng))
  /\ (Gui.has_sufficient_entropy 30 300 100 now (Gui.collector rng) = false
      -> Gui.generate_random_numbers count min_entropy_samples now time_ns rng
         = (inl (ValueError Insufficient_entropy), rng)).
Proof.
  intros Hcount. rewrite gui_generate_cases. split.
  - intros [Hsuff Hmin]. rewrite Hsuff. cbn [negb].
    destruct (Z.ltb_spec (Shared.len (Gui.get_entropy_pool (Gui.collector rng)))
                min_entropy_samples) as [Hlt | _]; [lia |].
    unfold Gui.range. replace (Z.to_nat count) with 0%nat by lia.
    cbn [seq map Gui.numbers_loop]. rewrite app_nil_r.
    destruct rng. reflexivity.
  - intros Hsuff. rewrite Hsuff. reflexivity.
Qed.

(** A count of -3 on the session with audio at 300 s, and on the new
    generator. *)
Lemma X12_empty_batch_witness :
  Gui.generate_random_numbers (-3) 400 300 (fun _ => 0)
    {| Gui.collector := Gui.run gui_events Gui.init;
       Gui.generated_numbers := [1; 2] |}
  = (inr [], {| Gui.collector := Gui.run gui_events Gui.init;
                Gui.generated_numbers := [1; 2] |})
  /\ Gui.generate_random_numbers (-3) 400 300 (fun _ => 0) Gui.new
     = (inl (ValueError Insufficient_entropy), Gui.new).
Proof.
  split.
  - apply (X12_empty_batch
             {| Gui.collector := Gui.run gui_events Gui.init;
                Gui.generated_numbers := [1; 2] |} (-3) 400 300%Q (fun _ => 0)).
    + vm_compute. discriminate.
    + split; [vm_compute; reflexivity | vm_compute; discriminate].
  - apply (X12_empty_batch Gui.new (-3) 400 300%Q (fun _ => 0)).
    + vm_compute. discriminate.
    + vm_compute. reflexivity.
Defined.

(** ** The audio source *)

Section Audio.

Lemma gui_step_no_audio c e :
  gui_starts_audio e = false ->
  Gui.audio_recording c = false /\ Deque.items (Gui.audio_entropy c) = [] ->
  Gui.audio_recording (Gui.step c e) = false
  /\ Deque.items (Gui.audio_entropy (Gui.step c e)) = [].
Proof.
  intros He [Hrec Hempty].
  destruct e as [[|] now | | x y timestamp current_time
                | [mix |] | [s |] | reading | ];
    try discriminate; cbn;
    unfold Gui.on_mouse_move, Gui.cpu_tick, Gui.audio_open, Gui.audio_read,
      Gui.audio_exit;
    rewrite ?Hrec, ?andb_false_r;
    try destruct (Gui.collecting c); try destruct (Gui.audio_stream c);
    cbn; split; assumption.
Qed.

Lemma gui_run_no_audio es :
  forall c,
    forallb (fun e => negb (gui_starts_audio e)) es = true ->
    Gui.audio_recording c = false /\ Deque.items (Gui.audio_entropy c) = [] ->
    Gui.audio_recording (Gui.run es c) = false
    /\ Deque.items (Gui.audio_entropy (Gui.run es c)) = [].
Proof.
  induction es as [| e es IH]; intros c Hes Hc; [exact Hc |].
  cbn in Hes. apply andb_true_iff in Hes. destruct Hes as [He Hes].
  apply negb_true_iff in He.
  cbn. apply IH; [exact Hes | apply gui_step_no_audio; assumption].
Qed.

(** The stream object, once set, stays; each release event closes it
    once more. *)
Lemma gui_step_stream c e s :
  gui_opens_stream e = false ->
  Gui.audio_stream c = Some s ->
  Gui.audio_stream (Gui.step c e) = Some s
  /\ count_effect (is_stream_close s) (Gui.effects (Gui.step c e))
     = (count_effect (is_stream_close s) (Gui.effects c)
        + (if gui_is_release e then 1 else 0))%nat.
Proof.
  intros He Hs. unfold count_effect.
  destruct e as [[|] now | | x y timestamp current_time
                | [mix |] | [s' |] | [[[[rms peak] variance] timestamp] |] | ];
    try discriminate; cbn;
    unfold Gui.on_mouse_move, Gui.cpu_tick, Gui.audio_open, Gui.audio_read,
      Gui.audio_exit;
    rewrite ?Hs;
    try destruct (Gui.collecting c); try destruct (Gui.audio_recording c);
    try destruct (Gui.mouse_listener c);
    cbn; rewrite ?Hs, ?filter_app, ?length_app; cbn;
    rewrite ?Nat.eqb_refl; cbn; split; try reflexivity; try assumption; lia.
Qed.

End Audio.

(** X13. Audio samples are collected only in a session started with
    include_audio=True.  As long as start_collection was never called
    with include_audio=True, whatever else happened (starts without
    audio, stops, mouse moves, CPU turns, steps of an audio thread), the
    audio pool is empty, has_sufficient_entropy() is false at every
    clock reading and generate_random_numbers raises "Insufficient
    entropy". *)
Theorem X13_no_numbers_without_audio
    (es : list Gui.event) (numbers : list Z) (count min_entropy_samples : Z)
    (now : Q) (time_ns : Z -> Z) :
  forallb (fun e => negb (gui_starts_audio e)) es = true ->
  let rng := {| Gui.collector := Gui.run es Gui.init;
                Gui.generated_numbers := numbers |} in
  Gui.audio_recording (Gui.collector rng) = false
  /\ Deque.items (Gui.audio_entropy (Gui.collector rng)) = []
  /\ Gui.has_sufficient_entropy 30 300 100 now (Gui.collector rng) = false
  /\ Gui.generate_random_numbers count min_entropy_samples now time_ns rng
     = (inl (ValueError Insufficient_entropy), rng).
Proof.
  intros Hes rng.
  destruct (gui_run_no_audio es Gui.init Hes) as [Hrec Hempty];
    [split; reflexivity |].
  assert (Hsuff : Gui.has_sufficient_entropy 30 300 100 now (Gui.collector rng)
                  = false).
  { apply gui_insufficient_without_audio. unfold Deque.len.
    cbn [Gui.collector rng]. rewrite Hempty. cbn. lia. }
  split; [exact Hrec |]. split; [exact Hempty |]. split; [exact Hsuff |].
  rewrite gui_generate_cases, Hsuff. reflexivity.
Qed.

(** The session started without audio, with 301 mouse samples and 300 s
    of movement, at 300 s. *)
Lemma X13_no_numbers_without_audio_witness :
  let rng := {| Gui.collector := Gui.run gui_events_no_audio Gui.init;
                Gui.generated_numbers := [] |} in
  Gui.audio_recording (Gui.collector rng) = false
  /\ Deque.items (Gui.audio_entropy (Gui.collector rng)) = []
  /\ Gui.has_sufficient_entropy 30 300 100 300 (Gui.collector rng) = false
  /\ Gui.generate_random_numbers 24 400 300 (fun _ => 0) rng
     = (inl (ValueError Insufficient_entropy), rng).
Proof.
  apply (X13_no_numbers_without_audio gui_events_no_audio [] 24 400 300%Q
           (fun _ => 0)).
  vm_compute. reflexivity.
Defined.

(** X14. The collector never forgets an audio stream: once the audio
    thread has stored one in audio_stream, and as long as no new stream
    is opened, it stays there, and every stop_collection and every exit
    of an audio thread calls close() on it once more.  So the number of
    close() calls on that stream grows by exactly the number of such
    events, whether or not it was closed before. *)
Theorem X14_stream_closed_by_every_release
    (c : Gui.EntropyCollector) (s : nat) (es : list Gui.event) :
  Gui.audio_stream c = Some s ->
  forallb (fun e => negb (gui_opens_stream e)) es = true ->
  Gui.audio_stream (Gui.run es c) = Some s
  /\ count_effect (is_stream_close s) (Gui.effects (Gui.run es c))
     = (count_effect (is_stream_close s) (Gui.effects c)
        + length (filter gui_is_release es))%nat.
Proof.
  revert c. induction es as [| e es IH]; intros c Hs Hes.
  - cbn. split; [exact Hs | lia].
  - cbn in Hes. apply andb_true_iff in Hes. destruct Hes as [He Hes].
    apply negb_true_iff in He.
    destruct (gui_step_stream c e s He Hs) as [Hs' Hcount].
    destruct (IH (Gui.step c e) Hs' Hes) as [Hfinal Hcounts].
    cbn [Gui.run fold_left filter]. unfold Gui.run in Hfinal, Hcounts.
    split; [exact Hfinal |]. rewrite Hcounts, Hcount.
    destruct (gui_is_release e); cbn [length]; lia.
Qed.

(** An ordinary session with audio: start, the stream 0 opens, one
    buffer is read, stop, the audio thread leaves its loop.  The stream
    is closed twice; a further stop closes it a third time. *)
Lemma X14_stream_closed_by_every_release_witness :
  let c := Gui.run [Gui.Start true 0; Gui.Audio_open (Some 0%nat)] Gui.init in
  let es := [Gui.Audio_read (Some (1, 2, 3, 4)); Gui.Stop; Gui.Audio_exit;
             Gui.Stop] in
  Gui.audio_stream (Gui.run es c) = Some 0%nat
  /\ count_effect (is_stream_close 0) (Gui.effects (Gui.run es c))
     = (count_effect (is_stream_close 0) (Gui.effects c)
        + length (filter gui_is_release es))%nat.
Proof.
  apply (X14_stream_closed_by_every_release
           (Gui.run [Gui.Start true 0; Gui.Audio_open (Some 0%nat)] Gui.init)
           0%nat
           [Gui.Audio_read (Some (1, 2, 3, 4)); Gui.Stop; Gui.Audio_exit;
            Gui.Stop]); reflexivity.
Defined.

Example stream_closed_three_times :
  count_effect (is_stream_close 0)
    (Gui.effects
       (Gui.run [Gui.Start true 0; Gui.Audio_open (Some 0%nat);
                 Gui.Audio_read (Some (1, 2, 3, 4)); Gui.Stop; Gui.Audio_exit;
                 Gui.Stop]
                Gui.init))
  = 3%nat.
Proof. reflexivity. Qed.

(** ** Encodings *)

Section Encodings.

Lemma Z_of_byte_range b : 0 <= Codec.Z_of_byte b < 256.
Proof.
  unfold Codec.Z_of_byte. pose proof (Byte.to_N_bounded b). lia.
Qed.

Lemma Z_of_byte_of_Z z : Codec.Z_of_byte (Codec.byte_of_Z z) = z mod 256.
Proof.
  unfold Codec.Z_of_byte, Codec.byte_of_Z.
  pose proof (Z.mod_pos_bound z 256 eq_refl) as Hmod.
  destruct (Byte.of_N (Z.to_N (z mod 256))) as [b |] eqn:Hb.
  - apply Byte.to_of_N in Hb. rewrite Hb. lia.
  - apply Byte.of_N_None_iff in Hb. lia.
Qed.

Lemma from_bytes_big_4 b0 b1 b2 b3 :
  Codec.from_bytes_big [b0; b1; b2; b3]
  = ((Codec.Z_of_byte b0 * 256 + Codec.Z_of_byte b1) * 256
     + Codec.Z_of_byte b2) * 256 + Codec.Z_of_byte b3.
Proof. unfold Codec.from_bytes_big. cbn [fold_left]. lia. Qed.

Lemma be_bytes_4 z :
  Codec.be_bytes 4 z
  = [Codec.byte_of_Z (Z.shiftr z 24); Codec.byte_of_Z (Z.shiftr z 16);
     Codec.byte_of_Z (Z.shiftr z 8); Codec.byte_of_Z (Z.shiftr z 0)].
Proof. reflexivity. Qed.

(** Decoding the four bytes gives the number back. *)
Lemma from_bytes_be_bytes z :
  0 <= z < 2 ^ 32 -> Codec.from_bytes_big (Codec.be_bytes 4 z) = z.
Proof.
  intros Hz. rewrite be_bytes_4, from_bytes_big_4, !Z_of_byte_of_Z.
  rewrite !Z.shiftr_div_pow2 by lia.
  change (2 ^ 24) with 16777216. change (2 ^ 16) with 65536.
  change (2 ^ 8) with 256. change (2 ^ 0) with 1.
  change (2 ^ 32) with 4294967296 in Hz.
  Z.div_mod_to_equations. lia.
Qed.

Lemma flat_map_be_bytes_inj p1 :
  forall p2,
    forallb is_u32 p1 = true -> forallb is_u32 p2 = true ->
    flat_map (Codec.be_bytes 4) p1 = flat_map (Codec.be_bytes 4) p2 ->
    p1 = p2.
Proof.
  induction p1 as [| a p1 IH]; intros [| b p2] H1 H2 Heq;
    try reflexivity; try discriminate.
  cbn in H1, H2. apply andb_true_iff in H1, H2.
  destruct H1 as [Ha H1], H2 as [Hb H2].
  cbn [flat_map] in Heq. rewrite !be_bytes_4 in Heq. cbn [app] in Heq.
  injection Heq as E0 E1 E2 E3 Erest.
  assert (Hab : a = b).
  { rewrite <- (from_bytes_be_bytes a), <- (from_bytes_be_bytes b)
      by (apply is_u32_iff; assumption).
    rewrite !be_bytes_4, E0, E1, E2, E3. reflexivity. }
  subst b. f_equal. apply IH; assumption.
Qed.

Lemma sha256_shape msg :
  exists h, SHA256.sha256 msg
            = flat_map (Codec.be_bytes 4)
                [SHA256.ra h; SHA256.rb h; SHA256.rc h; SHA256.rd h;
                 SHA256.re h; SHA256.rf h; SHA256.rg h; SHA256.rh h].
Proof. unfold SHA256.sha256. eexists. reflexivity. Qed.

End Encodings.

(** X15. Only eleven bits of the digest reach the output: the digest
    has 32 bytes, and the generated number is made of the three low
    bits of its third byte followed by its fourth byte; the first two
    bytes, the five high bits of the third and the other 28 bytes play
    no role. *)
Theorem X15_output_is_eleven_digest_bits (hasher : Hasher.t) :
  length (Hasher.digest hasher) = 32%nat
  /\ exists d0 d1 d2 d3 others,
       Hasher.digest hasher = d0 :: d1 :: d2 :: d3 :: others
       /\ Shared.reduce hasher
          = (Codec.Z_of_byte d2 mod 8) * 256 + Codec.Z_of_byte d3.
Proof.
  unfold Shared.reduce, Hasher.digest.
  destruct (sha256_shape hasher) as [h ->].
  cbn [flat_map app]. rewrite !be_bytes_4. cbn [app length firstn].
  split; [reflexivity |].
  do 5 eexists. split; [reflexivity |].
  rewrite from_bytes_big_4.
  pose proof (Z_of_byte_range (Codec.byte_of_Z (Z.shiftr (SHA256.ra h) 24))).
  pose proof (Z_of_byte_range (Codec.byte_of_Z (Z.shiftr (SHA256.ra h) 16))).
  pose proof (Z_of_byte_range (Codec.byte_of_Z (Z.shiftr (SHA256.ra h) 8))).
  pose proof (Z_of_byte_range (Codec.byte_of_Z (Z.shiftr (SHA256.ra h) 0))).
  Z.div_mod_to_equations. lia.
Qed.

(** X16. The four-byte encoding loses nothing: to_bytes(4, 'big')
    succeeds exactly on the numbers from 0 to 2^32 - 1, gives four
    bytes, and from_bytes(..., 'big') gives the number back; and at a
    given timestamp two different pools of four-byte samples never give
    generate_random_number the same hash input. *)
Theorem X16_four_byte_encoding_is_lossless
    (z timestamp : Z) (pool1 pool2 : list Z) :
  (Codec.to_bytes4 z = None <-> z < 0 \/ 2 ^ 32 <= z)
  /\ (forall bs, Codec.to_bytes4 z = Some bs ->
                 length bs = 4%nat /\ Codec.from_bytes_big bs = z)
  /\ (forallb is_u32 pool1 = true -> forallb is_u32 pool2 = true ->
      hash_input_one timestamp pool1 = hash_input_one timestamp pool2 ->
      pool1 = pool2).
Proof.
  split; [| split].
  - unfold Codec.to_bytes4.
    destruct (Z.leb_spec 0 z), (Z.ltb_spec z (2 ^ 32)); cbn [andb];
      split; try discriminate; try lia; intros _; try reflexivity; lia.
  - intros bs Hbs. unfold Codec.to_bytes4 in Hbs.
    destruct (Z.leb_spec 0 z), (Z.ltb_spec z (2 ^ 32)); cbn [andb] in Hbs;
      try discriminate.
    injection Hbs as <-. split; [reflexivity |].
    apply from_bytes_be_bytes. lia.
  - intros H1 H2 Heq. unfold hash_input_one in Heq.
    apply app_inv_head in Heq. apply flat_map_be_bytes_inj; assumption.
Qed.

(** The number 0x01020304, and the pools [1; 2] and [1; 2]. *)
Lemma X16_four_byte_encoding_is_lossless_witness :
  (length [x01; x02; x03; x04] = 4%nat
   /\ Codec.from_bytes_big [x01; x02; x03; x04] = 0x01020304)
  /\ [1; 2] = [1; 2].
Proof.
  split.
  - apply (proj1 (proj2 (X16_four_byte_encoding_is_lossless
                           0x01020304 0 [] []))).
    reflexivity.
  - apply (proj2 (proj2 (X16_four_byte_encoding_is_lossless 0 7 [1; 2] [1; 2])));
      reflexivity.
Defined.

(** ** The mouse sample *)

Section MouseSample.

Lemma land_lxor_distr a b m :
  Z.land (Z.lxor a b) m = Z.lxor (Z.land a m) (Z.land b m).
Proof.
  apply Z.bits_inj'. intros n Hn.
  rewrite Z.land_spec, !Z.lxor_spec, !Z.land_spec.
  destruct (Z.testbit a n), (Z.testbit b n), (Z.testbit m n); reflexivity.
Qed.

End MouseSample.

(** X17. The position of the pointer enters a mouse sample only through
    the low 16 bits of x XOR y: two positions with the same value there
    give the same sample at the same time.time_ns() reading; in
    particular exchanging x and y changes nothing. *)
Theorem X17_sample_sees_only_x_xor_y
    (x y x' y' timestamp : Z) (pool : Deque.t) :
  Z.land (Z.lxor x y) 0xFFFF = Z.land (Z.lxor x' y') 0xFFFF ->
  Shared.mouse_sample x y timestamp pool
  = Shared.mouse_sample x' y' timestamp pool.
Proof.
  intros Hsame. unfold Shared.mouse_sample.
  rewrite (land_lxor_distr (Z.lxor x y)), (land_lxor_distr (Z.lxor x' y')).
  rewrite Hsame. reflexivity.
Qed.

(** The positions (640, 480) and (480, 640), and (641, 481), which
    differs from the first in the lowest bit of both coordinates. *)
Lemma X17_sample_sees_only_x_xor_y_witness :
  Shared.mouse_sample 640 480 1700000000123456789 (Deque.empty 2000)
  = Shared.mouse_sample 480 640 1700000000123456789 (Deque.empty 2000)
  /\ Shared.mouse_sample 640 480 1700000000123456789 (Deque.mk 2000 [5])
     = Shared.mouse_sample 641 481 1700000000123456789 (Deque.mk 2000 [5]).
Proof.
  split.
  - apply (X17_sample_sees_only_x_xor_y 640 480 480 640). reflexivity.
  - apply (X17_sample_sees_only_x_xor_y 640 480 641 481). reflexivity.
Defined.

(** ** The front end *)

Section FrontEnd.

(** A step of the listener or of a thread changes neither the
    collecting flag, nor the listener attribute, nor the calls made on
    listeners. *)
Lemma gui_thread_step c e :
  Front.is_thread_step e = true ->
  Gui.collecting (Gui.step c e) = Gui.collecting c
  /\ Gui.mouse_listener (Gui.step c e) = Gui.mouse_listener c
  /\ count_effect is_listener_start (Gui.effects (Gui.step c e))
     = count_effect is_listener_start (Gui.effects c)
  /\ count_effect is_listener_stop (Gui.effects (Gui.step c e))
     = count_effect is_listener_stop (Gui.effects c).
Proof.
  intros He. unfold count_effect.
  destruct e as [include_audio now | | x y timestamp current_time
                | [mix |] | [s |] | [[[[rms peak] variance] timestamp] |] | ];
    try discriminate; cbn;
    unfold Gui.on_mouse_move, Gui.cpu_tick, Gui.audio_open, Gui.audio_read,
      Gui.audio_exit;
    try destruct (Gui.collecting c) eqn:Hc;
    try destruct (Gui.audio_recording c);
    try destruct (Gui.audio_stream c);
    cbn; rewrite ?filter_app, ?length_app, ?Hc; cbn;
    repeat split; try reflexivity; lia.
Qed.

(** The front end's flag is the collector's, a collecting collector has
    a listener attribute, and the listeners started are those stopped
    plus the one running while collecting. *)
Lemma front_step_invariant g e :
  let inv := fun g =>
    Front.collecting g = Gui.collecting (Gui.collector (Front.rng g))
    /\ (Front.collecting g = true ->
        Gui.mouse_listener (Gui.collector (Front.rng g)) = true)
    /\ count_effect is_listener_start
         (Gui.effects (Gui.collector (Front.rng g)))
       = (count_effect is_listener_stop
            (Gui.effects (Gui.collector (Front.rng g)))
          + (if Front.collecting g then 1 else 0))%nat in
  inv g -> inv (Front.step g e).
Proof.
  intros inv (Hflag & Hlistener & Hcount). subst inv. cbv beta.
  destruct e as [now | now time_ns | | e]; cbn [Front.step].
  - unfold Front.toggle_collection.
    destruct (Front.collecting g) eqn:Hc; cbn [negb].
    + specialize (Hlistener eq_refl).
      unfold Front.stop_collection, Gui.stop_entropy_collection, modify,
        Gui.stop_collection, count_effect in *.
      cbn. rewrite Hlistener. split; [reflexivity |].
      split; [discriminate |].
      rewrite !filter_app, !length_app. cbn.
      destruct (Gui.audio_stream (Gui.collector (Front.rng g))); cbn; lia.
    + unfold Front.start_collection, Gui.start_entropy_collection, modify,
        Gui.start_collection, count_effect in *.
      cbn. split; [reflexivity |]. split; [reflexivity |].
      rewrite !filter_app, !length_app. cbn. lia.
  - unfold Front.generate_numbers.
    pose proof (gui_generate_frame 24 400 now time_ns (Front.rng g)) as Hframe.
    destruct (Gui.generate_random_numbers 24 400 now time_ns (Front.rng g))
      as [[[msg |] | numbers] rng'];
      cbn [snd Front.rng Front.collecting].
    + subst rng'. tauto.
    + subst rng'. tauto.
    + destruct Hframe as (Hcoll & _). rewrite Hcoll. tauto.
  - unfold Front.on_closing.
    destruct (Front.collecting g) eqn:Hc; [| rewrite Hc; tauto].
    specialize (Hlistener eq_refl).
    unfold Front.stop_collection, Gui.stop_entropy_collection, modify,
      Gui.stop_collection, count_effect in *.
    cbn. rewrite Hlistener. split; [reflexivity |].
    split; [discriminate |].
    rewrite !filter_app, !length_app. cbn.
    destruct (Gui.audio_stream (Gui.collector (Front.rng g))); cbn; lia.
  - destruct (Front.is_thread_step e) eqn:He; [| tauto].
    destruct (gui_thread_step (Gui.collector (Front.rng g)) e He)
      as (Hc & Hl & Hs & Hp).
    cbn [Front.rng Front.collecting Gui.collector].
    rewrite Hc, Hl, Hs, Hp. tauto.
Qed.

End FrontEnd.

(** X18. Driven through the front end, the collector is started and
    stopped in turn.  After any sequence of clicks on the two buttons,
    steps of the producers and closing of the window, the front end's
    collecting flag equals the collector's, and the number of listeners
    started is the number of listeners stopped, plus one exactly while
    collecting: start_collection is never reached on a collecting
    collector, nor stop_collection on an idle one. *)
Theorem X18_front_end_alternates_start_and_stop (es : list Front.event) :
  let g := Front.run es Front.init in
  let c := Gui.collector (Front.rng g) in
  Front.collecting g = Gui.collecting c
  /\ count_effect is_listener_start (Gui.effects c)
     = (count_effect is_listener_stop (Gui.effects c)
        + (if Gui.collecting c then 1 else 0))%nat.
Proof.
  assert (Hgen : forall g,
             (Front.collecting g = Gui.collecting (Gui.collector (Front.rng g))
              /\ (Front.collecting g = true ->
                  Gui.mouse_listener (Gui.collector (Front.rng g)) = true)
              /\ count_effect is_listener_start
                   (Gui.effects (Gui.collector (Front.rng g)))
                 = (count_effect is_listener_stop
                      (Gui.effects (Gui.collector (Front.rng g)))
                    + (if Front.collecting g then 1 else 0))%nat) ->
             let g' := Front.run es g in
             Front.collecting g' = Gui.collecting (Gui.collector (Front.rng g'))
             /\ (Front.collecting g' = true ->
                 Gui.mouse_listener (Gui.collector (Front.rng g')) = true)
             /\ count_effect is_listener_start
                  (Gui.effects (Gui.collector (Front.rng g')))
                = (count_effect is_listener_stop
                     (Gui.effects (Gui.collector (Front.rng g')))
                   + (if Front.collecting g' then 1 else 0))%nat).
  { induction es as [| e es IH]; intros g Hg; [exact Hg |].
    cbn. apply IH. apply (front_step_invariant g e Hg). }
  intros g c.
  destruct (Hgen Front.init) as (Hflag & _ & Hcount).
  { cbn. split; [reflexivity | split; [discriminate | reflexivity]]. }
  fold g in Hflag, Hcount. fold c in Hflag, Hcount.
  split; [exact Hflag |]. rewrite <- Hflag. exact Hcount.
Qed.

Example front_end_three_toggles :
  let g := Front.run [Front.Toggle 0; Front.Producer (Gui.Audio_open (Some 0%nat));
                      Front.Toggle 10; Front.Toggle 20; Front.Close; Front.Close]
                     Front.init in
  Front.collecting g = false
  /\ Gui.effects (Gui.collector (Front.rng g))
     = [Listener_start; Cpu_thread_start; Audio_thread_start; Stream_open 0;
        Listener_stop; Stream_stop 0; Stream_close 0;
        Listener_start; Cpu_thread_start; Audio_thread_start;
        Listener_stop; Stream_stop 0; Stream_close 0].
Proof. split; reflexivity. Qed.

Section Grid.

Lemma string_length_append s1 s2 :
  String.length (String.append s1 s2)
  = (String.length s1 + String.length s2)%nat.
Proof. induction s1 as [| a s1 IH]; cbn; [reflexivity | now rewrite IH]. Qed.

(** A number of the output range is printed on exactly four characters. *)
Lemma format_4d_width v :
  in_output_range v -> String.length (Front.format_4d v) = 4%nat.
Proof.
  intros Hv.
  assert (Hall : forallb (fun k => Nat.eqb (String.length
                                              (Front.format_4d (Z.of_nat k))) 4)
                         (seq 0 2048) = true)
    by (vm_compute; reflexivity).
  rewrite forallb_forall in Hall.
  specialize (Hall (Z.to_nat v)).
  rewrite Z2Nat.id in Hall by apply Hv.
  apply Nat.eqb_eq, Hall, in_seq. unfold in_output_range in Hv. lia.
Qed.

(** A row of six such numbers is printed on 39 characters. *)
Lemma row_text_width row :
  length row = 6%nat -> Forall in_output_range row ->
  String.length (Front.row_text row) = 39%nat.
Proof.
  intros Hlen Hrange.
  do 6 (destruct row as [| ? row]; [discriminate |]).
  destruct row; [| discriminate].
  repeat match goal with
         | H : Forall _ (_ :: _) |- _ => inversion H; subst; clear H
         end.
  unfold Front.row_text. cbn [map String.concat].
  rewrite !string_length_append, !format_4d_width by assumption.
  reflexivity.
Qed.

(** 24 numbers are shown on four rows of six, in order. *)
Lemma rows_of_24 numbers :
  length numbers = 24%nat ->
  exists r1 r2 r3 r4,
    numbers = r1 ++ r2 ++ r3 ++ r4
    /\ length r1 = 6%nat /\ length r2 = 6%nat
    /\ length r3 = 6%nat /\ length r4 = 6%nat
    /\ Front.rows numbers = [r1; r2; r3; r4].
Proof.
  intros Hlen. unfold Front.rows. rewrite Hlen.
  do 24 (destruct numbers as [| ? numbers]; [discriminate |]).
  destruct numbers; [| discriminate].
  do 4 eexists. cbn.
  split; [| split; [| split; [| split; [| split]]]];
    [| | | | | reflexivity]; reflexivity.
Qed.

(** The collector of the front end is a reachable collector. *)
Lemma front_run_ok es g :
  gui_ok (Gui.collector (Front.rng g)) ->
  gui_ok (Gui.collector (Front.rng (Front.run es g))).
Proof.
  revert g. induction es as [| e es IH]; intros g Hg; [exact Hg |].
  cbn. apply IH.
  destruct e as [now | now time_ns | | e]; cbn [Front.step].
  - unfold Front.toggle_collection. destruct (negb _).
    + apply (gui_run_ok [Gui.Start true now] _ Hg).
    + apply (gui_run_ok [Gui.Stop] _ Hg).
  - unfold Front.generate_numbers.
    pose proof (gui_generate_frame 24 400 now time_ns (Front.rng g)) as Hframe.
    destruct (Gui.generate_random_numbers 24 400 now time_ns (Front.rng g))
      as [[[msg |] | numbers] rng']; cbn [snd Front.rng].
    + now subst rng'.
    + now subst rng'.
    + destruct Hframe as (-> & _). exact Hg.
  - unfold Front.on_closing. destruct (Front.collecting g); [| exact Hg].
    apply (gui_run_ok [Gui.Stop] _ Hg).
  - destruct (Front.is_thread_step e); [| exact Hg].
    apply (gui_run_ok [e] _ Hg).
Qed.

End Grid.

(** X19. What the generate button shows.  On a front end reached from
    its initial state by any clicks and producer steps, generate_numbers
    shows the warning [Insufficient entropy] and changes nothing when
    the sufficiency test fails; otherwise it shows four lines, the
    [f"{num:4d}"] texts of four consecutive rows of six numbers joined
    by [" | "], each line 39 characters long, and these 24 numbers, all
    in 0..2047, are what the call appends to the generator's history.
    The error box and the warning on the total are never shown. *)
Theorem X19_generate_button_shows_four_rows
    (es : list Front.event) (now : Q) (time_ns : Z -> Z) :
  let g := Front.run es Front.init in
  let out := Front.generate_numbers now time_ns g in
  (Gui.has_sufficient_entropy 30 300 100 now (Gui.collector (Front.rng g))
   = false ->
   out = (Front.Warning Insufficient_entropy, g))
  /\ (Gui.has_sufficient_entropy 30 300 100 now (Gui.collector (Front.rng g))
      = true ->
      exists r1 r2 r3 r4,
        fst out = Front.Rows (map Front.row_text [r1; r2; r3; r4])
        /\ Forall (fun row => length row = 6%nat) [r1; r2; r3; r4]
        /\ Forall in_output_range (r1 ++ r2 ++ r3 ++ r4)
        /\ Forall (fun line => String.length line = 39%nat)
             (map Front.row_text [r1; r2; r3; r4])
        /\ Gui.generated_numbers (Front.rng (snd out))
           = Gui.generated_numbers (Front.rng g) ++ r1 ++ r2 ++ r3 ++ r4
        /\ Gui.collector (Front.rng (snd out)) = Gui.collector (Front.rng g)
        /\ Front.collecting (snd out) = Front.collecting g).
Proof.
  intros g out. subst out. unfold Front.generate_numbers.
  split; intros Hsuff.
  - rewrite gui_generate_cases, Hsuff. cbn. now destruct g.
  - assert (Hok : gui_ok (Gui.collector (Front.rng g)))
      by (apply front_run_ok, gui_init_ok).
    pose proof (gui_sufficient_total _ _ _ _ _ Hsuff) as Htotal.
    rewrite (gui_generate_value (Front.rng g) 24 400 now time_ns Hok Hsuff)
      by lia.
    set (numbers := map _ (Gui.range 24)).
    assert (Hlen : length numbers = 24%nat).
    { subst numbers. rewrite length_map. reflexivity. }
    assert (Hrange : Forall in_output_range numbers).
    { subst numbers. apply Forall_forall. intros v Hv.
      apply in_map_iff in Hv. destruct Hv as (i & <- & _).
      unfold in_output_range, digest_mod_2048. apply Z.mod_pos_bound. lia. }
    destruct (rows_of_24 numbers Hlen)
      as (r1 & r2 & r3 & r4 & Heq & H1 & H2 & H3 & H4 & Hrows).
    exists r1, r2, r3, r4. cbn [fst snd Front.rng Front.collecting
                                Gui.generated_numbers Gui.collector].
    rewrite Hrows, <- Heq.
    rewrite Heq in Hrange.
    apply Forall_app in Hrange. destruct Hrange as [Hr1 Hrange].
    apply Forall_app in Hrange. destruct Hrange as [Hr2 Hrange].
    apply Forall_app in Hrange. destruct Hrange as [Hr3 Hr4].
    split; [reflexivity |].
    split; [repeat constructor; assumption |].
    split; [rewrite Heq; repeat (apply Forall_app; split); assumption |].
    split; [| split; [reflexivity | split; reflexivity]].
    cbn [map].
    constructor; [now apply row_text_width |].
    constructor; [now apply row_text_width |].
    constructor; [now apply row_text_width |].
    constructor; [now apply row_text_width | constructor].
Qed.

Example format_4d_values :
  map Front.format_4d [0; 7; 42; 683; 2047] = ["   0"; "   7"; "  42"; " 683"; "2047"]%string
  /\ Front.row_text [137; 695; 3; 2047; 0; 88]
     = " 137 |  695 |    3 | 2047 |    0 |   88"%string
  /\ Front.rows [1; 2; 3; 4; 5; 6; 7; 8] = [[1; 2; 3; 4; 5; 6]; [7; 8]].
Proof. repeat split; reflexivity. Qed.
